(** * Conversation-context sessions of [agent_service.py]

    A shallow embedding of the session classes of
    [21-agentic-memory/scripts/agent_service.py]: the windowing function
    [_trim_to_last_turns], the usage estimator [_estimate_usage_for_items],
    and the sessions [DefaultSession], [TrimmingSession],
    [SummarizingSession] and [TrackingCompactingSession].

    Python integers are unbounded, so they are [Z].  Python [str] values are
    modelled by [string]; the case and whitespace functions below are the
    ASCII fragment of Python's.  Conversation items are the JSON-like values
    the service stores: [None], booleans, integers, strings, lists and dicts.
    A dict is an association list in insertion order (the order [repr]
    prints), read with first-match lookup. *)

From Stdlib Require Import ZArith List String Ascii Bool Lia.
From Stdlib Require Import Numbers.DecimalString.
Import ListNotations.

Set Warnings "-register-all".

Local Open Scope string_scope.
Local Open Scope Z_scope.

(** ** Python values *)

Inductive pyval : Type :=
| PNone : pyval
| PBool : bool -> pyval
| PInt : Z -> pyval
| PStr : string -> pyval
| PList : list pyval -> pyval
| PDict : list (string * pyval) -> pyval.

Definition dict := list (string * pyval).

(** [TResponseInputItem]: whatever value the host appended. *)
Definition item := pyval.

(** [d.get(k)] as an option: [None] when the key is absent. *)
Fixpoint dict_lookup (d : dict) (k : string) : option pyval :=
  match d with
  | [] => None
  | (k', v) :: rest => if String.eqb k' k then Some v else dict_lookup rest k
  end.

(** [d.get(k, default)]. *)
Definition dict_get_default (d : dict) (k : string) (default : pyval) : pyval :=
  match dict_lookup d k with
  | Some v => v
  | None => default
  end.

(** [d.get(k)]: the default is [None]. *)
Definition dict_get (d : dict) (k : string) : pyval :=
  dict_get_default d k PNone.

(** Truth value of a Python object. *)
Definition py_truthy (v : pyval) : bool :=
  match v with
  | PNone => false
  | PBool b => b
  | PInt z => negb (z =? 0)
  | PStr s => negb (String.eqb s EmptyString)
  | PList l => match l with [] => false | _ => true end
  | PDict d => match d with [] => false | _ => true end
  end.

(** [a or b]. *)
Definition py_or (a b : pyval) : pyval :=
  if py_truthy a then a else b.

(** [a == b] for a string constant [b]: only a [str] of the same characters
    compares equal to a [str]. *)
Definition py_eq_str (a : pyval) (b : string) : bool :=
  match a with
  | PStr s => String.eqb s b
  | _ => false
  end.

(** ** Strings *)

Definition is_upper (c : ascii) : bool :=
  let n := nat_of_ascii c in (65 <=? n)%nat && (n <=? 90)%nat.

Definition lower_char (c : ascii) : ascii :=
  if is_upper c then ascii_of_nat (nat_of_ascii c + 32) else c.

(** [s.lower()]. *)
Fixpoint lower (s : string) : string :=
  match s with
  | EmptyString => EmptyString
  | String c rest => String (lower_char c) (lower rest)
  end.

(** The ASCII characters [str.strip()] removes: TAB, LF, VT, FF, CR, the
    separators FS, GS, RS, US and the space. *)
Definition is_space (c : ascii) : bool :=
  let n := nat_of_ascii c in
  ((9 <=? n)%nat && (n <=? 13)%nat) || ((28 <=? n)%nat && (n <=? 32)%nat).

Fixpoint lstrip (s : string) : string :=
  match s with
  | EmptyString => EmptyString
  | String c rest => if is_space c then lstrip rest else s
  end.

Definition string_rev (s : string) : string :=
  string_of_list_ascii (rev (list_ascii_of_string s)).

Definition rstrip (s : string) : string :=
  string_rev (lstrip (string_rev s)).

(** [s.strip()]. *)
Definition strip (s : string) : string :=
  rstrip (lstrip s).

(** [sep.join(parts)]. *)
Definition join (sep : string) (parts : list string) : string :=
  String.concat sep parts.

Definition nonempty (s : string) : bool := negb (String.eqb s EmptyString).

(** [len(s)]. *)
Definition len (s : string) : Z := Z.of_nat (String.length s).

(** [str(n)] for an integer. *)
Definition str_of_int (z : Z) : string :=
  NilEmpty.string_of_int (Z.to_int z).

Definition hex_digit (n : nat) : ascii :=
  if (n <? 10)%nat then ascii_of_nat (48 + n) else ascii_of_nat (87 + n).

Definition hex2 (c : ascii) : string :=
  let n := nat_of_ascii c in
  String (hex_digit (n / 16)) (String (hex_digit (n mod 16)) EmptyString).

Definition backslash : ascii := ascii_of_nat 92.
Definition squote : ascii := ascii_of_nat 39.
Definition dquote : ascii := ascii_of_nat 34.

Fixpoint contains_char (c : ascii) (s : string) : bool :=
  match s with
  | EmptyString => false
  | String c' rest => Ascii.eqb c c' || contains_char c rest
  end.

Definition repr_char (quote c : ascii) : string :=
  let n := nat_of_ascii c in
  if Ascii.eqb c quote || Ascii.eqb c backslash then
    String backslash (String c EmptyString)
  else if (n =? 9)%nat then String backslash "t"
  else if (n =? 10)%nat then String backslash "n"
  else if (n =? 13)%nat then String backslash "r"
  else if (n <? 32)%nat || (126 <? n)%nat then String backslash ("x" ++ hex2 c)
  else String c EmptyString.

Fixpoint repr_chars (quote : ascii) (s : string) : string :=
  match s with
  | EmptyString => EmptyString
  | String c rest => repr_char quote c ++ repr_chars quote rest
  end.

(** [repr(s)] of a string: single quotes unless the text has a single quote
    and no double quote. *)
Definition repr_str (s : string) : string :=
  let quote :=
    if contains_char squote s && negb (contains_char dquote s)
    then dquote else squote in
  String quote (repr_chars quote s ++ String quote EmptyString).

(** [repr(v)]. *)
Fixpoint py_repr (v : pyval) : string :=
  match v with
  | PNone => "None"
  | PBool true => "True"
  | PBool false => "False"
  | PInt z => str_of_int z
  | PStr s => repr_str s
  | PList l => "[" ++ join ", " (map py_repr l) ++ "]"
  | PDict d =>
      "{" ++ join ", "
        ((fix entries (d : list (string * pyval)) : list string :=
            match d with
            | [] => []
            | (k, v) :: rest =>
                (repr_str k ++ ": " ++ py_repr v) :: entries rest
            end) d) ++ "}"
  end.

(** [str(v)]: a string is itself, everything else prints as its [repr]. *)
Definition py_str (v : pyval) : string :=
  match v with
  | PStr s => s
  | _ => py_repr v
  end.

(** ** Turn counting *)

Definition ROLE_USER : string := "user".

(** [_is_user_msg].  A dict is a user message when its ["role"] entry is the
    string ["user"]; with no role (or role [None]) both remaining tests read
    a missing role and fail.  Values that are not dicts have no [role]
    attribute. *)
Definition _is_user_msg (it : item) : bool :=
  match it with
  | PDict d =>
      match dict_get d "role" with
      | PNone =>
          if py_eq_str (dict_get d "type") "message"
          then py_eq_str (dict_get d "role") ROLE_USER
          else false
      | role => py_eq_str role ROLE_USER
      end
  | _ => false
  end.

(** [_count_user_turns]. *)
Fixpoint _count_user_turns (items : list item) : Z :=
  match items with
  | [] => 0
  | it :: rest =>
      (if _is_user_msg it then 1 else 0) + _count_user_turns rest
  end.

(** ** Python list slices *)

(** [l[i:]]: a negative start counts from the end, and the start is clamped
    into the list. *)
Definition slice_from {A : Type} (l : list A) (i : Z) : list A :=
  let n := Z.of_nat (List.length l) in
  let start := if i <? 0 then Z.max 0 (i + n) else Z.min i n in
  skipn (Z.to_nat start) l.

(** [l[:i]] for a start-less slice. *)
Definition slice_to {A : Type} (l : list A) (i : Z) : list A :=
  let n := Z.of_nat (List.length l) in
  let stop := if i <? 0 then Z.max 0 (i + n) else Z.min i n in
  firstn (Z.to_nat stop) l.

(** ** The windowing function *)

(** The backward scan of [_trim_to_last_turns]: [ritems] are the items from
    index [i] down to 0, [count] the user messages seen so far.  Returns the
    final [count] and [start_idx], which stays 0 unless the [keep]-th user
    message is met. *)
Fixpoint scan_back (keep : Z) (ritems : list item) (i count : Z) : Z * Z :=
  match ritems with
  | [] => (count, 0)
  | it :: rest =>
      if _is_user_msg it then
        let count' := count + 1 in
        if count' =? keep then (count', i)
        else scan_back keep rest (i - 1) count'
      else scan_back keep rest (i - 1) count
  end.

(** [_trim_to_last_turns(items, force_trim=...)] for a session with the
    given [max_turns] and [keep_last_n_turns]. *)
Definition _trim_to_last_turns (max_turns keep_last_n_turns : Z)
    (items : list item) (force_trim : bool) : list item * Z :=
  match items with
  | [] => (items, 0)
  | _ =>
      let total_turns := _count_user_turns items in
      if negb force_trim && (total_turns <? max_turns) then
        (items, total_turns)
      else
        let keep := keep_last_n_turns in
        let '(count, start_idx) :=
          scan_back keep (rev items) (Z.of_nat (List.length items) - 1) 0 in
        let trimmed :=
          if keep <=? count then slice_from items start_idx else items in
        (trimmed, total_turns)
  end.

(** ** Token estimation *)

(** [int(math.ceil(len(text) / 4.0))]: the quotient by 4 rounded up.  The
    float division by 4 is exact for every length below 2^53. *)
Definition ceil_quarter (n : Z) : Z := (n + 3) / 4.

(** [_estimate_tokens_from_text]. *)
Definition _estimate_tokens_from_text (text : string) : Z :=
  if String.eqb text EmptyString then 0 else ceil_quarter (len text).

(** The result of [_normalize_text] on the entries of a dict, key by key. *)
Fixpoint assoc_find {B : Type} (d : list (string * B)) (k : string) : option B :=
  match d with
  | [] => None
  | (k', v) :: rest => if String.eqb k' k then Some v else assoc_find rest k
  end.

Definition none_if_empty (s : string) : option string :=
  if String.eqb s EmptyString then None else Some s.

Definition or_empty (o : option string) : string :=
  match o with
  | Some s => s
  | None => EmptyString
  end.

Definition normalize_keys : list string :=
  ["text"; "output"; "arguments"; "content"; "message"; "value"].

(** The texts [filter(None, ...)] keeps: those present and not empty. *)
Definition keep_text (o : option string) : list string :=
  match o with
  | Some s => if String.eqb s EmptyString then [] else [s]
  | None => []
  end.

(** The nested [_normalize_text] of [_extract_role_and_text].  A dict is
    read at the six keys of [normalize_keys], in that order; the recursive
    calls on its values are made entry by entry and then looked up by key
    (see [normalize_text_dict] below for the equation in the source's
    form). *)
Fixpoint _normalize_text (value : pyval) : option string :=
  match value with
  | PNone => None
  | PStr s => none_if_empty (strip s)
  | PInt _ | PBool _ => Some (py_str value)
  | PList l =>
      none_if_empty
        (join " "
           (filter nonempty
              (map (fun part => or_empty (_normalize_text part)) l)))
  | PDict d =>
      let normalized :=
        (fix entries (d : list (string * pyval)) : list (string * option string) :=
           match d with
           | [] => []
           | (k, v) :: rest => (k, _normalize_text v) :: entries rest
           end) d in
      none_if_empty
        (join " "
           (flat_map
              (fun key =>
                 match assoc_find normalized key with
                 | Some t => keep_text t
                 | None => []
                 end)
              normalize_keys))
  end.

Definition tool_message_types : list string :=
  ["function_call"; "function_call_output"; "tool"; "tool_result"].

Definition str_in (s : string) (l : list string) : bool :=
  existsb (String.eqb s) l.

(** [raw] when it is a dict. *)
Definition as_dict (v : pyval) : option dict :=
  match v with
  | PDict d => Some d
  | _ => None
  end.

(** [_extract_role_and_text]. *)
Definition _extract_role_and_text (it : item) : string * string :=
  let role0 := "assistant" in
  let '(role, content, message_type, raw) :=
    match it with
    | PDict d =>
        let role :=
          lower (py_str (py_or (dict_get_default d "role" (PStr role0))
                               (PStr role0))) in
        let content := dict_get_default d "content" (PStr EmptyString) in
        let message_type :=
          lower (py_str
                   (py_or (py_or (dict_get_default d "messageType" (PStr EmptyString))
                                 (dict_get_default d "type" (PStr EmptyString)))
                          (PStr EmptyString))) in
        (role, content, message_type, dict_get d "raw")
    | _ => (role0, PStr EmptyString, EmptyString, PNone)
    end in
  let raw_type :=
    match as_dict raw with
    | Some r =>
        lower (py_str (py_or (dict_get_default r "type" (PStr EmptyString))
                             (PStr EmptyString)))
    | None => EmptyString
    end in
  let role :=
    if str_in message_type tool_message_types
       || str_in raw_type tool_message_types
    then "tool" else role in
  let extra_item :=
    match it with
    | PDict d =>
        [dict_get d "output"; dict_get d "arguments"; dict_get d "data";
         dict_get d "text"]
    | _ => []
    end in
  let extra_raw :=
    match as_dict raw with
    | Some r =>
        map (dict_get r)
          ["output"; "arguments"; "response"; "content"; "summary";
           "details"; "text"]
    | None => []
    end in
  let text_parts :=
    (keep_text (_normalize_text content)
     ++ flat_map (fun candidate => keep_text (_normalize_text candidate))
          (extra_item ++ extra_raw))%list in
  (role, strip (join " " text_parts)).

(** The candidate names [_is_rag_tool_item] reads from one dict. *)
Definition name_candidates (source : dict) : list string :=
  flat_map
    (fun key =>
       match dict_get source key with
       | PStr value =>
           let normalized := lower (strip value) in
           if nonempty normalized then [normalized] else []
       | _ => []
       end)
    ["tool_name"; "name"; "toolName"].

(** [_is_rag_tool_item]. *)
Definition _is_rag_tool_item (it : item) : bool :=
  match it with
  | PDict d =>
      let sources :=
        ([d]
         ++ match as_dict (dict_get d "metadata") with
            | Some m => [m]
            | None => []
            end
         ++ match as_dict (dict_get d "tool_call") with
            | Some c => [c]
            | None => []
            end)%list in
      existsb (fun candidate => String.eqb candidate "searchpolicy")
        (flat_map name_candidates sources)
  | _ => false
  end.

(** The usage dict: its six integer entries. *)
Record usage : Type := mkUsage {
  userInput : Z;
  agentOutput : Z;
  tools : Z;
  memory : Z;
  rag : Z;
  basePrompt : Z
}.

Definition zero_usage : usage := mkUsage 0 0 0 0 0 0.

(** One iteration of the loop of [_estimate_usage_for_items]. *)
Definition usage_step (u : usage) (it : item) : usage :=
  let '(role, text) := _extract_role_and_text it in
  let tokens := _estimate_tokens_from_text text in
  if tokens <=? 0 then u
  else
    let is_tool_role := str_in role ["tool"; "tool_result"] in
    let u1 :=
      if String.eqb role "user" then
        mkUsage (userInput u + tokens) (agentOutput u) (tools u) (memory u)
                (rag u) (basePrompt u)
      else if String.eqb role "assistant" then
        mkUsage (userInput u) (agentOutput u + tokens) (tools u) (memory u)
                (rag u) (basePrompt u)
      else if is_tool_role then
        mkUsage (userInput u) (agentOutput u) (tools u + tokens) (memory u)
                (rag u) (basePrompt u)
      else
        mkUsage (userInput u) (agentOutput u + tokens) (tools u) (memory u)
                (rag u) (basePrompt u) in
    if is_tool_role && (0 <? tokens) && _is_rag_tool_item it then
      mkUsage (userInput u1) (agentOutput u1) (tools u1) (memory u1)
              (rag u1 + tokens) (basePrompt u1)
    else u1.

(** [_estimate_usage_for_items]. *)
Definition _estimate_usage_for_items (items : list item) : usage :=
  fold_left usage_step items zero_usage.

Definition neg_usage_delta (current delta : usage) : usage :=
  mkUsage (userInput current - userInput delta)
          (agentOutput current - agentOutput delta)
          (tools current - tools delta)
          (memory current)
          (rag current - rag delta)
          (basePrompt current).

Definition is_nil {A : Type} (l : list A) : bool :=
  match l with
  | [] => true
  | _ => false
  end.

Definition llen {A : Type} (l : list A) : Z := Z.of_nat (List.length l).

(** ** DefaultSession *)

Module DefaultSession.

Record t : Type := mk {
  _items : list item;
  _internal_turn_counter : Z;
  _last_context_delta_usage : usage
}.

Definition init : t := mk [] 0 zero_usage.

(** [get_items(limit)]; [limit = None] is the default argument. *)
Definition get_items (s : t) (limit : option Z) : list item :=
  let snapshot := _items s in
  match limit with
  | Some l => if 0 <=? l then slice_from snapshot (- l) else snapshot
  | None => snapshot
  end.

Definition add_items (s : t) (items : list item) : t :=
  if is_nil items then s
  else mk (_items s ++ items)
          (_internal_turn_counter s + _count_user_turns items)
          (_last_context_delta_usage s).

Definition pop_item (s : t) : option item * t :=
  match rev (_items s) with
  | [] => (None, s)
  | last :: front =>
      (Some last,
       mk (rev front) (_internal_turn_counter s) (_last_context_delta_usage s))
  end.

Definition clear_session (s : t) : t := mk [] 0 zero_usage.

Definition set_max_turns (s : t) (n : Z) : t := s.

End DefaultSession.

(** ** TrimmingSession *)

Module TrimmingSession.

Record t : Type := mk {
  max_turns : Z;
  keep_last_n_turns : Z;
  _items : list item;
  _internal_turn_counter : Z;
  _did_trim_recently : bool;
  _last_total_turns : Z;
  _last_context_delta_usage : usage
}.

(** [__init__(session_id, max_turns, keep_last_n_turns)]; the defaults are
    [max_turns = 8] and [keep_last_n_turns = None]. *)
Definition init (max_turns : Z) (keep_last_n_turns : option Z) : t :=
  let max_turns := Z.max 1 max_turns in
  let keep :=
    match keep_last_n_turns with
    | Some k => k
    | None => max_turns
    end in
  let keep := Z.max 1 keep in
  let keep := Z.min keep max_turns in
  mk max_turns keep [] 0 false 0 zero_usage.

(** The [internalTurnCounter] setter: never below 0. *)
Definition set_internalTurnCounter (s : t) (value : Z) : t :=
  mk (max_turns s) (keep_last_n_turns s) (_items s) (Z.max 0 value)
     (_did_trim_recently s) (_last_total_turns s)
     (_last_context_delta_usage s).

(** The method [_trim_to_last_turns] of a session. *)
Definition trim (s : t) (items : list item) (force_trim : bool)
  : list item * Z :=
  _trim_to_last_turns (max_turns s) (keep_last_n_turns s) items force_trim.

Definition get_items (s : t) (limit : option Z) : list item :=
  let trimmed := fst (trim s (_items s) false) in
  match limit with
  | Some l => if 0 <=? l then slice_from trimmed (- l) else trimmed
  | None => trimmed
  end.

Definition add_items (s : t) (items : list item) : t :=
  if is_nil items then s
  else
    let pending := (_items s ++ items)%list in
    let counter := _internal_turn_counter s + _count_user_turns items in
    let should_trim := max_turns s <=? counter in
    let '(trimmed, total_turns) := trim s pending should_trim in
    if llen trimmed <? llen pending then
      let removed_count := llen pending - llen trimmed in
      let removed_items := slice_to pending removed_count in
      let delta := _estimate_usage_for_items removed_items in
      let current_delta :=
        neg_usage_delta (_last_context_delta_usage s) delta in
      mk (max_turns s) (keep_last_n_turns s) trimmed
         (Z.max 0 (Z.min (keep_last_n_turns s) (_count_user_turns trimmed)))
         true total_turns current_delta
    else
      mk (max_turns s) (keep_last_n_turns s) trimmed counter
         false total_turns (_last_context_delta_usage s).

Definition pop_item (s : t) : option item * t :=
  match rev (_items s) with
  | [] => (None, s)
  | last :: front =>
      (Some last,
       mk (max_turns s) (keep_last_n_turns s) (rev front)
          (_internal_turn_counter s) (_did_trim_recently s)
          (_last_total_turns s) (_last_context_delta_usage s))
  end.

Definition clear_session (s : t) : t :=
  mk (max_turns s) (keep_last_n_turns s) [] 0 false 0 zero_usage.

Definition set_max_turns (s : t) (n : Z) : t :=
  let new_max := Z.max 1 n in
  if new_max =? max_turns s then
    mk (max_turns s) (Z.min (keep_last_n_turns s) (max_turns s)) (_items s)
       (Z.max 0 (Z.min (_internal_turn_counter s) (max_turns s)))
       (_did_trim_recently s) (_last_total_turns s)
       (_last_context_delta_usage s)
  else
    let keep := Z.min (keep_last_n_turns s) new_max in
    let current_items := _items s in
    let '(trimmed, total_turns) :=
      _trim_to_last_turns new_max keep current_items false in
    if llen trimmed <? llen current_items then
      mk new_max keep trimmed
         (Z.max 0 (Z.min keep (_count_user_turns trimmed)))
         true total_turns (_last_context_delta_usage s)
    else
      mk new_max keep trimmed
         (Z.max 0 (Z.min (_internal_turn_counter s) new_max))
         false total_turns (_last_context_delta_usage s).

Definition set_keep_last_n_turns (s : t) (n : Z) : t :=
  let new_keep := Z.max 1 n in
  let new_keep := Z.min new_keep (max_turns s) in
  if new_keep =? keep_last_n_turns s then
    set_internalTurnCounter s
      (Z.min (_internal_turn_counter s) (max_turns s))
  else
    let current_items := _items s in
    let current_total_turns := _count_user_turns current_items in
    let force_trim := new_keep <? current_total_turns in
    let '(trimmed, total_turns) :=
      _trim_to_last_turns (max_turns s) new_keep current_items force_trim in
    if llen trimmed <? llen current_items then
      mk (max_turns s) new_keep trimmed
         (Z.max 0 (Z.min new_keep (_count_user_turns trimmed)))
         true total_turns (_last_context_delta_usage s)
    else
      mk (max_turns s) new_keep trimmed
         (Z.max 0 (Z.min (_internal_turn_counter s) (max_turns s)))
         false total_turns (_last_context_delta_usage s).

End TrimmingSession.

(** ** SummarizingSession *)

(** What a call of the summarizer collaborator does: return a
    [(shadow_line, summary_text)] pair, or raise. *)
Inductive summarize_outcome : Type :=
| Returns (shadow_line summary_text : string)
| Raises.

(** [[idx for idx, item in enumerate(items) if _is_user_msg(item)]], with
    the enumeration starting at [i]. *)
Fixpoint user_indices_from (i : Z) (items : list item) : list Z :=
  match items with
  | [] => []
  | it :: rest =>
      if _is_user_msg it then i :: user_indices_from (i + 1) rest
      else user_indices_from (i + 1) rest
  end.

Definition user_message (content : string) : item :=
  PDict [("role", PStr "user"); ("content", PStr content)].

Definition assistant_message (content : string) : item :=
  PDict [("role", PStr "assistant"); ("content", PStr content)].

Definition fallback_shadow_line : string :=
  "Summarize the conversation we had so far.".

Definition fallback_summary_text : string :=
  "Summary of earlier conversation (temporary fallback).".

Module SummarizingSession.

(** The fields inherited from [TrimmingSession] are [base]; the summarizer
    is any collaborator with a [summarize] method. *)
Record t : Type := mk {
  base : TrimmingSession.t;
  _summarizer : list item -> summarize_outcome;
  _last_summary : option (string * string);
  _did_summarize_recently : bool
}.

Definition max_turns (s : t) : Z := TrimmingSession.max_turns (base s).
Definition keep_last_n_turns (s : t) : Z :=
  TrimmingSession.keep_last_n_turns (base s).
Definition _items (s : t) : list item := TrimmingSession._items (base s).
Definition _internal_turn_counter (s : t) : Z :=
  TrimmingSession._internal_turn_counter (base s).
Definition _last_context_delta_usage (s : t) : usage :=
  TrimmingSession._last_context_delta_usage (base s).

(** [__init__(session_id, keep_last_n_turns, context_limit, summarizer)]:
    the parent is built with [max_turns = context_limit] and no
    [keep_last_n_turns], which is then overwritten. *)
Definition init (keep_last_n_turns context_limit : Z)
    (summarizer : list item -> summarize_outcome) : t :=
  let b := TrimmingSession.init context_limit None in
  mk (TrimmingSession.mk (TrimmingSession.max_turns b)
        (Z.max 0 keep_last_n_turns) [] 0 false 0 zero_usage)
     summarizer None false.

Definition configure_limits (s : t) (keep_last_n_turns context_limit : Z) : t :=
  let b := base s in
  mk (TrimmingSession.mk (Z.max 1 context_limit) (Z.max 0 keep_last_n_turns)
        (TrimmingSession._items b) (TrimmingSession._internal_turn_counter b)
        (TrimmingSession._did_trim_recently b)
        (TrimmingSession._last_total_turns b)
        (TrimmingSession._last_context_delta_usage b))
     (_summarizer s) (_last_summary s) (_did_summarize_recently s).

(** The index at which the last [keep] user turns of [combined] start. *)
Definition boundary_idx (keep : Z) (combined : list item) : Z :=
  let user_indices := user_indices_from 0 combined in
  let n := llen user_indices in
  let idx :=
    if (keep <=? 0) || (n <=? keep) then
      if n <=? keep then 0 else llen combined
    else nth (Z.to_nat (n - keep)) user_indices 0 in
  Z.max 0 (Z.min idx (llen combined)).

(** The call of the summarizer on a non-empty prefix, with the fallback of
    the [except] branch. *)
Definition summarize_prefix (s : t) (prefix : list item) : string * string :=
  match _summarizer s prefix with
  | Returns shadow_line summary_text => (shadow_line, summary_text)
  | Raises => (fallback_shadow_line, fallback_summary_text)
  end.

Definition synthetic_items_of (prefix : list item)
    (shadow_line summary_text : string) : list item :=
  if negb (is_nil prefix) && nonempty summary_text then
    ((if nonempty shadow_line then [user_message shadow_line] else [])
     ++ [assistant_message summary_text])%list
  else [].

Definition with_state (s : t) (items : list item) (counter : Z)
    (delta : usage) (last_summary : option (string * string))
    (did_summarize : bool) : t :=
  let b := base s in
  mk (TrimmingSession.mk (TrimmingSession.max_turns b)
        (TrimmingSession.keep_last_n_turns b) items counter
        (TrimmingSession._did_trim_recently b)
        (TrimmingSession._last_total_turns b) delta)
     (_summarizer s) last_summary did_summarize.

Definition add_items (s : t) (items : list item) : t :=
  if is_nil items then s
  else
    let combined := (_items s ++ items)%list in
    let current_turn_counter :=
      _internal_turn_counter s + _count_user_turns items in
    let should_summarize := max_turns s <=? current_turn_counter in
    if negb should_summarize then
      let trimmed := fst (TrimmingSession.trim (base s) combined false) in
      let trimmed_count_changed := llen trimmed <? llen combined in
      with_state s trimmed
        (if trimmed_count_changed
         then Z.max 0 (Z.min (_count_user_turns trimmed) (max_turns s))
         else current_turn_counter)
        (_last_context_delta_usage s) (_last_summary s)
        (_did_summarize_recently s)
    else
      let boundary := boundary_idx (keep_last_n_turns s) combined in
      let prefix := slice_to combined boundary in
      let suffix := slice_from combined boundary in
      let summary_triggered := negb (is_nil prefix) in
      let '(shadow_line, summary_text) :=
        if is_nil prefix then (EmptyString, EmptyString)
        else summarize_prefix s prefix in
      let did_summarize :=
        if is_nil prefix then _did_summarize_recently s else true in
      let synthetic_items :=
        synthetic_items_of prefix shadow_line summary_text in
      let summary_payload :=
        if negb (is_nil prefix) && nonempty summary_text
        then Some (shadow_line, summary_text) else None in
      let fallback_trimmed :=
        if is_nil synthetic_items
        then fst (TrimmingSession.trim (base s) combined false) else [] in
      let fallback_trimmed_changed :=
        if is_nil synthetic_items
        then llen fallback_trimmed <? llen combined else false in
      let removed_items_for_delta :=
        if negb (is_nil prefix) then prefix
        else if fallback_trimmed_changed then
          slice_to combined (llen combined - llen fallback_trimmed)
        else [] in
      let new_items :=
        if negb (is_nil synthetic_items)
        then (synthetic_items ++ suffix)%list else fallback_trimmed in
      let delta :=
        if negb (is_nil removed_items_for_delta) then
          let removed_usage :=
            _estimate_usage_for_items removed_items_for_delta in
          mkUsage (- userInput removed_usage) (- agentOutput removed_usage)
                  (- tools removed_usage) 0 (- rag removed_usage) 0
        else zero_usage in
      let counter :=
        if summary_triggered then
          let retained_turns := _count_user_turns suffix in
          let synthetic_turn := if is_nil synthetic_items then 0 else 1 in
          let adjusted_turns := retained_turns + synthetic_turn in
          Z.max 0 (Z.min adjusted_turns (max_turns s))
        else if fallback_trimmed_changed then
          Z.max 0 (Z.min (_count_user_turns fallback_trimmed) (max_turns s))
        else current_turn_counter in
      with_state s new_items counter delta summary_payload did_summarize.

(** [get_items] is inherited from [TrimmingSession]. *)
Definition get_items (s : t) (limit : option Z) : list item :=
  TrimmingSession.get_items (base s) limit.

Definition get_last_summary (s : t) : option (string * string) :=
  _last_summary s.

End SummarizingSession.

(** ** TrackingCompactingSession *)

(** [l[idx]]: a negative index counts from the end; out of range raises
    [IndexError], here [None]. *)
Definition py_index {A : Type} (l : list A) (idx : Z) : option A :=
  let n := llen l in
  let i := if idx <? 0 then idx + n else idx in
  if (0 <=? i) && (i <? n) then nth_error l (Z.to_nat i) else None.

(** Which of the two compaction hooks the base class calls. *)
Inductive compaction_kind : Type :=
| ToolResult
| ToolCall.

Record compaction_call : Type := mkCall {
  call_kind : compaction_kind;
  call_idx : Z;
  call_tool_name : option string;
  call_call_id : option string
}.

(** The base class [CompactingSession] is imported from the module
    [compacting_session], which is not part of the sources at hand.  It
    enters as a parameter: what its [add_items] stores and which hook calls
    it then makes, how its two hooks rewrite the stored items, and the token
    counter in force ([self.token_counter or _default_token_counter]). *)
Record compacting_base : Type := mkBase {
  super_add_items : list item -> list item -> list item * list compaction_call;
  super_compact_tool_result :
    list item -> Z -> option string -> option string -> list item;
  super_compact_tool_call :
    list item -> Z -> option string -> option string -> list item;
  counter : item -> Z
}.

Definition compacted_types : list string :=
  ["compacted_tool_result"; "compacted_tool_call"].

(** [value in {"compacted_tool_result", "compacted_tool_call"}]: lists and
    dicts are unhashable, so the membership test raises on them ([None]). *)
Definition in_compacted_types (value : pyval) : option bool :=
  match value with
  | PList _ | PDict _ => None
  | PStr s => Some (str_in s compacted_types)
  | _ => Some false
  end.

Module TrackingCompactingSession.

Record t : Type := mk {
  _items : list item;
  _did_compact_recently : bool;
  _last_context_delta_usage : usage;
  _pending_tools_delta : Z
}.

Definition init : t := mk [] false zero_usage 0.

(** [_token_count(item)]; [None] when the call raises (an item that is
    not a dict has no [get], an unhashable type marker). *)
Definition _token_count (B : compacting_base) (it : item) : option Z :=
  match it with
  | PDict d =>
      if py_truthy (dict_get d "compacted") then Some 0
      else
        match in_compacted_types (dict_get d "messageType") with
        | None => None
        | Some true => Some 0
        | Some false =>
            match in_compacted_types (dict_get d "type") with
            | None => None
            | Some true => Some 0
            | Some false => Some (Z.max 0 (counter B it))
            end
        end
  | _ => None
  end.

(** [_record_compaction_delta(before, after)]. *)
Definition _record_compaction_delta (B : compacting_base) (s : t)
    (before after : item) : option t :=
  match _token_count B before with
  | None => None
  | Some before_tokens =>
      match _token_count B after with
      | None => None
      | Some after_tokens =>
          let delta := after_tokens - before_tokens in
          Some (mk (_items s) true (_last_context_delta_usage s)
                   (if delta <? 0 then _pending_tools_delta s + delta
                    else _pending_tools_delta s))
      end
  end.

Definition with_items (s : t) (items : list item) : t :=
  mk items (_did_compact_recently s) (_last_context_delta_usage s)
     (_pending_tools_delta s).

(** The overriding hooks [_compact_tool_result] and [_compact_tool_call]:
    copy the item, let the base class rewrite it, record the difference. *)
Definition _compact (B : compacting_base) (s : t) (c : compaction_call)
  : option t :=
  match py_index (_items s) (call_idx c) with
  | None => None
  | Some original_item =>
      let rewritten :=
        match call_kind c with
        | ToolResult =>
            super_compact_tool_result B (_items s) (call_idx c)
              (call_tool_name c) (call_call_id c)
        | ToolCall =>
            super_compact_tool_call B (_items s) (call_idx c)
              (call_tool_name c) (call_call_id c)
        end in
      match py_index rewritten (call_idx c) with
      | None => None
      | Some after => _record_compaction_delta B (with_items s rewritten)
                        original_item after
      end
  end.

Fixpoint run_calls (B : compacting_base) (s : t) (calls : list compaction_call)
  : option t :=
  match calls with
  | [] => Some s
  | c :: rest =>
      match _compact B s c with
      | None => None
      | Some s' => run_calls B s' rest
      end
  end.

(** The tail of [add_items], after [super().add_items(items)] returned. *)
Definition apply_pending (s : t) : t :=
  let tools_delta := Z.min 0 (_pending_tools_delta s) in
  let u := _last_context_delta_usage s in
  mk (_items s) (_did_compact_recently s)
     (if tools_delta =? 0 then u
      else mkUsage (userInput u) (agentOutput u) (tools u + tools_delta)
                   (memory u) (rag u) (basePrompt u))
     0.

(** [add_items(items)]; [None] when an exception escapes. *)
Definition add_items (B : compacting_base) (s : t) (items : list item)
  : option t :=
  if is_nil items then Some s
  else
    let '(stored, calls) := super_add_items B (_items s) items in
    match run_calls B (with_items s stored) calls with
    | None => None
    | Some s' => Some (apply_pending s')
    end.

End TrackingCompactingSession.

(** ** LLMSummarizer *)

Definition is_lower (c : ascii) : bool :=
  let n := nat_of_ascii c in (97 <=? n)%nat && (n <=? 122)%nat.

Definition upper_char (c : ascii) : ascii :=
  if is_lower c then ascii_of_nat (nat_of_ascii c - 32) else c.

(** [s.upper()]. *)
Fixpoint upper (s : string) : string :=
  match s with
  | EmptyString => EmptyString
  | String c rest => String (upper_char c) (upper rest)
  end.

(** [s[:i]] on a string. *)
Definition str_slice_to (s : string) (i : Z) : string :=
  string_of_list_ascii (slice_to (list_ascii_of_string s) i).

Definition newline : string := String (ascii_of_nat 10) EmptyString.

(** The marker appended to a cut tool output: a space and the horizontal
    ellipsis, the latter written as its three UTF-8 bytes. *)
Definition trim_marker : string :=
  String (ascii_of_nat 32)
    (String (ascii_of_nat 226)
       (String (ascii_of_nat 128) (String (ascii_of_nat 166) EmptyString))).

(** What the summarizer reads of a response object.  The [text] attribute
    of a content part is absent, [None], a string, or some other object:
    [printed] is what [str] gives for it and [value] its [value] attribute,
    if it has one. *)
Inductive text_attr : Type :=
| TextNone
| TextStr (s : string)
| TextObj (printed : string) (value : option pyval).

Inductive content_part : Type :=
| NoText
| HasText (text : text_attr).

Record response : Type := mkResponse {
  output_text : option string;
  output : list (list content_part)
}.

Definition unavailable_summary_text : string :=
  "Summary of earlier conversation (unavailable).".

Module LLMSummarizer.

(** The client is the collaborator behind [client.responses.create]: given
    the model name, the prompt messages and the token limit it returns a
    response or raises ([None]).  The system prompt is the module constant
    [SUMMARY_PROMPT]; its wording does not matter here and it is carried as a
    field. *)
Record t : Type := mk {
  client : string -> list pyval -> Z -> option response;
  model : string;
  max_tokens : Z;
  tool_trim_limit : Z;
  SUMMARY_PROMPT : string
}.

Definition user_shadow : string := "Summarize the conversation we had so far.".

Definition tool_roles : list string := ["tool"; "tool_result"].

(** The nested [_extract_content]: role in upper case, stripped content,
    and the metadata dict. *)
Definition _extract_content (L : t) (it : item) : string * string * dict :=
  let '(role, raw_content, metadata) :=
    match it with
    | PDict d =>
        (py_str (py_or (dict_get d "role") (PStr "assistant")),
         dict_get d "content",
         match as_dict (dict_get d "metadata") with
         | Some m => m
         | None => []
         end)
    | _ => ("assistant", PStr EmptyString, [])
    end in
  let content :=
    match raw_content with
    | PList parts => join " " (map py_str (filter py_truthy parts))
    | _ => py_str (py_or raw_content (PStr EmptyString))
    end in
  let role := lower role in
  let content :=
    if str_in role tool_roles && (tool_trim_limit L <? len content)
    then str_slice_to content (tool_trim_limit L) ++ trim_marker
    else content in
  (upper role, strip content, metadata).

(** The lines of the transcript sent to the model. *)
Definition snippets_of (L : t) (messages : list item) : list string :=
  flat_map
    (fun it =>
       let '(role, content, metadata) := _extract_content L it in
       if py_truthy (dict_get metadata "summary") then []
       else if nonempty content then [role ++ ": " ++ content]
       else [])
    messages.

Definition input_text_message (role text : string) : pyval :=
  PDict [("role", PStr role);
         ("content",
          PList [PDict [("type", PStr "input_text"); ("text", PStr text)]])].

Definition prompt_messages (L : t) (snippets : list string) : list pyval :=
  let system_content := strip (SUMMARY_PROMPT L) in
  let user_content := join newline snippets in
  ((if nonempty system_content
    then [input_text_message "system" system_content] else [])
   ++ (if nonempty user_content
       then [input_text_message "user" user_content] else []))%list.

(** The text one content part contributes, if any. *)
Definition part_text (c : content_part) : list string :=
  match c with
  | NoText => []
  | HasText TextNone => [py_str PNone]
  | HasText (TextStr s) => [s]
  | HasText (TextObj _ (Some v)) => [py_str v]
  | HasText (TextObj printed None) => [printed]
  end.

(** The text read off a response. *)
Definition response_text (r : response) : string :=
  match output_text r with
  | Some text =>
      if nonempty text then text
      else join newline
             (filter nonempty (flat_map (flat_map part_text) (output r)))
  | None =>
      join newline (filter nonempty (flat_map (flat_map part_text) (output r)))
  end.

(** [summarize(messages)]. *)
Definition summarize (L : t) (messages : list item) : string * string :=
  let snippets := snippets_of L messages in
  if is_nil snippets then (user_shadow, EmptyString)
  else
    match client L (model L) (prompt_messages L snippets) (max_tokens L) with
    | None => (user_shadow, unavailable_summary_text)
    | Some r => (user_shadow, strip (response_text r))
    end.

(** The summarizer as a [SummarizingSession] calls it. *)
Definition as_summarizer (L : t) : list item -> summarize_outcome :=
  fun messages =>
    Returns (fst (summarize L messages)) (snd (summarize L messages)).

End LLMSummarizer.

(** ** The session registry *)

(** The client object handed to [LLMSummarizer]. *)
Definition openai_client : Type := string -> list pyval -> Z -> option response.

(** A [TrackingCompactingSession] object as the registry sees it: the four
    attributes it assigns, and the tracking state of the subclass. *)
Record compacting_session : Type := mkCompacting {
  trigger : option Z;
  keep : Z;
  exclude_tools : list string;
  clear_tool_inputs : bool;
  tracking : TrackingCompactingSession.t
}.

(** What the registry takes from outside the file: Python's [int] on a
    string ([None] for a [ValueError]), the outcome of constructing
    [AsyncOpenAI()] ([None] when it raises), the text of [SUMMARY_PROMPT],
    and the constructor of [TrackingCompactingSession], whose base class is
    not among the sources. *)
Record runtime : Type := mkRuntime {
  int_of_str : string -> option Z;
  AsyncOpenAI : option openai_client;
  summary_prompt : string;
  new_compacting :
    string -> option Z -> Z -> list string -> bool -> compacting_session
}.

Inductive session : Type :=
| SDefault (d : DefaultSession.t)
| STrimming (t : TrimmingSession.t)
| SSummarizing (u : SummarizingSession.t)
| SCompacting (c : compacting_session).

(** The module state the registry works on: [SESSIONS] and the cached
    [OPENAI_CLIENT]. *)
Record world : Type := mkWorld {
  SESSIONS : list (string * session);
  OPENAI_CLIENT : option openai_client
}.

(** [d[k] = v] on a dict kept as an association list. *)
Fixpoint assoc_set {B : Type} (d : list (string * B)) (k : string) (v : B)
  : list (string * B) :=
  match d with
  | [] => [(k, v)]
  | (k', v') :: rest =>
      if String.eqb k' k then (k, v) :: rest
      else (k', v') :: assoc_set rest k v
  end.

(** [int(value)]; [None] when it raises [TypeError] or [ValueError]. *)
Definition py_int (rt : runtime) (value : pyval) : option Z :=
  match value with
  | PInt z => Some z
  | PBool b => Some (if b then 1 else 0)
  | PStr text => int_of_str rt text
  | PNone | PList _ | PDict _ => None
  end.

(** [_positive_int]. *)
Definition _positive_int (rt : runtime) (value : pyval) : option Z :=
  match py_int rt value with
  | None => None
  | Some number => if number <=? 0 then None else Some number
  end.

(** [_positive_int(...) or default]: a positive number is truthy. *)
Definition or_default (o : option Z) (default : Z) : Z :=
  match o with
  | Some n => n
  | None => default
  end.

(** [text.split(",")]. *)
Fixpoint split_comma (text : string) : list string :=
  match text with
  | EmptyString => [EmptyString]
  | String c rest =>
      if Ascii.eqb c (ascii_of_nat 44) then EmptyString :: split_comma rest
      else
        match split_comma rest with
        | [] => [String c EmptyString]
        | head :: tail => String c head :: tail
        end
  end.

(** [_normalize_exclude_tools]. *)
Definition _normalize_exclude_tools (value : pyval) : list string :=
  let candidates :=
    match value with
    | PNone => []
    | PStr text => map PStr (split_comma text)
    | PList l => l
    | PDict d => map (fun kv => PStr (fst kv)) d
    | PInt _ | PBool _ => []
    end in
  filter nonempty (map (fun candidate => strip (py_str candidate)) candidates).

(** [ensure_openai_client]; [None] when it raises [RuntimeError]. *)
Definition ensure_openai_client (rt : runtime) (w : world)
  : option (openai_client * world) :=
  match OPENAI_CLIENT w with
  | Some c => Some (c, w)
  | None =>
      match AsyncOpenAI rt with
      | Some c => Some (c, mkWorld (SESSIONS w) (Some c))
      | None => None
      end
  end.

(** [LLMSummarizer(client)] with the default model, token limit and trim
    limit. *)
Definition default_summarizer (rt : runtime) (c : openai_client)
  : LLMSummarizer.t :=
  LLMSummarizer.mk c "gpt-4o" 400 600 (summary_prompt rt).

Definition register (w : world) (agent_id : string) (x : session) : world :=
  mkWorld (assoc_set (SESSIONS w) agent_id x) (OPENAI_CLIENT w).

(** Direct assignment of [max_turns] and [keep_last_n_turns] on a session
    object. *)
Definition assign_limits (t : TrimmingSession.t) (max_turns keep : Z)
  : TrimmingSession.t :=
  TrimmingSession.mk max_turns keep (TrimmingSession._items t)
    (TrimmingSession._internal_turn_counter t)
    (TrimmingSession._did_trim_recently t)
    (TrimmingSession._last_total_turns t)
    (TrimmingSession._last_context_delta_usage t).

(** [_ensure_session(agent_id, config)]: the session for the identifier
    under the given configuration, and the module state afterwards; [None]
    when creating the client raises. *)
Definition _ensure_session (rt : runtime) (w : world) (agent_id : string)
    (config : dict) : option (session * world) :=
  let existing := assoc_find (SESSIONS w) agent_id in
  let summarization_enabled := py_truthy (dict_get config "memorySummarization") in
  let trimming_enabled := py_truthy (dict_get config "memoryTrimming") in
  let compacting_enabled := py_truthy (dict_get config "memoryCompacting") in
  if summarization_enabled then
    let keep_turns :=
      or_default
        (_positive_int rt (dict_get config "summarizationKeepRecentTurns")) 3 in
    let context_limit_candidate :=
      or_default
        (_positive_int rt (dict_get config "summarizationTriggerTurns")) 5 in
    let context_limit := Z.max context_limit_candidate keep_turns in
    match existing with
    | Some (SSummarizing u) =>
        let x :=
          SSummarizing
            (SummarizingSession.configure_limits u keep_turns context_limit) in
        Some (x, register w agent_id x)
    | _ =>
        match ensure_openai_client rt w with
        | None => None
        | Some (c, w1) =>
            let x :=
              SSummarizing
                (SummarizingSession.init keep_turns context_limit
                   (LLMSummarizer.as_summarizer (default_summarizer rt c))) in
            Some (x, register w1 agent_id x)
        end
    end
  else if compacting_enabled then
    let trigger_turns :=
      _positive_int rt (dict_get config "compactingTriggerTurns") in
    let keep_turns :=
      or_default (_positive_int rt (dict_get config "compactingKeepTurns")) 2 in
    let exclude_tools_list :=
      _normalize_exclude_tools (dict_get config "compactingExcludeTools") in
    let clear_inputs :=
      py_truthy (dict_get config "compactingClearToolInputs") in
    let x :=
      match existing with
      | Some (SCompacting c) =>
          SCompacting
            (mkCompacting trigger_turns keep_turns exclude_tools_list
               clear_inputs (tracking c))
      | _ =>
          SCompacting
            (new_compacting rt agent_id trigger_turns keep_turns
               exclude_tools_list clear_inputs)
      end in
    Some (x, register w agent_id x)
  else if trimming_enabled then
    let max_turns :=
      or_default (_positive_int rt (dict_get config "memoryMaxTurns")) 9 in
    let keep_turns :=
      or_default (_positive_int rt (dict_get config "memoryKeepRecentTurns")) 4 in
    let keep_turns := Z.min keep_turns max_turns in
    let x :=
      match existing with
      | Some (STrimming t) => STrimming (assign_limits t max_turns keep_turns)
      | Some (SSummarizing u) =>
          SSummarizing
            (SummarizingSession.mk
               (assign_limits (SummarizingSession.base u) max_turns keep_turns)
               (SummarizingSession._summarizer u)
               (SummarizingSession._last_summary u)
               (SummarizingSession._did_summarize_recently u))
      | _ => STrimming (TrimmingSession.init max_turns (Some keep_turns))
      end in
    Some (x, register w agent_id x)
  else
    match existing with
    | Some (SDefault d) => Some (SDefault d, w)
    | _ =>
        let x := SDefault DefaultSession.init in
        Some (x, register w agent_id x)
    end.

(** [[str(agent_id) for agent_id in agent_ids if agent_id]]. *)
Definition normalized_ids (agent_ids : list pyval) : list string :=
  map py_str (filter py_truthy agent_ids).

(** [max(1, int(value)) if value is not None else default]; the outer
    [None] is a raised exception. *)
Definition at_least_one_or (rt : runtime) (value : pyval) (default : Z)
  : option Z :=
  match value with
  | PNone => Some default
  | _ =>
      match py_int rt value with
      | Some n => Some (Z.max 1 n)
      | None => None
      end
  end.

(** [configure_trimming_sessions(agent_ids, enable, max_turns, keep_last)]. *)
Definition configure_trimming_sessions (rt : runtime) (w : world)
    (agent_ids : list pyval) (enable : bool) (max_turns keep_last : pyval)
  : option world :=
  match normalized_ids agent_ids with
  | [] => Some w
  | ids =>
      match at_least_one_or rt max_turns 9 with
      | None => None
      | Some default_max_turns =>
          match at_least_one_or rt keep_last 4 with
          | None => None
          | Some default_keep_last =>
              let default_keep_last :=
                Z.min default_keep_last default_max_turns in
              Some
                (fold_left
                   (fun w agent_id =>
                      register w agent_id
                        (if enable then
                           STrimming
                             (TrimmingSession.init default_max_turns
                                (Some default_keep_last))
                         else SDefault DefaultSession.init))
                   ids w)
          end
      end
  end.

(** ** The persisted summary *)





(** ** Notions used by the statements *)

(** [sublist l1 l2]: [l1] is [l2] with some items removed, the others in
    their order. *)
Inductive sublist {A : Type} : list A -> list A -> Prop :=
| sublist_nil : sublist [] []
| sublist_skip : forall x l1 l2, sublist l1 l2 -> sublist l1 (x :: l2)
| sublist_cons : forall x l1 l2, sublist l1 l2 -> sublist (x :: l1) (x :: l2).

(** [starts_last_turns k items suffix]: [suffix] is the part of [items] that
    starts at the [k]-th user message counted from the end. *)
Definition starts_last_turns (k : Z) (items suffix : list item) : Prop :=
  exists dropped u rest,
    items = (dropped ++ suffix)%list /\ suffix = u :: rest /\
    _is_user_msg u = true /\ _count_user_turns suffix = k.

(** The last [n] items of a list. *)
Definition last_n {A : Type} (n : nat) (l : list A) : list A :=
  skipn (List.length l - n) l.

(** The items a [SummarizingSession.add_items] call works on, and the two
    parts its boundary splits them into. *)
Definition pending_items (s : SummarizingSession.t) (items : list item)
  : list item :=
  (SummarizingSession._items s ++ items)%list.

Definition pending_prefix (s : SummarizingSession.t) (items : list item)
  : list item :=
  slice_to (pending_items s items)
    (SummarizingSession.boundary_idx (SummarizingSession.keep_last_n_turns s)
       (pending_items s items)).

Definition pending_suffix (s : SummarizingSession.t) (items : list item)
  : list item :=
  slice_from (pending_items s items)
    (SummarizingSession.boundary_idx (SummarizingSession.keep_last_n_turns s)
       (pending_items s items)).

(** The call reaches the summarization branch: it adds something, and the
    incremented turn counter is at the context limit. *)
Definition reaches_limit (s : SummarizingSession.t) (items : list item) : Prop :=
  items <> [] /\
  SummarizingSession.max_turns s
  <= SummarizingSession._internal_turn_counter s + _count_user_turns items.

(** Whether the call put a synthetic user message in front of the summary:
    the summarizer's shadow line and summary text are both non-empty. *)
Definition inserted_synthetic_user (s : SummarizingSession.t)
    (items : list item) : bool :=
  let outcome :=
    SummarizingSession.summarize_prefix s (pending_prefix s items) in
  nonempty (fst outcome) && nonempty (snd outcome).

(** The turn counter rule as the specification words it: the user turns of
    the kept suffix, plus 1 if a synthetic user message was inserted, clamped
    to the context limit. *)
Definition counter_counts_synthetic_user : Prop :=
  forall (s : SummarizingSession.t) (items : list item),
    reaches_limit s items ->
    pending_prefix s items <> [] ->
    SummarizingSession._internal_turn_counter
      (SummarizingSession.add_items s items)
    = Z.max 0
        (Z.min (_count_user_turns (pending_suffix s items)
                + (if inserted_synthetic_user s items then 1 else 0))
               (SummarizingSession.max_turns s)).

(** Reconfiguration reporting the usage of what it removes, the way
    [TrimmingSession.add_items] does: the pending delta decreases by the
    estimated usage of the removed leading items. *)
Definition reconfiguration_reports_delta : Prop :=
  forall (s : TrimmingSession.t) (n : Z),
    let s' := TrimmingSession.set_keep_last_n_turns s n in
    llen (TrimmingSession._items s') < llen (TrimmingSession._items s) ->
    TrimmingSession._last_context_delta_usage s'
    = neg_usage_delta (TrimmingSession._last_context_delta_usage s)
        (_estimate_usage_for_items
           (slice_to (TrimmingSession._items s)
              (llen (TrimmingSession._items s)
               - llen (TrimmingSession._items s')))).

(** Entry-wise sum of two usage dicts. *)
Definition usage_add (u v : usage) : usage :=
  mkUsage (userInput u + userInput v) (agentOutput u + agentOutput v)
          (tools u + tools v) (memory u + memory v) (rag u + rag v)
          (basePrompt u + basePrompt v).

(** The bucket of one item: its tokens under the role that
    [_extract_role_and_text] reports for it. *)
Definition bucket_of (it : item) : usage :=
  let '(role, text) := _extract_role_and_text it in
  let t := _estimate_tokens_from_text text in
  if String.eqb role "user" then mkUsage t 0 0 0 0 0
  else if str_in role ["tool"; "tool_result"] then
    mkUsage 0 0 t 0 (if _is_rag_tool_item it then t else 0) 0
  else mkUsage 0 t 0 0 0 0.

(** The rule that an item without a role is counted as assistant output. *)
Definition absent_role_counts_as_agent_output : Prop :=
  forall d : dict,
    dict_lookup d "role" = None ->
    let u := _estimate_usage_for_items [PDict d] in
    agentOutput u
    = _estimate_tokens_from_text (snd (_extract_role_and_text (PDict d)))
    /\ userInput u = 0 /\ tools u = 0.

(** Whether [_extract_role_and_text] takes a dict for a tool item: its
    message type ([messageType], else [type]) or the [type] of its [raw] dict
    is one of [tool_message_types]. *)
Definition is_tool_typed (d : dict) : bool :=
  let message_type :=
    lower (py_str
             (py_or (py_or (dict_get_default d "messageType" (PStr EmptyString))
                           (dict_get_default d "type" (PStr EmptyString)))
                    (PStr EmptyString))) in
  let raw_type :=
    match as_dict (dict_get d "raw") with
    | Some r =>
        lower (py_str (py_or (dict_get_default r "type" (PStr EmptyString))
                             (PStr EmptyString)))
    | None => EmptyString
    end in
  str_in message_type tool_message_types || str_in raw_type tool_message_types.

(** The role a dict is counted under. *)
Definition effective_role (d : dict) : string :=
  if is_tool_typed d then "tool"
  else lower (py_str (py_or (dict_get_default d "role" (PStr "assistant"))
                            (PStr "assistant"))).

(** The operations of the session contract on a [TrimmingSession], and a
    session driven by a series of them. *)
Inductive trimming_op : Type :=
| OpAdd (items : list item)
| OpPop
| OpClear
| OpSetMaxTurns (n : Z)
| OpSetKeepLastNTurns (n : Z).

Definition run_trimming_op (s : TrimmingSession.t) (op : trimming_op)
  : TrimmingSession.t :=
  match op with
  | OpAdd items => TrimmingSession.add_items s items
  | OpPop => snd (TrimmingSession.pop_item s)
  | OpClear => TrimmingSession.clear_session s
  | OpSetMaxTurns n => TrimmingSession.set_max_turns s n
  | OpSetKeepLastNTurns n => TrimmingSession.set_keep_last_n_turns s n
  end.

(** No entry of a usage delta reports added tokens, and the two entries the
    sessions never touch are 0. *)
Definition delta_removes_only (u : usage) : Prop :=
  userInput u <= 0 /\ agentOutput u <= 0 /\ tools u <= 0 /\ rag u <= 0
  /\ memory u = 0 /\ basePrompt u = 0.

(** The items a registered session stores. *)
Definition stored_items (x : session) : list item :=
  match x with
  | SDefault d => DefaultSession._items d
  | STrimming t => TrimmingSession._items t
  | SSummarizing u => SummarizingSession._items u
  | SCompacting c => TrackingCompactingSession._items (tracking c)
  end.

(** The turn limits of a registered session are consistent. *)
Definition bounded_limits (x : session) : Prop :=
  match x with
  | STrimming t =>
      1 <= TrimmingSession.keep_last_n_turns t <= TrimmingSession.max_turns t
  | SSummarizing u =>
      1 <= SummarizingSession.keep_last_n_turns u
      <= SummarizingSession.max_turns u
  | SDefault _ | SCompacting _ => True
  end.

(** The configuration flags read by [_ensure_session]. *)
Definition flag (config : dict) (key : string) : bool :=
  py_truthy (dict_get config key).

(** Whether a registered session is of the class the configuration asks
    for, by the [isinstance] tests of [_ensure_session]: a
    [SummarizingSession] is also a [TrimmingSession]. *)
Definition accepts (config : dict) (old : session) : bool :=
  if flag config "memorySummarization" then
    match old with SSummarizing _ => true | _ => false end
  else if flag config "memoryCompacting" then
    match old with SCompacting _ => true | _ => false end
  else if flag config "memoryTrimming" then
    match old with STrimming _ | SSummarizing _ => true | _ => false end
  else
    match old with SDefault _ => true | _ => false end.

Definition is_compacting (x : session) : bool :=
  match x with SCompacting _ => true | _ => false end.

Definition is_dict (v : pyval) : bool :=
  match v with PDict _ => true | _ => false end.

(** A series of [add_items] calls on a [TrackingCompactingSession]; [None]
    as soon as one raises. *)
Fixpoint compacting_calls (B : compacting_base)
    (s : TrackingCompactingSession.t) (calls : list (list item))
  : option TrackingCompactingSession.t :=
  match calls with
  | [] => Some s
  | c :: rest =>
      match TrackingCompactingSession.add_items B s c with
      | None => None
      | Some s' => compacting_calls B s' rest
      end
  end.


(** * Properties *)

(** ** Lists and turn counts *)

Section ListFacts.

Variable A : Type.

Lemma sublist_refl (l : list A) : sublist l l.
Proof. induction l; constructor; assumption. Qed.

Lemma sublist_app_skip (pre l : list A) : sublist l (pre ++ l).
Proof.
  induction pre as [|x pre IH]; simpl.
  - apply sublist_refl.
  - constructor; exact IH.
Qed.

Lemma slice_from_skipn (l : list A) (i : Z) :
  0 <= i <= llen l -> slice_from l i = skipn (Z.to_nat i) l.
Proof.
  intros Hi. unfold slice_from, llen in *.
  destruct (Z.ltb_spec i 0); [lia|].
  rewrite Z.min_l by lia. reflexivity.
Qed.

Lemma slice_from_0 (l : list A) : slice_from l 0 = l.
Proof.
  rewrite slice_from_skipn; [reflexivity | unfold llen; lia].
Qed.

Lemma slice_to_firstn (l : list A) (i : Z) :
  0 <= i <= llen l -> slice_to l i = firstn (Z.to_nat i) l.
Proof.
  intros Hi. unfold slice_to, llen in *.
  destruct (Z.ltb_spec i 0); [lia|].
  rewrite Z.min_l by lia. reflexivity.
Qed.

Lemma slice_split (l : list A) (i : Z) :
  (slice_to l i ++ slice_from l i)%list = l.
Proof.
  unfold slice_to, slice_from. apply firstn_skipn.
Qed.

Lemma llen_app (l1 l2 : list A) : llen (l1 ++ l2) = llen l1 + llen l2.
Proof. unfold llen. rewrite length_app. lia. Qed.

Lemma llen_nonneg (l : list A) : 0 <= llen l.
Proof. unfold llen. lia. Qed.

Lemma is_nil_true (l : list A) : is_nil l = true <-> l = [].
Proof. destruct l; simpl; split; congruence. Qed.

Lemma is_nil_false (l : list A) : is_nil l = false <-> l <> [].
Proof. destruct l; simpl; split; congruence. Qed.

End ListFacts.

Arguments sublist_refl {A}.
Arguments sublist_app_skip {A}.
Arguments slice_from_skipn {A}.
Arguments slice_from_0 {A}.
Arguments slice_to_firstn {A}.
Arguments slice_split {A}.
Arguments llen_app {A}.
Arguments llen_nonneg {A}.
Arguments is_nil_true {A}.
Arguments is_nil_false {A}.

Lemma count_user_turns_app (l1 l2 : list item) :
  _count_user_turns (l1 ++ l2) = _count_user_turns l1 + _count_user_turns l2.
Proof.
  induction l1 as [|x l1 IH]; simpl; [reflexivity | rewrite IH; lia].
Qed.

Lemma count_user_turns_nonneg (l : list item) : 0 <= _count_user_turns l.
Proof.
  induction l as [|x l IH]; simpl; [lia | destruct (_is_user_msg x); lia].
Qed.

Lemma count_user_turns_rev (l : list item) :
  _count_user_turns (rev l) = _count_user_turns l.
Proof.
  induction l as [|x l IH]; simpl; [reflexivity|].
  rewrite count_user_turns_app, IH. simpl. lia.
Qed.

Lemma count_user_turns_le_len (l : list item) : _count_user_turns l <= llen l.
Proof.
  unfold llen.
  induction l as [|x l IH]; simpl List.length; simpl _count_user_turns;
    [lia | destruct (_is_user_msg x); lia].
Qed.

(** ** The backward scan *)

Lemma scan_back_short (keep : Z) (ritems : list item) :
  forall i c,
    c + _count_user_turns ritems < keep ->
    0 <= c ->
    scan_back keep ritems i c = (c + _count_user_turns ritems, 0).
Proof.
  induction ritems as [|it rest IH]; intros i c Hlt Hc; simpl in *.
  - f_equal; lia.
  - pose proof (count_user_turns_nonneg rest) as Hn.
    destruct (_is_user_msg it).
    + destruct (Z.eqb_spec (c + 1) keep); [lia|].
      rewrite IH by lia. f_equal; lia.
    + rewrite IH by lia. f_equal; lia.
Qed.

Lemma scan_back_nonpos (keep : Z) (ritems : list item) :
  forall i c,
    keep <= 0 -> 0 <= c ->
    scan_back keep ritems i c = (c + _count_user_turns ritems, 0).
Proof.
  induction ritems as [|it rest IH]; intros i c Hk Hc; simpl.
  - f_equal; lia.
  - destruct (_is_user_msg it).
    + destruct (Z.eqb_spec (c + 1) keep); [lia|].
      rewrite IH by lia. f_equal; lia.
    + rewrite IH by lia. f_equal; lia.
Qed.

Lemma scan_back_found (keep : Z) (ritems : list item) :
  forall c,
    0 <= c < keep ->
    keep <= c + _count_user_turns ritems ->
    exists start u tl,
      scan_back keep ritems (llen ritems - 1) c = (keep, start) /\
      0 <= start < llen ritems /\
      skipn (Z.to_nat start) (rev ritems) = u :: tl /\
      _is_user_msg u = true /\
      c + _count_user_turns (u :: tl) = keep.
Proof.
  induction ritems as [|it rest IH]; intros c Hc Hge.
  - simpl in Hge. lia.
  - assert (Hlen : llen (it :: rest) - 1 = llen rest)
      by (unfold llen; simpl List.length; lia).
    rewrite Hlen. simpl scan_back. simpl _count_user_turns in Hge.
    destruct (_is_user_msg it) eqn:Hu.
    + destruct (Z.eqb_spec (c + 1) keep) as [Heq|Hne].
      * exists (llen rest), it, []. repeat split.
        -- rewrite Heq. reflexivity.
        -- apply llen_nonneg.
        -- unfold llen; simpl List.length; lia.
        -- simpl rev. unfold llen. rewrite Nat2Z.id.
           rewrite <- (length_rev rest) at 1.
           rewrite skipn_app, skipn_all, Nat.sub_diag. reflexivity.
        -- exact Hu.
        -- simpl. rewrite Hu. lia.
      * destruct (IH (c + 1)) as (start & u & tl & Hs & Hr & Hk & Hus & Hcnt);
          [lia | lia |].
        exists start, u, (tl ++ [it])%list. repeat split.
        -- exact Hs.
        -- lia.
        -- unfold llen in *; simpl List.length; lia.
        -- simpl rev. rewrite skipn_app, Hk.
           replace (Z.to_nat start - List.length (rev rest))%nat with 0%nat
             by (rewrite length_rev; unfold llen in Hr; lia).
           reflexivity.
        -- exact Hus.
        -- change (u :: tl ++ [it])%list with ((u :: tl) ++ [it])%list.
           rewrite count_user_turns_app. simpl (_count_user_turns [it]).
           rewrite Hu. lia.
    + destruct (IH c) as (start & u & tl & Hs & Hr & Hk & Hus & Hcnt);
        [lia | lia |].
      exists start, u, (tl ++ [it])%list. repeat split.
      * exact Hs.
      * lia.
      * unfold llen in *; simpl List.length; lia.
      * simpl rev. rewrite skipn_app, Hk.
        replace (Z.to_nat start - List.length (rev rest))%nat with 0%nat
          by (rewrite length_rev; unfold llen in Hr; lia).
        reflexivity.
      * exact Hus.
      * change (u :: tl ++ [it])%list with ((u :: tl) ++ [it])%list.
        rewrite count_user_turns_app. simpl (_count_user_turns [it]).
        rewrite Hu. lia.
Qed.

(** ** The windowing function *)

Lemma trim_total_turns (M K : Z) (items : list item) (force : bool) :
  snd (_trim_to_last_turns M K items force) = _count_user_turns items.
Proof.
  unfold _trim_to_last_turns. destruct items as [|x l]; [reflexivity|].
  destruct (negb force && _); [reflexivity|].
  destruct (scan_back _ _ _ _). reflexivity.
Qed.

Lemma trim_below_threshold (M K : Z) (items : list item) :
  _count_user_turns items < M ->
  _trim_to_last_turns M K items false = (items, _count_user_turns items).
Proof.
  intros Hlt. unfold _trim_to_last_turns. destruct items as [|x l];
    [reflexivity|].
  destruct (Z.ltb_spec (_count_user_turns (x :: l)) M); [reflexivity | lia].
Qed.

(** The test that sends [_trim_to_last_turns] past the hysteresis guard. *)
Lemma trim_guard_passed (M : Z) (items : list item) (force : bool) :
  force = true \/ M <= _count_user_turns items ->
  negb force && (_count_user_turns items <? M) = false.
Proof.
  intros [-> | Hge]; [reflexivity|].
  destruct (Z.ltb_spec (_count_user_turns items) M); [lia|].
  apply andb_false_r.
Qed.

Lemma trim_cut (M K : Z) (items : list item) (force : bool) :
  force = true \/ M <= _count_user_turns items ->
  1 <= K <= _count_user_turns items ->
  exists suffix,
    _trim_to_last_turns M K items force = (suffix, _count_user_turns items) /\
    starts_last_turns K items suffix.
Proof.
  intros Hgo HK. unfold _trim_to_last_turns.
  destruct items as [|x l]; [simpl in HK; lia|].
  rewrite trim_guard_passed by assumption.
  destruct (scan_back_found K (rev (x :: l)) 0) as
    (start & u & tl & Hs & Hr & Hk & Hu & Hcnt);
    [lia | rewrite count_user_turns_rev; lia |].
  assert (Hlen : llen (rev (x :: l)) = llen (x :: l))
    by (unfold llen; rewrite length_rev; reflexivity).
  rewrite Hlen in Hs, Hr. unfold llen in Hs at 1.
  rewrite Hs. rewrite rev_involutive in Hk.
  rewrite Z.leb_refl, slice_from_skipn by lia.
  exists (u :: tl). rewrite Hk. split; [reflexivity|].
  exists (firstn (Z.to_nat start) (x :: l)), u, tl.
  repeat split; try assumption; try lia.
  rewrite <- Hk. symmetry. apply firstn_skipn.
Qed.

Lemma trim_fewer_than_keep (M K : Z) (items : list item) (force : bool) :
  _count_user_turns items < K ->
  _trim_to_last_turns M K items force = (items, _count_user_turns items).
Proof.
  intros Hlt. unfold _trim_to_last_turns.
  destruct items as [|x l]; [reflexivity|].
  destruct (negb force && _); [reflexivity|].
  rewrite scan_back_short
    by (rewrite ?count_user_turns_rev; lia).
  rewrite count_user_turns_rev.
  destruct (Z.leb_spec K (0 + _count_user_turns (x :: l))); [lia|].
  reflexivity.
Qed.

Lemma trim_keep_nonpos (M K : Z) (items : list item) (force : bool) :
  K <= 0 ->
  _trim_to_last_turns M K items force = (items, _count_user_turns items).
Proof.
  intros HK. unfold _trim_to_last_turns.
  destruct items as [|x l]; [reflexivity|].
  destruct (negb force && _); [reflexivity|].
  rewrite scan_back_nonpos by lia.
  rewrite count_user_turns_rev.
  pose proof (count_user_turns_nonneg (x :: l)).
  destruct (Z.leb_spec K (0 + _count_user_turns (x :: l))); [|lia].
  rewrite slice_from_0. reflexivity.
Qed.

Lemma starts_last_turns_count (k : Z) (items suffix : list item) :
  starts_last_turns k items suffix -> _count_user_turns suffix = k.
Proof. intros (? & ? & ? & _ & _ & _ & H). exact H. Qed.

Lemma starts_last_turns_suffix (k : Z) (items suffix : list item) :
  starts_last_turns k items suffix ->
  exists dropped, items = (dropped ++ suffix)%list.
Proof. intros (d & ? & ? & H & _). exists d. exact H. Qed.

(** What the windowing function can return when [keep_last_n_turns] is at
    least 1: the items as they are, or the last [K] turns. *)
Lemma trim_result (M K : Z) (items : list item) (force : bool) :
  1 <= K ->
  (fst (_trim_to_last_turns M K items force) = items /\
   (_count_user_turns items < K \/
    (force = false /\ _count_user_turns items < M)))
  \/
  (starts_last_turns K items (fst (_trim_to_last_turns M K items force)) /\
   K <= _count_user_turns items /\
   (force = true \/ M <= _count_user_turns items)).
Proof.
  intros HK.
  destruct (Z.ltb_spec (_count_user_turns items) K) as [Hlt|Hge].
  - left. rewrite trim_fewer_than_keep by assumption. auto.
  - destruct force.
    + right. destruct (trim_cut M K items true) as (suffix & -> & Hs); auto.
    + destruct (Z.ltb_spec (_count_user_turns items) M) as [HltM|HgeM].
      * left. rewrite trim_below_threshold by assumption. auto.
      * right. destruct (trim_cut M K items false) as (suffix & -> & Hs); auto.
Qed.

Lemma trim_is_suffix (M K : Z) (items : list item) (force : bool) :
  exists dropped,
    items = (dropped ++ fst (_trim_to_last_turns M K items force))%list.
Proof.
  destruct (Z.leb_spec K 0) as [Hle|Hgt].
  - rewrite trim_keep_nonpos by assumption. exists []. reflexivity.
  - destruct (trim_result M K items force) as [[-> _] | [Hs _]]; [lia | |].
    + exists []. reflexivity.
    + eapply starts_last_turns_suffix; eassumption.
Qed.

(** C2.  The windowing function [_trim_to_last_turns]: below the threshold
    and not forced, it returns the items unchanged with their turn count;
    forced or at the threshold, it returns the part of the sequence that
    starts at the [keep_last_n_turns]-th user message from the end, a
    sublist of the input in the input's order; with fewer user turns than
    [keep_last_n_turns] it returns the items unchanged. *)
Theorem windowing_function_spec (M K : Z) (items : list item) (force : bool) :
  (force = false -> _count_user_turns items < M ->
   _trim_to_last_turns M K items force = (items, _count_user_turns items))
  /\
  (force = true \/ M <= _count_user_turns items ->
   1 <= K <= _count_user_turns items ->
   exists suffix,
     _trim_to_last_turns M K items force = (suffix, _count_user_turns items)
     /\ starts_last_turns K items suffix
     /\ sublist suffix items)
  /\
  (_count_user_turns items < K ->
   _trim_to_last_turns M K items force = (items, _count_user_turns items)).
Proof.
  split; [|split].
  - intros -> Hlt. apply trim_below_threshold; assumption.
  - intros Hgo HK.
    destruct (trim_cut M K items force Hgo HK) as (suffix & Heq & Hs).
    exists suffix. repeat split; try assumption.
    destruct (starts_last_turns_suffix _ _ _ Hs) as (dropped & ->).
    apply sublist_app_skip.
  - apply trim_fewer_than_keep.
Qed.

Lemma windowing_function_spec_witness :
  exists suffix,
    _trim_to_last_turns 3 2
      [user_message "a"; assistant_message "b"; user_message "c";
       user_message "d"; assistant_message "e"] false
    = (suffix, 3)
    /\ starts_last_turns 2
         [user_message "a"; assistant_message "b"; user_message "c";
          user_message "d"; assistant_message "e"] suffix.
Proof.
  destruct (windowing_function_spec 3 2
              [user_message "a"; assistant_message "b"; user_message "c";
               user_message "d"; assistant_message "e"] false)
    as (_ & H & _).
  destruct H as (suffix & Heq & Hs & _).
  - right. vm_compute. discriminate.
  - vm_compute. split; discriminate.
  - exists suffix. split; assumption.
Defined.

(** C8.  With [keep_last_n_turns = 0] the backward scan never meets its
    stop test ([count] is at least 1 when compared with [keep]), so a forced
    trim returns every item instead of none: on the one-message sequence
    below the result is that message, not the empty sequence.  The same cut
    is reached without the force flag by a [SummarizingSession] that keeps 0
    turns, when the summarizer returns an empty summary text: the message
    stays stored. *)
Theorem forced_trim_keep_zero_keeps_everything :
  (forall (M : Z) (items : list item),
     _trim_to_last_turns M 0 items true = (items, _count_user_turns items))
  /\ _trim_to_last_turns 1 0 [user_message "hi"] true
     = ([user_message "hi"], 1)
  /\ SummarizingSession._items
       (SummarizingSession.add_items
          (SummarizingSession.init 0 1
             (fun _ => Returns fallback_shadow_line EmptyString))
          [user_message "hi"])
     = [user_message "hi"].
Proof.
  split; [|split].
  - intros M items. apply trim_keep_nonpos. lia.
  - reflexivity.
  - reflexivity.
Qed.

(** ** TrimmingSession.add_items *)

Lemma trimming_add_items_nil (s : TrimmingSession.t) :
  TrimmingSession.add_items s [] = s.
Proof. reflexivity. Qed.

Lemma trimming_add_items_params (s : TrimmingSession.t) (items : list item) :
  TrimmingSession.max_turns (TrimmingSession.add_items s items)
  = TrimmingSession.max_turns s /\
  TrimmingSession.keep_last_n_turns (TrimmingSession.add_items s items)
  = TrimmingSession.keep_last_n_turns s.
Proof.
  unfold TrimmingSession.add_items.
  destruct (is_nil items); [split; reflexivity|].
  destruct (TrimmingSession.trim s _ _) as [trimmed total].
  destruct (llen trimmed <? _); split; reflexivity.
Qed.

(** The stored items after a non-empty [add_items] are the windowed pending
    items, and the trim flag says whether the window is shorter. *)
Lemma trimming_add_items_stored (s : TrimmingSession.t) (items : list item) :
  items <> [] ->
  let pending := (TrimmingSession._items s ++ items)%list in
  let force :=
    TrimmingSession.max_turns s
    <=? TrimmingSession._internal_turn_counter s + _count_user_turns items in
  let s' := TrimmingSession.add_items s items in
  TrimmingSession._items s'
  = fst (_trim_to_last_turns (TrimmingSession.max_turns s)
           (TrimmingSession.keep_last_n_turns s) pending force)
  /\ TrimmingSession._did_trim_recently s'
     = (llen (TrimmingSession._items s') <? llen pending).
Proof.
  intros Hne pending force s'. subst s'.
  unfold TrimmingSession.add_items.
  apply is_nil_false in Hne. rewrite Hne.
  unfold TrimmingSession.trim. fold pending. fold force.
  destruct (_trim_to_last_turns _ _ pending force) as [trimmed total].
  simpl fst.
  destruct (llen trimmed <? llen pending) eqn:Hlt; simpl; rewrite Hlt;
    split; reflexivity.
Qed.

Lemma starts_last_turns_shorter_or_same (k : Z) (items suffix : list item) :
  starts_last_turns k items suffix -> llen suffix <= llen items.
Proof.
  intros (d & _ & _ & -> & _). rewrite llen_app.
  pose proof (llen_nonneg d). lia.
Qed.

Lemma trimming_add_items_bound (s : TrimmingSession.t) (items : list item) :
  items <> [] ->
  1 <= TrimmingSession.keep_last_n_turns s <= TrimmingSession.max_turns s ->
  let s' := TrimmingSession.add_items s items in
  _count_user_turns (TrimmingSession._items s') <= TrimmingSession.max_turns s
  /\ (TrimmingSession._did_trim_recently s' = true ->
      _count_user_turns (TrimmingSession._items s')
      = TrimmingSession.keep_last_n_turns s).
Proof.
  intros Hne HK s'.
  destruct (trimming_add_items_stored s items Hne) as [Hst Hflag].
  fold s' in Hst, Hflag. rewrite Hflag, Hst.
  match goal with
  | |- context [_trim_to_last_turns ?M ?K ?p ?f] =>
      destruct (trim_result M K p f) as [[-> Hwhy] | [Hs [Hge _]]]; [lia | |]
  end.
  - split; [destruct Hwhy as [?|[_ ?]]; lia|].
    intros Hlt. apply Z.ltb_lt in Hlt. lia.
  - rewrite (starts_last_turns_count _ _ _ Hs). split; [lia | reflexivity].
Qed.

Lemma trimming_add_items_no_new_turn (s : TrimmingSession.t) (items : list item) :
  1 <= TrimmingSession.keep_last_n_turns s ->
  _count_user_turns items = 0 ->
  _count_user_turns (TrimmingSession._items s)
  = TrimmingSession.keep_last_n_turns s ->
  _count_user_turns (TrimmingSession._items (TrimmingSession.add_items s items))
  = TrimmingSession.keep_last_n_turns s.
Proof.
  intros HK H0 Hcur.
  destruct items as [|x l]; [exact Hcur|].
  destruct (trimming_add_items_stored s (x :: l)) as [Hst _]; [discriminate|].
  rewrite Hst.
  match goal with
  | |- context [_trim_to_last_turns ?M ?K ?p ?f] =>
      destruct (trim_result M K p f) as [[-> _] | [Hs _]]; [lia | |]
  end.
  - rewrite count_user_turns_app. lia.
  - apply (starts_last_turns_count _ _ _ Hs).
Qed.

(** The session after a series of [add_items] calls. *)
Lemma trimming_calls_invariant (M K : Z) (calls : list (list item)) :
  1 <= K <= M ->
  let s := fold_left TrimmingSession.add_items calls
             (TrimmingSession.init M (Some K)) in
  TrimmingSession.max_turns s = M /\
  TrimmingSession.keep_last_n_turns s = K /\
  _count_user_turns (TrimmingSession._items s) <= M /\
  (TrimmingSession._did_trim_recently s = true ->
   _count_user_turns (TrimmingSession._items s) = K).
Proof.
  intros HMK.
  induction calls as [|c calls IH] using rev_ind; intros s.
  - subst s. simpl. repeat split; try lia; discriminate.
  - subst s. rewrite fold_left_app. simpl fold_left.
    set (s0 := fold_left TrimmingSession.add_items calls
                 (TrimmingSession.init M (Some K))) in *.
    destruct IH as (HM & HKs & Hb & Hf).
    destruct (trimming_add_items_params s0 c) as [HM' HK'].
    rewrite HM', HK'. split; [exact HM | split; [exact HKs|]].
    destruct c as [|x l]; [split; assumption|].
    destruct (trimming_add_items_bound s0 (x :: l)) as [H1 H2];
      [discriminate | lia |].
    rewrite HM in H1. rewrite HKs in H2. split; assumption.
Qed.

(** C1.  A [TrimmingSession] built with [max_turns = M] and
    [keep_last_n_turns = K] never stores more than [M] user messages after
    an [add_items] call; after a call that trimmed it stores exactly [K],
    and it keeps storing exactly [K] while the following calls add no user
    message.  With [M = 6] and [K = 4], six user messages added one at a
    time leave [get_items()] equal to the last four. *)
Theorem trimming_bound_invariant :
  (forall (M K : Z) (calls : list (list item)),
     1 <= K <= M ->
     let s := fold_left TrimmingSession.add_items calls
                (TrimmingSession.init M (Some K)) in
     _count_user_turns (TrimmingSession._items s) <= M
     /\ (TrimmingSession._did_trim_recently s = true ->
         _count_user_turns (TrimmingSession._items s) = K)
     /\ (forall more,
           _count_user_turns (TrimmingSession._items s) = K ->
           _count_user_turns more = 0 ->
           _count_user_turns
             (TrimmingSession._items (TrimmingSession.add_items s more)) = K))
  /\
  (forall c1 c2 c3 c4 c5 c6 : string,
     TrimmingSession.get_items
       (fold_left TrimmingSession.add_items
          [[user_message c1]; [user_message c2]; [user_message c3];
           [user_message c4]; [user_message c5]; [user_message c6]]
          (TrimmingSession.init 6 (Some 4)))
       None
     = [user_message c3; user_message c4; user_message c5; user_message c6]).
Proof.
  split.
  - intros M K calls HMK s.
    destruct (trimming_calls_invariant M K calls HMK) as (HM & HK & Hb & Hf).
    fold s in HM, HK, Hb, Hf.
    split; [exact Hb | split; [exact Hf|]].
    intros more Hcur H0. rewrite <- HK in *.
    apply trimming_add_items_no_new_turn; try assumption. lia.
  - intros. reflexivity.
Qed.

Lemma trimming_bound_invariant_witness :
  let s := fold_left TrimmingSession.add_items
             [[user_message "one"]; [user_message "two"];
              [user_message "three"]]
             (TrimmingSession.init 2 (Some 1)) in
  _count_user_turns (TrimmingSession._items s) <= 2
  /\ (TrimmingSession._did_trim_recently s = true ->
      _count_user_turns (TrimmingSession._items s) = 1).
Proof.
  destruct trimming_bound_invariant as [H _].
  destruct (H 2 1 [[user_message "one"]; [user_message "two"];
                   [user_message "three"]]) as (Hb & Hf & _).
  - lia.
  - split; [exact Hb | exact Hf].
Defined.

(** ** SummarizingSession.add_items *)

Lemma synthetic_items_nil (prefix : list item) (shadow text : string) :
  is_nil (SummarizingSession.synthetic_items_of prefix shadow text)
  = negb (negb (is_nil prefix) && nonempty text).
Proof.
  unfold SummarizingSession.synthetic_items_of.
  destruct (negb (is_nil prefix) && nonempty text); [|reflexivity].
  destruct (nonempty shadow); reflexivity.
Qed.

(** The state after a call that reached the limit with a non-empty prefix. *)
Lemma summarizing_add_items_triggered (s : SummarizingSession.t)
    (items : list item) :
  reaches_limit s items ->
  pending_prefix s items <> [] ->
  let outcome :=
    SummarizingSession.summarize_prefix s (pending_prefix s items) in
  let synthetic :=
    SummarizingSession.synthetic_items_of (pending_prefix s items)
      (fst outcome) (snd outcome) in
  let s' := SummarizingSession.add_items s items in
  SummarizingSession._items s'
  = (if nonempty (snd outcome)
     then (synthetic ++ pending_suffix s items)%list
     else fst (TrimmingSession.trim (SummarizingSession.base s)
                 (pending_items s items) false))
  /\ SummarizingSession._internal_turn_counter s'
     = Z.max 0
         (Z.min (_count_user_turns (pending_suffix s items)
                 + (if nonempty (snd outcome) then 1 else 0))
                (SummarizingSession.max_turns s))
  /\ SummarizingSession._last_summary s'
     = (if nonempty (snd outcome) then Some outcome else None)
  /\ SummarizingSession._did_summarize_recently s' = true
  /\ SummarizingSession.max_turns s' = SummarizingSession.max_turns s
  /\ SummarizingSession.keep_last_n_turns s'
     = SummarizingSession.keep_last_n_turns s.
Proof.
  intros [Hne Hlim] Hpre outcome synthetic s'.
  subst s'. unfold SummarizingSession.add_items.
  apply is_nil_false in Hne. rewrite Hne.
  apply Z.leb_le in Hlim. rewrite Hlim. cbv beta iota zeta. simpl negb.
  cbv iota.
  change (SummarizingSession._items s ++ items)%list
    with (pending_items s items).
  change (slice_to (pending_items s items)
            (SummarizingSession.boundary_idx
               (SummarizingSession.keep_last_n_turns s)
               (pending_items s items)))
    with (pending_prefix s items).
  change (slice_from (pending_items s items)
            (SummarizingSession.boundary_idx
               (SummarizingSession.keep_last_n_turns s)
               (pending_items s items)))
    with (pending_suffix s items).
  apply is_nil_false in Hpre. rewrite Hpre. fold outcome.
  subst synthetic. destruct outcome as [shadow text]. simpl fst. simpl snd.
  cbv beta iota zeta. rewrite !synthetic_items_nil, Hpre. simpl negb.
  rewrite andb_true_l.
  destruct (nonempty text); simpl; repeat split; reflexivity.
Qed.

Lemma pending_split (s : SummarizingSession.t) (items : list item) :
  pending_items s items
  = (pending_prefix s items ++ pending_suffix s items)%list.
Proof. symmetry. apply slice_split. Qed.

Lemma summarizing_view_is_suffix (s : SummarizingSession.t) :
  exists dropped,
    SummarizingSession._items s
    = (dropped ++ SummarizingSession.get_items s None)%list.
Proof.
  unfold SummarizingSession.get_items, TrimmingSession.get_items,
    TrimmingSession.trim.
  apply trim_is_suffix.
Qed.

(** C3.  When [add_items] reaches the limit with a non-empty prefix and the
    summarizer returns a non-empty summary text, the stored sequence is the
    synthetic items followed by the suffix as it was: a user message with
    the shadow line, only if that line is non-empty, then one assistant
    message with the summary text.  The prefix is gone: what [get_items()]
    returns is a trailing part of that stored sequence. *)
Theorem summarization_replaces_prefix (s : SummarizingSession.t)
    (items : list item) (shadow text : string) :
  reaches_limit s items ->
  pending_prefix s items <> [] ->
  SummarizingSession._summarizer s (pending_prefix s items)
  = Returns shadow text ->
  text <> EmptyString ->
  let synthetic :=
    ((if nonempty shadow then [user_message shadow] else [])
     ++ [assistant_message text])%list in
  let s' := SummarizingSession.add_items s items in
  pending_items s items
  = (pending_prefix s items ++ pending_suffix s items)%list
  /\ SummarizingSession._items s'
     = (synthetic ++ pending_suffix s items)%list
  /\ (List.length synthetic = 1%nat \/ List.length synthetic = 2%nat)
  /\ (exists dropped,
        (synthetic ++ pending_suffix s items)%list
        = (dropped ++ SummarizingSession.get_items s' None)%list)
  /\ SummarizingSession.get_last_summary s' = Some (shadow, text).
Proof.
  intros Hlim Hpre Hsum Htext synthetic s'.
  destruct (summarizing_add_items_triggered s items Hlim Hpre)
    as (Hit & _ & Hlast & _).
  fold s' in Hit, Hlast.
  unfold SummarizingSession.summarize_prefix in Hit, Hlast.
  rewrite Hsum in Hit, Hlast. simpl fst in *. simpl snd in *.
  assert (Hn : nonempty text = true).
  { unfold nonempty. destruct (String.eqb_spec text EmptyString);
      [contradiction | reflexivity]. }
  rewrite Hn in Hit, Hlast.
  unfold SummarizingSession.synthetic_items_of in Hit.
  apply is_nil_false in Hpre. rewrite Hpre, Hn in Hit. simpl in Hit.
  fold synthetic in Hit.
  split; [apply pending_split|].
  split; [exact Hit|].
  split; [subst synthetic; destruct (nonempty shadow); simpl; auto|].
  split; [rewrite <- Hit; apply summarizing_view_is_suffix | exact Hlast].
Qed.

Lemma summarization_replaces_prefix_witness :
  let summarizer := fun _ : list item => Returns "shadow" "summary" in
  let s :=
    SummarizingSession.add_items (SummarizingSession.init 1 2 summarizer)
      [user_message "a"; assistant_message "b"] in
  SummarizingSession._items
    (SummarizingSession.add_items s [user_message "c"])
  = [user_message "shadow"; assistant_message "summary"; user_message "c"].
Proof.
  intros summarizer s.
  destruct (summarization_replaces_prefix s [user_message "c"]
              "shadow" "summary") as (_ & H & _).
  - split; [discriminate | vm_compute; discriminate].
  - vm_compute. discriminate.
  - reflexivity.
  - discriminate.
  - exact H.
Defined.

(** C4.  When the summarizer raises on a non-empty prefix, [add_items] goes
    on: the prefix is replaced by a user message with the fixed shadow line
    and an assistant message with the fixed, non-empty fallback text, the
    summary is recorded and the call counts as a summarization. *)
Theorem summarizer_failure_falls_back (s : SummarizingSession.t)
    (items : list item) :
  reaches_limit s items ->
  pending_prefix s items <> [] ->
  SummarizingSession._summarizer s (pending_prefix s items) = Raises ->
  let s' := SummarizingSession.add_items s items in
  SummarizingSession._items s'
  = (user_message "Summarize the conversation we had so far."
     :: assistant_message fallback_summary_text
     :: pending_suffix s items)
  /\ fallback_summary_text <> EmptyString
  /\ SummarizingSession.get_last_summary s'
     = Some ("Summarize the conversation we had so far.",
             fallback_summary_text)
  /\ SummarizingSession._did_summarize_recently s' = true
  /\ SummarizingSession._internal_turn_counter s'
     = Z.max 0 (Z.min (_count_user_turns (pending_suffix s items) + 1)
                      (SummarizingSession.max_turns s)).
Proof.
  intros Hlim Hpre Hsum s'.
  destruct (summarizing_add_items_triggered s items Hlim Hpre)
    as (Hit & Hcnt & Hlast & Hdid & _).
  fold s' in Hit, Hcnt, Hlast, Hdid.
  unfold SummarizingSession.summarize_prefix in Hit, Hcnt, Hlast.
  rewrite Hsum in Hit, Hcnt, Hlast.
  unfold SummarizingSession.synthetic_items_of in Hit.
  apply is_nil_false in Hpre. rewrite Hpre in Hit.
  split; [exact Hit|].
  split; [discriminate|].
  split; [exact Hlast|].
  split; [exact Hdid | exact Hcnt].
Qed.

Lemma summarizer_failure_falls_back_witness :
  let summarizer := fun _ : list item => Raises in
  let s :=
    SummarizingSession.add_items (SummarizingSession.init 1 2 summarizer)
      [user_message "a"; assistant_message "b"] in
  SummarizingSession._items
    (SummarizingSession.add_items s [user_message "c"])
  = [user_message "Summarize the conversation we had so far.";
     assistant_message fallback_summary_text; user_message "c"].
Proof.
  intros summarizer s.
  destruct (summarizer_failure_falls_back s [user_message "c"])
    as (H & _).
  - split; [discriminate | vm_compute; discriminate].
  - vm_compute. discriminate.
  - reflexivity.
  - exact H.
Defined.

(** C7, as the code has it.  After a call that reached the limit with a
    non-empty prefix, the turn counter is the number of user messages of the
    kept suffix, plus 1 if any synthetic item was inserted (that is, if the
    summary text is non-empty, whether or not a synthetic user message goes
    with it), clamped between 0 and the context limit.  When the shadow line
    is non-empty this is the rule with the synthetic user message. *)
Theorem turn_counter_after_summarization (s : SummarizingSession.t)
    (items : list item) :
  reaches_limit s items ->
  pending_prefix s items <> [] ->
  let outcome :=
    SummarizingSession.summarize_prefix s (pending_prefix s items) in
  let s' := SummarizingSession.add_items s items in
  SummarizingSession._internal_turn_counter s'
  = Z.max 0
      (Z.min (_count_user_turns (pending_suffix s items)
              + (if nonempty (snd outcome) then 1 else 0))
             (SummarizingSession.max_turns s))
  /\ (nonempty (fst outcome) = true ->
      SummarizingSession._internal_turn_counter s'
      = Z.max 0
          (Z.min (_count_user_turns (pending_suffix s items)
                  + (if inserted_synthetic_user s items then 1 else 0))
                 (SummarizingSession.max_turns s))).
Proof.
  intros Hlim Hpre outcome s'.
  destruct (summarizing_add_items_triggered s items Hlim Hpre)
    as (_ & Hcnt & _).
  fold outcome in Hcnt. fold s' in Hcnt.
  split; [exact Hcnt|].
  intros Hsh. rewrite Hcnt. unfold inserted_synthetic_user.
  fold outcome. rewrite Hsh. reflexivity.
Qed.

Lemma turn_counter_after_summarization_witness :
  let summarizer := fun _ : list item => Returns "shadow" "summary" in
  let s :=
    SummarizingSession.add_items (SummarizingSession.init 1 2 summarizer)
      [user_message "a"; assistant_message "b"] in
  SummarizingSession._internal_turn_counter
    (SummarizingSession.add_items s [user_message "c"])
  = 2.
Proof.
  intros summarizer s.
  destruct (turn_counter_after_summarization s [user_message "c"])
    as (H & _).
  - split; [discriminate | vm_compute; discriminate].
  - vm_compute. discriminate.
  - exact H.
Defined.

(** C7, counterexample.  A summarizer that returns an empty shadow line and
    the summary text ["S"]: no synthetic user message is inserted, one user
    message is kept, and the counter is 2. *)
Lemma counter_counts_synthetic_user_fails : ~ counter_counts_synthetic_user.
Proof.
  intros H.
  set (summarizer := fun _ : list item => Returns EmptyString "S").
  set (s := fold_left SummarizingSession.add_items
              [[user_message "a"]; [user_message "b"]]
              (SummarizingSession.init 1 3 summarizer)).
  specialize (H s [user_message "c"]).
  assert (Hlim : reaches_limit s [user_message "c"])
    by (split; [discriminate | vm_compute; discriminate]).
  assert (Hpre : pending_prefix s [user_message "c"] <> [])
    by (vm_compute; discriminate).
  specialize (H Hlim Hpre). vm_compute in H. discriminate.
Qed.

(** ** Reconfiguration of a TrimmingSession *)

Lemma trim_window_fixed (M K : Z) (items window : list item) (force : bool) :
  1 <= K ->
  starts_last_turns K items window ->
  fst (_trim_to_last_turns M K window force) = window.
Proof.
  intros HK (d & u & rest & _ & Hw & Hu & Hcnt).
  destruct (trim_result M K window force HK) as [[Heq _] | [Hs _]];
    [exact Heq|].
  destruct Hs as (d' & u' & rest' & Hsplit & Hw' & Hu' & Hcnt').
  destruct d' as [|x d']; [symmetry; exact Hsplit|].
  exfalso. rewrite Hsplit in Hcnt at 1. rewrite count_user_turns_app in Hcnt.
  rewrite Hw in Hsplit. simpl in Hsplit. injection Hsplit as Hx _.
  subst x. simpl in Hcnt. rewrite Hu in Hcnt.
  pose proof (count_user_turns_nonneg d'). lia.
Qed.

Lemma set_keep_last_n_turns_state (s : TrimmingSession.t) (n : Z) :
  let s' := TrimmingSession.set_keep_last_n_turns s n in
  let k := Z.min (Z.max 1 n) (TrimmingSession.max_turns s) in
  TrimmingSession._last_context_delta_usage s'
  = TrimmingSession._last_context_delta_usage s
  /\ TrimmingSession.max_turns s' = TrimmingSession.max_turns s
  /\ TrimmingSession.keep_last_n_turns s' = k
  /\ (TrimmingSession._items s'
      = (if k =? TrimmingSession.keep_last_n_turns s
         then TrimmingSession._items s
         else fst (_trim_to_last_turns (TrimmingSession.max_turns s) k
                     (TrimmingSession._items s)
                     (k <? _count_user_turns (TrimmingSession._items s)))))
  /\ (llen (TrimmingSession._items s') < llen (TrimmingSession._items s) ->
      TrimmingSession._did_trim_recently s' = true /\
      TrimmingSession._internal_turn_counter s'
      = Z.max 0 (Z.min k (_count_user_turns (TrimmingSession._items s')))).
Proof.
  intros s' k. subst s'. unfold TrimmingSession.set_keep_last_n_turns.
  fold k. destruct (Z.eqb_spec k (TrimmingSession.keep_last_n_turns s))
    as [Heq|Hne].
  - simpl. repeat split; try (symmetry; exact Heq); lia.
  - destruct (_trim_to_last_turns _ k _ _) as [trimmed total]. simpl fst.
    destruct (Z.ltb_spec (llen trimmed) (llen (TrimmingSession._items s)));
      simpl; repeat split; lia.
Qed.

Lemma set_max_turns_state (s : TrimmingSession.t) (n : Z) :
  let s' := TrimmingSession.set_max_turns s n in
  TrimmingSession._last_context_delta_usage s'
  = TrimmingSession._last_context_delta_usage s
  /\ (exists dropped,
        TrimmingSession._items s
        = (dropped ++ TrimmingSession._items s')%list)
  /\ (llen (TrimmingSession._items s') < llen (TrimmingSession._items s) ->
      TrimmingSession._did_trim_recently s' = true /\
      TrimmingSession._internal_turn_counter s'
      = Z.max 0 (Z.min (TrimmingSession.keep_last_n_turns s')
                       (_count_user_turns (TrimmingSession._items s')))).
Proof.
  intros s'. subst s'. unfold TrimmingSession.set_max_turns.
  destruct (Z.max 1 n =? TrimmingSession.max_turns s).
  - simpl. repeat split; try lia. exists []. reflexivity.
  - pose proof (trim_is_suffix (Z.max 1 n)
                  (Z.min (TrimmingSession.keep_last_n_turns s) (Z.max 1 n))
                  (TrimmingSession._items s) false) as Hsuf.
    destruct (_trim_to_last_turns _ _ _ _) as [trimmed total].
    simpl fst in Hsuf.
    destruct (Z.ltb_spec (llen trimmed) (llen (TrimmingSession._items s)));
      simpl; repeat split; try assumption; lia.
Qed.

(** C5, as the code has it.  [set_keep_last_n_turns] and [set_max_turns]
    run the windowing function on the stored items at once: what remains is
    a trailing part of what was stored, and when items were removed the trim
    flag is set and the turn counter becomes
    [min(keep_last_n_turns, user turns left)], as in [add_items].  The
    pending usage delta is left as it was.  Lowering [keep_last_n_turns]
    below the number of stored user turns leaves exactly that many turns,
    and the next [get_items()] returns them. *)
Theorem reconfiguration_retrims (s : TrimmingSession.t) (n : Z) :
  let s1 := TrimmingSession.set_keep_last_n_turns s n in
  let s2 := TrimmingSession.set_max_turns s n in
  let k := Z.min (Z.max 1 n) (TrimmingSession.max_turns s) in
  (TrimmingSession._last_context_delta_usage s1
   = TrimmingSession._last_context_delta_usage s
   /\ TrimmingSession._last_context_delta_usage s2
      = TrimmingSession._last_context_delta_usage s)
  /\ ((exists dropped,
         TrimmingSession._items s
         = (dropped ++ TrimmingSession._items s1)%list)
      /\ (exists dropped,
            TrimmingSession._items s
            = (dropped ++ TrimmingSession._items s2)%list))
  /\ (llen (TrimmingSession._items s1) < llen (TrimmingSession._items s) ->
      TrimmingSession._did_trim_recently s1 = true /\
      TrimmingSession._internal_turn_counter s1
      = Z.max 0 (Z.min (TrimmingSession.keep_last_n_turns s1)
                       (_count_user_turns (TrimmingSession._items s1))))
  /\ (llen (TrimmingSession._items s2) < llen (TrimmingSession._items s) ->
      TrimmingSession._did_trim_recently s2 = true /\
      TrimmingSession._internal_turn_counter s2
      = Z.max 0 (Z.min (TrimmingSession.keep_last_n_turns s2)
                       (_count_user_turns (TrimmingSession._items s2))))
  /\ (1 <= TrimmingSession.max_turns s ->
      k < TrimmingSession.keep_last_n_turns s ->
      k < _count_user_turns (TrimmingSession._items s) ->
      TrimmingSession.keep_last_n_turns s1 = k
      /\ starts_last_turns k (TrimmingSession._items s)
           (TrimmingSession._items s1)
      /\ _count_user_turns (TrimmingSession._items s1) = k
      /\ TrimmingSession.get_items s1 None = TrimmingSession._items s1).
Proof.
  intros s1 s2 k.
  destruct (set_keep_last_n_turns_state s n) as (Hd1 & HM1 & Hk1 & Hi1 & Ht1).
  destruct (set_max_turns_state s n) as (Hd2 & Hsuf2 & Ht2).
  fold s1 in Hd1, HM1, Hk1, Hi1, Ht1. fold k in Hk1, Hi1, Ht1.
  fold s2 in Hd2, Hsuf2, Ht2.
  split; [split; assumption|].
  split; [split; [|exact Hsuf2]|].
  { rewrite Hi1. destruct (k =? _); [exists []; reflexivity|].
    apply trim_is_suffix. }
  split; [rewrite Hk1; exact Ht1|].
  split; [exact Ht2|].
  intros HM Hlow Husers.
  destruct (Z.eqb_spec k (TrimmingSession.keep_last_n_turns s)); [lia|].
  apply Z.ltb_lt in Husers. rewrite Husers in Hi1.
  apply Z.ltb_lt in Husers.
  destruct (trim_cut (TrimmingSession.max_turns s) k
              (TrimmingSession._items s) true) as (suffix & Heq & Hs);
    [auto | lia |].
  rewrite Heq in Hi1. simpl fst in Hi1.
  assert (Hk : 1 <= k) by lia.
  rewrite Hi1. repeat split; try assumption.
  - apply (starts_last_turns_count _ _ _ Hs).
  - unfold TrimmingSession.get_items, TrimmingSession.trim.
    rewrite Hk1, Hi1. eapply trim_window_fixed; eassumption.
Qed.

Lemma reconfiguration_retrims_witness :
  let s := fold_left TrimmingSession.add_items
             [[user_message "aaaa"]; [user_message "bbbb"];
              [user_message "cccc"]]
             (TrimmingSession.init 6 (Some 4)) in
  TrimmingSession.get_items (TrimmingSession.set_keep_last_n_turns s 1) None
  = TrimmingSession._items (TrimmingSession.set_keep_last_n_turns s 1)
  /\ _count_user_turns
       (TrimmingSession._items (TrimmingSession.set_keep_last_n_turns s 1))
     = 1.
Proof.
  intros s.
  destruct (reconfiguration_retrims s 1) as (_ & _ & _ & _ & H).
  destruct H as (_ & _ & Hc & Hg).
  - vm_compute. discriminate.
  - vm_compute. reflexivity.
  - vm_compute. reflexivity.
  - split; [exact Hg | exact Hc].
Defined.

(** C5, counterexample.  Three one-token user messages are stored and
    [set_keep_last_n_turns(1)] removes two of them; the pending usage delta
    stays all-zero instead of dropping by their two tokens. *)
Lemma reconfiguration_reports_delta_fails : ~ reconfiguration_reports_delta.
Proof.
  intros H.
  specialize (H (fold_left TrimmingSession.add_items
                   [[user_message "aaaa"]; [user_message "bbbb"];
                    [user_message "cccc"]]
                   (TrimmingSession.init 6 (Some 4))) 1).
  cbv zeta in H.
  match type of H with
  | ?P -> _ => assert (Hlt : P) by (vm_compute; reflexivity)
  end.
  specialize (H Hlt). vm_compute in H. discriminate.
Qed.

(** ** Usage estimation *)

(** [_normalize_text] on a dict, in the source's form: each of the six keys
    that is present contributes the normalized text of its value. *)
Lemma normalize_text_dict (d : dict) :
  _normalize_text (PDict d)
  = none_if_empty
      (join " "
         (flat_map
            (fun key =>
               match dict_lookup d key with
               | Some v => keep_text (_normalize_text v)
               | None => []
               end)
            normalize_keys)).
Proof.
  cbn [_normalize_text]. do 2 f_equal. apply flat_map_ext. intros key.
  induction d as [|[k v] d IH]; [reflexivity|].
  cbn [assoc_find dict_lookup].
  destruct (String.eqb k key); [reflexivity | exact IH].
Qed.

Lemma len_pos (text : string) : text <> EmptyString -> 1 <= len text.
Proof.
  destruct text; [congruence|]. intros _. unfold len. simpl String.length. lia.
Qed.

Lemma ceil_quarter_bounds (n : Z) :
  4 * (ceil_quarter n - 1) < n <= 4 * ceil_quarter n.
Proof.
  unfold ceil_quarter.
  pose proof (Z.div_mod (n + 3) 4 ltac:(lia)).
  pose proof (Z.mod_pos_bound (n + 3) 4 ltac:(lia)). lia.
Qed.

Lemma estimate_tokens_nonneg (text : string) :
  0 <= _estimate_tokens_from_text text.
Proof.
  unfold _estimate_tokens_from_text.
  destruct (String.eqb text EmptyString); [lia|].
  pose proof (ceil_quarter_bounds (len text)). unfold len in *. lia.
Qed.

Lemma usage_step_add (u : usage) (it : item) :
  usage_step u it = usage_add u (usage_step zero_usage it).
Proof.
  unfold usage_step. destruct (_extract_role_and_text it) as [role text].
  destruct u as [a b c d e f].
  destruct (_estimate_tokens_from_text text <=? 0);
    [unfold usage_add; simpl; f_equal; lia|].
  destruct (String.eqb role "user"), (String.eqb role "assistant"),
    (str_in role ["tool"; "tool_result"]),
    (0 <? _estimate_tokens_from_text text), (_is_rag_tool_item it);
    unfold usage_add; simpl; f_equal; lia.
Qed.

Lemma usage_add_zero_r (u : usage) : usage_add u zero_usage = u.
Proof. destruct u. unfold usage_add. simpl. f_equal; lia. Qed.

Lemma usage_add_assoc (u v w : usage) :
  usage_add (usage_add u v) w = usage_add u (usage_add v w).
Proof. unfold usage_add. simpl. f_equal; lia. Qed.

Lemma fold_usage_step (items : list item) :
  forall u,
    fold_left usage_step items u
    = usage_add u (fold_left usage_step items zero_usage).
Proof.
  induction items as [|it items IH]; intros u; simpl.
  - symmetry. apply usage_add_zero_r.
  - rewrite IH. rewrite (IH (usage_step zero_usage it)).
    rewrite (usage_step_add u it). apply usage_add_assoc.
Qed.

Lemma estimate_usage_app (items1 items2 : list item) :
  _estimate_usage_for_items (items1 ++ items2)
  = usage_add (_estimate_usage_for_items items1)
              (_estimate_usage_for_items items2).
Proof.
  unfold _estimate_usage_for_items. rewrite fold_left_app.
  apply fold_usage_step.
Qed.

Lemma estimate_usage_single (it : item) :
  _estimate_usage_for_items [it] = bucket_of it.
Proof.
  unfold _estimate_usage_for_items, bucket_of. cbn [fold_left].
  unfold usage_step.
  destruct (_extract_role_and_text it) as [role text].
  pose proof (estimate_tokens_nonneg text) as Hn.
  destruct (Z.leb_spec (_estimate_tokens_from_text text) 0) as [Hle|Hgt].
  - replace (_estimate_tokens_from_text text) with 0 by lia.
    destruct (String.eqb role "user"); [reflexivity|].
    destruct (str_in role ["tool"; "tool_result"]); [|reflexivity].
    destruct (_is_rag_tool_item it); reflexivity.
  - destruct (Z.ltb_spec 0 (_estimate_tokens_from_text text)); [|lia].
    destruct (String.eqb_spec role "user") as [->|Hu]; [reflexivity|].
    destruct (String.eqb_spec role "assistant") as [->|Ha]; [reflexivity|].
    destruct (str_in role ["tool"; "tool_result"]); [|reflexivity].
    destruct (_is_rag_tool_item it); reflexivity.
Qed.

Lemma bucket_nonneg (it : item) :
  0 <= userInput (bucket_of it) /\ 0 <= agentOutput (bucket_of it) /\
  0 <= tools (bucket_of it) /\ 0 <= rag (bucket_of it).
Proof.
  unfold bucket_of. destruct (_extract_role_and_text it) as [role text].
  pose proof (estimate_tokens_nonneg text).
  destruct (String.eqb role "user"); [simpl; lia|].
  destruct (str_in role ["tool"; "tool_result"]); [|simpl; lia].
  destruct (_is_rag_tool_item it); simpl; lia.
Qed.

Lemma estimate_usage_nonneg (items : list item) :
  0 <= userInput (_estimate_usage_for_items items) /\
  0 <= agentOutput (_estimate_usage_for_items items) /\
  0 <= tools (_estimate_usage_for_items items) /\
  0 <= rag (_estimate_usage_for_items items).
Proof.
  induction items as [|it items IH].
  - simpl. lia.
  - change (it :: items) with ([it] ++ items)%list.
    rewrite estimate_usage_app, estimate_usage_single.
    pose proof (bucket_nonneg it). unfold usage_add. simpl. lia.
Qed.

Lemma role_without_role_key (d : dict) :
  dict_lookup d "role" = None ->
  fst (_extract_role_and_text (PDict d)) = "assistant" \/
  fst (_extract_role_and_text (PDict d)) = "tool".
Proof.
  intros Hrole. unfold _extract_role_and_text, dict_get_default.
  rewrite Hrole. cbv beta iota zeta.
  match goal with
  | |- context [if ?c then "tool" else _] => destruct c
  end; simpl; auto.
Qed.

Lemma role_of_plain_dict (d : dict) :
  dict_lookup d "role" = None ->
  dict_lookup d "messageType" = None ->
  dict_lookup d "type" = None ->
  dict_lookup d "raw" = None ->
  fst (_extract_role_and_text (PDict d)) = "assistant".
Proof.
  intros Hrole Hmt Hty Hraw.
  unfold _extract_role_and_text, dict_get, dict_get_default.
  rewrite Hrole, Hmt, Hty, Hraw. reflexivity.
Qed.

Lemma rag_tool_by_name (d : dict) :
  dict_lookup d "name" = Some (PStr "SearchPolicy") ->
  _is_rag_tool_item (PDict d) = true.
Proof.
  intros Hname. unfold _is_rag_tool_item.
  apply existsb_exists. exists "searchpolicy". split; [|reflexivity].
  apply in_flat_map. exists d. split; [left; reflexivity|].
  unfold name_candidates. apply in_flat_map. exists "name".
  split; [right; left; reflexivity|].
  unfold dict_get, dict_get_default. rewrite Hname. left. reflexivity.
Qed.

Lemma extract_role_of_dict (d : dict) :
  fst (_extract_role_and_text (PDict d)) = effective_role d.
Proof. reflexivity. Qed.

Lemma effective_role_absent (d : dict) :
  dict_lookup d "role" = None ->
  effective_role d = if is_tool_typed d then "tool" else "assistant".
Proof.
  intros Hrole. unfold effective_role, dict_get_default.
  rewrite Hrole. reflexivity.
Qed.

(** C6, as the code has it.  [_estimate_tokens_from_text] is 0 on the empty
    text and the length divided by 4, rounded up, otherwise; it is never
    negative.  [_estimate_usage_for_items] is defined on every item list,
    adds up item by item, and counts each item under the role that
    [_extract_role_and_text] gives it: [user] into [userInput], [tool] and
    [tool_result] into [tools], every other role into [agentOutput]; a
    tool-bucket item named SearchPolicy is counted into [rag] as well.  The
    role of a dict is ["tool"] when its message type marks a tool item,
    whatever its role field says; otherwise it is the role field, and
    ["assistant"] when that field is absent. *)
Theorem usage_estimation_spec :
  (_estimate_tokens_from_text EmptyString = 0
   /\ (forall text, text <> EmptyString ->
         4 * (_estimate_tokens_from_text text - 1) < len text
         <= 4 * _estimate_tokens_from_text text)
   /\ (forall text, 0 <= _estimate_tokens_from_text text))
  /\ (forall items1 items2,
        _estimate_usage_for_items (items1 ++ items2)
        = usage_add (_estimate_usage_for_items items1)
                    (_estimate_usage_for_items items2))
  /\ (forall it, _estimate_usage_for_items [it] = bucket_of it)
  /\ (forall items,
        0 <= userInput (_estimate_usage_for_items items) /\
        0 <= agentOutput (_estimate_usage_for_items items) /\
        0 <= tools (_estimate_usage_for_items items) /\
        0 <= rag (_estimate_usage_for_items items))
  /\ (forall d, fst (_extract_role_and_text (PDict d)) = effective_role d)
  /\ (forall d,
        dict_lookup d "role" = None ->
        effective_role d = if is_tool_typed d then "tool" else "assistant")
  /\ (forall d,
        dict_lookup d "name" = Some (PStr "SearchPolicy") ->
        _is_rag_tool_item (PDict d) = true).
Proof.
  split; [split; [reflexivity | split]|].
  - intros text Hne. unfold _estimate_tokens_from_text.
    destruct (String.eqb_spec text EmptyString); [contradiction|].
    apply ceil_quarter_bounds.
  - apply estimate_tokens_nonneg.
  - split; [apply estimate_usage_app|].
    split; [apply estimate_usage_single|].
    split; [apply estimate_usage_nonneg|].
    split; [apply extract_role_of_dict|].
    split; [apply effective_role_absent | apply rag_tool_by_name].
Qed.

Lemma usage_estimation_spec_witness :
  4 * (_estimate_tokens_from_text "hello" - 1) < len "hello"
  <= 4 * _estimate_tokens_from_text "hello"
  /\ effective_role [("content", PStr "hello")] = "assistant"
  /\ _is_rag_tool_item
       (PDict [("role", PStr "tool"); ("name", PStr "SearchPolicy")]) = true.
Proof.
  destruct usage_estimation_spec
    as ((_ & Htok & _) & _ & _ & _ & _ & Hrole & Hrag).
  split; [apply Htok; discriminate|].
  split; [apply (Hrole [("content", PStr "hello")]); reflexivity|].
  apply Hrag. reflexivity.
Defined.

(** C6, counterexample.  A function-call output as the agent runtime stores
    it has no role; its eight characters are two tokens, counted under
    [tools], none under [agentOutput]. *)
Lemma absent_role_counts_as_agent_output_fails :
  ~ absent_role_counts_as_agent_output.
Proof.
  intros H.
  specialize (H [("type", PStr "function_call_output");
                 ("call_id", PStr "call_1");
                 ("output", PStr "abcdefgh")] eq_refl).
  vm_compute in H. destruct H as (_ & _ & H). discriminate.
Qed.

(** ** TrackingCompactingSession *)

Lemma token_count_compacted (B : compacting_base) (d : dict) :
  py_truthy (dict_get d "compacted") = true ->
  TrackingCompactingSession._token_count B (PDict d) = Some 0.
Proof.
  intros H. unfold TrackingCompactingSession._token_count.
  rewrite H. reflexivity.
Qed.

Lemma token_count_marked (B : compacting_base) (d : dict) (m : string) :
  dict_get d "messageType" = PStr m ->
  str_in m compacted_types = true ->
  TrackingCompactingSession._token_count B (PDict d) = Some 0.
Proof.
  intros Hm Hin. unfold TrackingCompactingSession._token_count.
  destruct (py_truthy _); [reflexivity|].
  rewrite Hm. unfold in_compacted_types. rewrite Hin. reflexivity.
Qed.

Lemma token_count_nonneg (B : compacting_base) (it : item) (n : Z) :
  TrackingCompactingSession._token_count B it = Some n -> 0 <= n.
Proof.
  unfold TrackingCompactingSession._token_count.
  destruct it as [| | | |l|d]; try discriminate.
  destruct (py_truthy _); [intros [= <-]; lia|].
  destruct (in_compacted_types (dict_get d "messageType")) as [[|]|];
    try discriminate; [intros [= <-]; lia|].
  destruct (in_compacted_types (dict_get d "type")) as [[|]|];
    try discriminate; intros [= <-]; lia.
Qed.

Lemma record_compaction_delta_spec (B : compacting_base)
    (s s' : TrackingCompactingSession.t) (before after : item) :
  TrackingCompactingSession._record_compaction_delta B s before after
  = Some s' ->
  exists b a,
    TrackingCompactingSession._token_count B before = Some b /\
    TrackingCompactingSession._token_count B after = Some a /\
    TrackingCompactingSession._pending_tools_delta s'
    = TrackingCompactingSession._pending_tools_delta s + Z.min 0 (a - b) /\
    TrackingCompactingSession._last_context_delta_usage s'
    = TrackingCompactingSession._last_context_delta_usage s /\
    TrackingCompactingSession._items s' = TrackingCompactingSession._items s.
Proof.
  unfold TrackingCompactingSession._record_compaction_delta.
  destruct (TrackingCompactingSession._token_count B before) as [b|];
    [|discriminate].
  destruct (TrackingCompactingSession._token_count B after) as [a|];
    [|discriminate].
  intros [= <-]. exists b, a. simpl.
  repeat split. destruct (Z.ltb_spec (a - b) 0); lia.
Qed.

Lemma compact_keeps_delta (B : compacting_base)
    (s s' : TrackingCompactingSession.t) (c : compaction_call) :
  TrackingCompactingSession._compact B s c = Some s' ->
  TrackingCompactingSession._last_context_delta_usage s'
  = TrackingCompactingSession._last_context_delta_usage s
  /\ TrackingCompactingSession._pending_tools_delta s'
     <= TrackingCompactingSession._pending_tools_delta s.
Proof.
  unfold TrackingCompactingSession._compact.
  destruct (py_index _ _) as [original|]; [|discriminate].
  destruct (py_index _ _) as [after|]; [|discriminate].
  intros H. apply record_compaction_delta_spec in H.
  destruct H as (b & a & _ & _ & Hp & Hd & _).
  simpl in Hp, Hd. split; [exact Hd | lia].
Qed.

Lemma run_calls_keeps_delta (B : compacting_base)
    (calls : list compaction_call) :
  forall s s',
    TrackingCompactingSession.run_calls B s calls = Some s' ->
    TrackingCompactingSession._last_context_delta_usage s'
    = TrackingCompactingSession._last_context_delta_usage s
    /\ TrackingCompactingSession._pending_tools_delta s'
       <= TrackingCompactingSession._pending_tools_delta s.
Proof.
  induction calls as [|c calls IH]; intros s s' H; simpl in H.
  - injection H as <-. split; [reflexivity | lia].
  - destruct (TrackingCompactingSession._compact B s c) as [s1|] eqn:Hc;
      [|discriminate].
    apply compact_keeps_delta in Hc. apply IH in H.
    destruct Hc as [Hd1 Hp1]. destruct H as [Hd Hp].
    split; [congruence | lia].
Qed.

Lemma apply_pending_spec (s : TrackingCompactingSession.t) :
  let u := TrackingCompactingSession._last_context_delta_usage s in
  let u' :=
    TrackingCompactingSession._last_context_delta_usage
      (TrackingCompactingSession.apply_pending s) in
  tools u'
  = tools u + Z.min 0 (TrackingCompactingSession._pending_tools_delta s)
  /\ userInput u' = userInput u /\ agentOutput u' = agentOutput u
  /\ memory u' = memory u /\ rag u' = rag u /\ basePrompt u' = basePrompt u
  /\ TrackingCompactingSession._pending_tools_delta
       (TrackingCompactingSession.apply_pending s) = 0.
Proof.
  unfold TrackingCompactingSession.apply_pending. simpl.
  destruct (Z.eqb_spec
              (Z.min 0 (TrackingCompactingSession._pending_tools_delta s)) 0)
    as [Heq|Hne]; simpl; repeat split; lia.
Qed.

(** C9.  In a compacting session an item marked compacted, by its
    [compacted] flag or by a compacted message type, counts for zero
    tokens.  Recording a compaction adds the token difference, after minus
    before, to the pending tools delta when it is negative and nothing
    otherwise, and leaves the reported delta alone.  A non-empty
    [add_items] adds the pending delta, as it stands when the base class
    returns, to the reported [tools] entry and resets it to 0; so an
    [add_items] that finds the pending delta at 0 and compacts nothing
    reports nothing more.  An empty [add_items] changes nothing. *)
Theorem compaction_delta_accounting (B : compacting_base) :
  ((forall d,
      py_truthy (dict_get d "compacted") = true ->
      TrackingCompactingSession._token_count B (PDict d) = Some 0)
   /\ (forall d m,
         dict_get d "messageType" = PStr m ->
         str_in m compacted_types = true ->
         TrackingCompactingSession._token_count B (PDict d) = Some 0))
  /\ (forall s s' before after,
        TrackingCompactingSession._record_compaction_delta B s before after
        = Some s' ->
        exists b a,
          TrackingCompactingSession._token_count B before = Some b /\
          TrackingCompactingSession._token_count B after = Some a /\
          TrackingCompactingSession._pending_tools_delta s'
          = TrackingCompactingSession._pending_tools_delta s
            + (if a - b <? 0 then a - b else 0) /\
          TrackingCompactingSession._last_context_delta_usage s'
          = TrackingCompactingSession._last_context_delta_usage s)
  /\ (forall s s' items,
        items <> [] ->
        TrackingCompactingSession.add_items B s items = Some s' ->
        exists s1,
          TrackingCompactingSession.run_calls B
            (TrackingCompactingSession.with_items s
               (fst (super_add_items B
                       (TrackingCompactingSession._items s) items)))
            (snd (super_add_items B
                    (TrackingCompactingSession._items s) items))
          = Some s1
          /\ TrackingCompactingSession._pending_tools_delta s1
             <= TrackingCompactingSession._pending_tools_delta s
          /\ tools (TrackingCompactingSession._last_context_delta_usage s')
             = tools (TrackingCompactingSession._last_context_delta_usage s)
               + Z.min 0 (TrackingCompactingSession._pending_tools_delta s1)
          /\ TrackingCompactingSession._pending_tools_delta s' = 0)
  /\ (forall s s' items,
        TrackingCompactingSession._pending_tools_delta s = 0 ->
        snd (super_add_items B (TrackingCompactingSession._items s) items)
        = [] ->
        TrackingCompactingSession.add_items B s items = Some s' ->
        TrackingCompactingSession._last_context_delta_usage s'
        = TrackingCompactingSession._last_context_delta_usage s
        /\ TrackingCompactingSession._pending_tools_delta s' = 0)
  /\ (forall s, TrackingCompactingSession.add_items B s [] = Some s).
Proof.
  split; [split; [apply token_count_compacted | apply token_count_marked]|].
  split.
  { intros s s' before after H.
    destruct (record_compaction_delta_spec B s s' before after H)
      as (b & a & Hb & Ha & Hp & Hd & _).
    exists b, a. repeat split; try assumption.
    rewrite Hp. destruct (Z.ltb_spec (a - b) 0); lia. }
  split.
  { intros s s' items Hne H.
    unfold TrackingCompactingSession.add_items in H.
    apply is_nil_false in Hne. rewrite Hne in H.
    destruct (super_add_items B _ items) as [stored calls]. simpl fst.
    simpl snd.
    destruct (TrackingCompactingSession.run_calls B _ calls) as [s1|] eqn:Hr;
      [|discriminate].
    injection H as <-. exists s1.
    destruct (run_calls_keeps_delta B calls _ _ Hr) as [Hd Hp].
    simpl in Hd, Hp.
    destruct (apply_pending_spec s1) as (Ht & _ & _ & _ & _ & _ & H0).
    repeat split; try assumption. rewrite Ht, Hd. reflexivity. }
  split; [|reflexivity].
  intros s s' items Hp0 Hcalls H.
  unfold TrackingCompactingSession.add_items in H.
  destruct (is_nil items); [injection H as <-; split; [reflexivity | exact Hp0]|].
  destruct (super_add_items B _ items) as [stored calls].
  simpl in Hcalls. subst calls. simpl in H. injection H as <-.
  unfold TrackingCompactingSession.apply_pending. simpl. rewrite Hp0. simpl.
  split; reflexivity.
Qed.

Lemma compaction_delta_accounting_witness :
  let B :=
    mkBase
      (fun stored new =>
         ((stored ++ new)%list, [mkCall ToolResult 0 None None]))
      (fun items _ _ _ => map (fun _ => PDict [("compacted", PBool true)]) items)
      (fun items _ _ _ => items)
      (fun _ => 5) in
  let output :=
    PDict [("type", PStr "function_call_output"); ("output", PStr "text")] in
  let s := TrackingCompactingSession.init in
  let s' :=
    TrackingCompactingSession.mk [PDict [("compacted", PBool true)]] true
      (mkUsage 0 0 (-5) 0 0 0) 0 in
  TrackingCompactingSession.add_items B s [output] = Some s'
  /\ TrackingCompactingSession._token_count B
       (PDict [("compacted", PBool true)]) = Some 0
  /\ exists s1,
       TrackingCompactingSession.run_calls B
         (TrackingCompactingSession.with_items s
            (fst (super_add_items B
                    (TrackingCompactingSession._items s) [output])))
         (snd (super_add_items B
                 (TrackingCompactingSession._items s) [output]))
       = Some s1
       /\ TrackingCompactingSession._pending_tools_delta s1
          <= TrackingCompactingSession._pending_tools_delta s
       /\ tools (TrackingCompactingSession._last_context_delta_usage s')
          = tools (TrackingCompactingSession._last_context_delta_usage s)
            + Z.min 0 (TrackingCompactingSession._pending_tools_delta s1)
       /\ TrackingCompactingSession._pending_tools_delta s' = 0.
Proof.
  intros B output s s'.
  destruct (compaction_delta_accounting B) as ((Hcount & _) & _ & Hadd & _).
  split; [reflexivity|].
  split; [apply Hcount; reflexivity|].
  apply (Hadd s s' [output]); [discriminate | reflexivity].
Defined.

(** ** get_items with a limit *)

Lemma slice_from_neg {A : Type} (l : list A) (n : Z) :
  0 < n -> slice_from l (- n) = last_n (Z.to_nat n) l.
Proof.
  intros Hn. unfold slice_from, last_n.
  destruct (Z.ltb_spec (- n) 0); [|lia].
  f_equal. lia.
Qed.

Lemma last_n_all {A : Type} (n : nat) (l : list A) :
  (List.length l <= n)%nat -> last_n n l = l.
Proof.
  intros H. unfold last_n.
  replace (List.length l - n)%nat with 0%nat by lia. reflexivity.
Qed.

Lemma last_n_length {A : Type} (n : nat) (l : list A) :
  (n <= List.length l)%nat -> List.length (last_n n l) = n.
Proof. intros H. unfold last_n. rewrite length_skipn. lia. Qed.

Lemma last_n_suffix {A : Type} (n : nat) (l : list A) :
  exists front, l = (front ++ last_n n l)%list.
Proof.
  exists (firstn (List.length l - n) l). unfold last_n.
  symmetry. apply firstn_skipn.
Qed.

(** C10.  [get_items(limit)] of a [DefaultSession], a [TrimmingSession] and
    a [SummarizingSession]: a positive limit gives the last [limit] items of
    the retained sequence (all of them when there are fewer), the limit 0
    gives the whole retained sequence, and so does a negative limit. *)
Theorem get_items_limit (d : DefaultSession.t) (t : TrimmingSession.t)
    (u : SummarizingSession.t) (limit : Z) :
  (0 < limit ->
   DefaultSession.get_items d (Some limit)
   = last_n (Z.to_nat limit) (DefaultSession.get_items d None)
   /\ TrimmingSession.get_items t (Some limit)
      = last_n (Z.to_nat limit) (TrimmingSession.get_items t None)
   /\ SummarizingSession.get_items u (Some limit)
      = last_n (Z.to_nat limit) (SummarizingSession.get_items u None))
  /\ (limit <= 0 ->
      DefaultSession.get_items d (Some limit) = DefaultSession.get_items d None
      /\ TrimmingSession.get_items t (Some limit)
         = TrimmingSession.get_items t None
      /\ SummarizingSession.get_items u (Some limit)
         = SummarizingSession.get_items u None)
  /\ DefaultSession.get_items d None = DefaultSession._items d.
Proof.
  unfold SummarizingSession.get_items, TrimmingSession.get_items,
    DefaultSession.get_items.
  split; [|split; [|reflexivity]].
  - intros Hpos. destruct (Z.leb_spec 0 limit); [|lia].
    repeat split; apply slice_from_neg; assumption.
  - intros Hle. destruct (Z.leb_spec 0 limit).
    + assert (limit = 0) by lia. subst limit. simpl Z.opp.
      rewrite !slice_from_0. repeat split.
    + repeat split.
Qed.

Lemma get_items_limit_witness :
  let d :=
    DefaultSession.add_items DefaultSession.init
      [user_message "a"; assistant_message "b"; user_message "c"] in
  DefaultSession.get_items d (Some 2) = [assistant_message "b"; user_message "c"]
  /\ DefaultSession.get_items d (Some 0)
     = [user_message "a"; assistant_message "b"; user_message "c"]
  /\ DefaultSession.get_items d (Some (-1))
     = [user_message "a"; assistant_message "b"; user_message "c"].
Proof.
  intros d.
  destruct (get_items_limit d (TrimmingSession.init 8 None)
              (SummarizingSession.init 3 7 (fun _ => Raises)) 2)
    as (Hpos & _ & _).
  destruct (get_items_limit d (TrimmingSession.init 8 None)
              (SummarizingSession.init 3 7 (fun _ => Raises)) 0)
    as (_ & Hzero & _).
  destruct (get_items_limit d (TrimmingSession.init 8 None)
              (SummarizingSession.init 3 7 (fun _ => Raises)) (-1))
    as (_ & Hneg & _).
  split; [apply Hpos; lia|].
  split; [apply Hzero; lia | apply Hneg; lia].
Defined.

(** * Further properties of the sessions *)

(** ** TrimmingSession: what a call stores and reports *)

Lemma suffix_same_length {A : Type} (dropped l whole : list A) :
  whole = (dropped ++ l)%list -> llen whole <= llen l -> l = whole.
Proof.
  intros -> Hlen. rewrite llen_app in Hlen.
  destruct dropped as [|x d]; [reflexivity|].
  unfold llen in Hlen. simpl List.length in Hlen. lia.
Qed.

Lemma slice_to_dropped {A : Type} (dropped l : list A) :
  slice_to (dropped ++ l) (llen (dropped ++ l) - llen l) = dropped.
Proof.
  rewrite llen_app.
  replace (llen dropped + llen l - llen l) with (llen dropped) by lia.
  rewrite slice_to_firstn
    by (rewrite llen_app; pose proof (llen_nonneg dropped);
        pose proof (llen_nonneg l); lia).
  unfold llen. rewrite Nat2Z.id.
  rewrite firstn_app, Nat.sub_diag, firstn_all. simpl. apply app_nil_r.
Qed.

(** The two outcomes of a non-empty [TrimmingSession.add_items]: everything
    pending is stored and only the counter moves, or the window is cut and
    the counter and the delta are reset from it. *)
Lemma trimming_add_items_shape (s : TrimmingSession.t) (items : list item) :
  items <> [] ->
  let pending := (TrimmingSession._items s ++ items)%list in
  let s' := TrimmingSession.add_items s items in
  (TrimmingSession._items s' = pending
   /\ TrimmingSession._did_trim_recently s' = false
   /\ TrimmingSession._internal_turn_counter s'
      = TrimmingSession._internal_turn_counter s + _count_user_turns items
   /\ TrimmingSession._last_context_delta_usage s'
      = TrimmingSession._last_context_delta_usage s)
  \/
  (exists dropped,
     dropped <> []
     /\ pending = (dropped ++ TrimmingSession._items s')%list
     /\ TrimmingSession._did_trim_recently s' = true
     /\ TrimmingSession._internal_turn_counter s'
        = Z.max 0 (Z.min (TrimmingSession.keep_last_n_turns s)
                         (_count_user_turns (TrimmingSession._items s')))
     /\ TrimmingSession._last_context_delta_usage s'
        = neg_usage_delta (TrimmingSession._last_context_delta_usage s)
            (_estimate_usage_for_items dropped)).
Proof.
  intros Hne pending s'. subst s'. unfold TrimmingSession.add_items.
  apply is_nil_false in Hne. rewrite Hne.
  unfold TrimmingSession.trim. fold pending.
  destruct (trim_is_suffix (TrimmingSession.max_turns s)
              (TrimmingSession.keep_last_n_turns s) pending
              (TrimmingSession.max_turns s
               <=? TrimmingSession._internal_turn_counter s
                   + _count_user_turns items)) as (dropped & Hsplit).
  destruct (_trim_to_last_turns _ _ pending _) as [trimmed total].
  simpl fst in Hsplit.
  destruct (Z.ltb_spec (llen trimmed) (llen pending)) as [Hlt|Hge].
  - right. exists dropped. simpl.
    split; [intros ->; simpl in Hsplit; rewrite Hsplit in Hlt; lia|].
    split; [exact Hsplit|].
    split; [reflexivity|]. split; [reflexivity|].
    rewrite Hsplit at 1 2. rewrite slice_to_dropped. reflexivity.
  - left. simpl. repeat split.
    eapply suffix_same_length; eassumption.
Qed.

Lemma estimate_usage_untouched_entries (items : list item) :
  memory (_estimate_usage_for_items items) = 0
  /\ basePrompt (_estimate_usage_for_items items) = 0.
Proof.
  induction items as [|it items IH].
  - split; reflexivity.
  - change (it :: items) with ([it] ++ items)%list.
    rewrite estimate_usage_app, estimate_usage_single.
    unfold usage_add. simpl. destruct IH as [-> ->].
    unfold bucket_of. destruct (_extract_role_and_text it) as [role text].
    destruct (String.eqb role "user"); [split; reflexivity|].
    destruct (str_in role ["tool"; "tool_result"]); split; reflexivity.
Qed.

(** X1.  [TrimmingSession.add_items] accounts for every token it drops:
    the estimated usage of everything that was pending (stored before plus
    added), corrected by what the call adds to the pending usage delta, is
    the estimated usage of what is stored after the call. *)
Theorem trimming_add_items_conserves_usage (s : TrimmingSession.t)
    (items : list item) :
  let s' := TrimmingSession.add_items s items in
  usage_add (TrimmingSession._last_context_delta_usage s')
            (_estimate_usage_for_items (TrimmingSession._items s ++ items))
  = usage_add (TrimmingSession._last_context_delta_usage s)
              (_estimate_usage_for_items (TrimmingSession._items s')).
Proof.
  intros s'. destruct items as [|x l].
  - subst s'. rewrite trimming_add_items_nil, app_nil_r. reflexivity.
  - destruct (trimming_add_items_shape s (x :: l)) as
      [(Hit & _ & _ & Hd) | (dropped & _ & Hsplit & _ & _ & Hd)];
      [discriminate | |]; fold s' in Hit || fold s' in Hsplit; fold s' in Hd.
    + rewrite Hit, Hd. reflexivity.
    + rewrite Hd, Hsplit, estimate_usage_app.
      destruct (estimate_usage_untouched_entries dropped) as [Hm Hb].
      unfold usage_add, neg_usage_delta.
      cbn [userInput agentOutput tools memory rag basePrompt].
      f_equal; lia.
Qed.

(** ** TrimmingSession driven by add_items *)

Lemma starts_last_turns_self (k : Z) (items window : list item) :
  starts_last_turns k items window -> starts_last_turns k window window.
Proof.
  intros (d & u & rest & _ & Hw & Hu & Hcnt).
  exists [], u, rest. repeat split; assumption.
Qed.

Lemma trimming_add_items_step (s : TrimmingSession.t) (items : list item) :
  items <> [] ->
  1 <= TrimmingSession.keep_last_n_turns s <= TrimmingSession.max_turns s ->
  TrimmingSession._internal_turn_counter s
  = _count_user_turns (TrimmingSession._items s) ->
  let s' := TrimmingSession.add_items s items in
  TrimmingSession._internal_turn_counter s'
  = _count_user_turns (TrimmingSession._items s')
  /\ (_count_user_turns (TrimmingSession._items s')
      < TrimmingSession.max_turns s
      \/ starts_last_turns (TrimmingSession.keep_last_n_turns s)
           (TrimmingSession._items s') (TrimmingSession._items s'))
  /\ exists dropped,
       (TrimmingSession._items s ++ items)%list
       = (dropped ++ TrimmingSession._items s')%list.
Proof.
  intros Hne HK Hcnt s'.
  destruct (trimming_add_items_stored s items Hne) as [Hst _].
  fold s' in Hst.
  pose proof (trim_result (TrimmingSession.max_turns s)
                (TrimmingSession.keep_last_n_turns s)
                (TrimmingSession._items s ++ items)%list
                (TrimmingSession.max_turns s
                 <=? TrimmingSession._internal_turn_counter s
                     + _count_user_turns items)) as Hres.
  rewrite <- Hst in Hres. specialize (Hres ltac:(lia)).
  destruct (trimming_add_items_shape s items Hne) as
    [(Hit & _ & Hc & _) | (dropped & Hd & Hsplit & _ & Hc & _)];
    fold s' in Hit || fold s' in Hsplit; fold s' in Hc.
  - split; [rewrite Hc, Hit, count_user_turns_app; lia|].
    split; [|exists []; rewrite Hit; reflexivity].
    destruct Hres as [[_ Hwhy] | [Hs _]].
    + left. rewrite Hit. destruct Hwhy as [?|[_ ?]]; lia.
    + right. eapply starts_last_turns_self; eassumption.
  - destruct Hres as [[Heq _] | [Hs _]].
    + exfalso. rewrite Heq in Hsplit.
      destruct dropped as [|d0 dropped]; [congruence|].
      apply (f_equal (@List.length item)) in Hsplit.
      rewrite !length_app in Hsplit. simpl List.length in Hsplit. lia.
    + pose proof (starts_last_turns_count _ _ _ Hs) as Hk.
      split; [rewrite Hc, Hk; lia|].
      split; [right; eapply starts_last_turns_self; eassumption|].
      exists dropped. exact Hsplit.
Qed.

(** The state of a session after a series of [add_items] calls. *)
Lemma trimming_calls_state (M K : Z) (calls : list (list item)) :
  1 <= K <= M ->
  let s := fold_left TrimmingSession.add_items calls
             (TrimmingSession.init M (Some K)) in
  TrimmingSession.max_turns s = M
  /\ TrimmingSession.keep_last_n_turns s = K
  /\ TrimmingSession._internal_turn_counter s
     = _count_user_turns (TrimmingSession._items s)
  /\ (_count_user_turns (TrimmingSession._items s) < M
      \/ starts_last_turns K (TrimmingSession._items s)
           (TrimmingSession._items s))
  /\ exists dropped,
       List.concat calls = (dropped ++ TrimmingSession._items s)%list.
Proof.
  intros HMK.
  induction calls as [|c calls IH] using rev_ind; intros s.
  - subst s. simpl. repeat split; try lia. exists []. reflexivity.
  - subst s. rewrite fold_left_app. simpl fold_left.
    set (s0 := fold_left TrimmingSession.add_items calls
                 (TrimmingSession.init M (Some K))) in *.
    destruct IH as (HM & HKs & Hc & Hw & dropped & Hcat).
    destruct (trimming_add_items_params s0 c) as [HM' HK'].
    rewrite HM', HK'. split; [exact HM | split; [exact HKs|]].
    rewrite concat_app. simpl List.concat. rewrite app_nil_r.
    destruct c as [|x l].
    + rewrite trimming_add_items_nil, app_nil_r.
      split; [exact Hc | split; [exact Hw | exists dropped; exact Hcat]].
    + destruct (trimming_add_items_step s0 (x :: l)) as (Hc' & Hw' & d' & Hsp);
        [discriminate | lia | exact Hc |].
      rewrite HM, HKs in Hw'.
      split; [exact Hc' | split; [exact Hw'|]].
      exists (dropped ++ d')%list.
      rewrite Hcat, <- !app_assoc. f_equal. exact Hsp.
Qed.

(** X2.  On a [TrimmingSession] that is only ever fed through [add_items],
    [get_items()] returns exactly the stored items: the window it recomputes
    on every read removes nothing more. *)
Theorem trimming_get_items_returns_stored (M K : Z)
    (calls : list (list item)) :
  1 <= K <= M ->
  let s := fold_left TrimmingSession.add_items calls
             (TrimmingSession.init M (Some K)) in
  TrimmingSession.get_items s None = TrimmingSession._items s.
Proof.
  intros HMK s.
  destruct (trimming_calls_state M K calls HMK) as (HM & HK & _ & Hw & _).
  fold s in HM, HK, Hw.
  unfold TrimmingSession.get_items, TrimmingSession.trim.
  rewrite HM, HK. destruct Hw as [Hlt | Hs].
  - rewrite trim_below_threshold by assumption. reflexivity.
  - eapply trim_window_fixed; [lia | eassumption].
Qed.

Lemma trimming_get_items_returns_stored_witness :
  let s := fold_left TrimmingSession.add_items
             [[user_message "a"]; [user_message "b"]; [user_message "c"]]
             (TrimmingSession.init 2 (Some 2)) in
  TrimmingSession.get_items s None = TrimmingSession._items s.
Proof.
  apply (trimming_get_items_returns_stored 2 2
           [[user_message "a"]; [user_message "b"]; [user_message "c"]]).
  lia.
Defined.

(** X3.  On a [TrimmingSession] that is only ever fed through [add_items],
    the internal turn counter is the number of user messages stored, and so
    never exceeds [max_turns]. *)
Theorem trimming_counter_counts_stored_turns (M K : Z)
    (calls : list (list item)) :
  1 <= K <= M ->
  let s := fold_left TrimmingSession.add_items calls
             (TrimmingSession.init M (Some K)) in
  TrimmingSession._internal_turn_counter s
  = _count_user_turns (TrimmingSession._items s)
  /\ 0 <= TrimmingSession._internal_turn_counter s <= M.
Proof.
  intros HMK s.
  destruct (trimming_calls_state M K calls HMK) as (_ & _ & Hc & Hw & _).
  fold s in Hc, Hw. split; [exact Hc|]. rewrite Hc.
  pose proof (count_user_turns_nonneg (TrimmingSession._items s)).
  destruct Hw as [Hlt | Hs]; [lia|].
  rewrite (starts_last_turns_count _ _ _ Hs). lia.
Qed.

Lemma trimming_counter_counts_stored_turns_witness :
  let s := fold_left TrimmingSession.add_items
             [[user_message "a"; assistant_message "b"];
              [user_message "c"]; [user_message "d"]]
             (TrimmingSession.init 3 (Some 1)) in
  TrimmingSession._internal_turn_counter s
  = _count_user_turns (TrimmingSession._items s)
  /\ 0 <= TrimmingSession._internal_turn_counter s <= 3.
Proof.
  apply (trimming_counter_counts_stored_turns 3 1
           [[user_message "a"; assistant_message "b"];
            [user_message "c"]; [user_message "d"]]).
  lia.
Defined.

(** X4.  Trimming only ever drops from the front: after any series of
    [add_items] calls the stored items are a trailing part of everything
    that was added, in the order it was added. *)
Theorem trimming_stores_a_trailing_part (M K : Z) (calls : list (list item)) :
  1 <= K <= M ->
  exists dropped,
    List.concat calls
    = (dropped
       ++ TrimmingSession._items
            (fold_left TrimmingSession.add_items calls
               (TrimmingSession.init M (Some K))))%list.
Proof.
  intros HMK.
  destruct (trimming_calls_state M K calls HMK) as (_ & _ & _ & _ & H).
  exact H.
Qed.

Lemma trimming_stores_a_trailing_part_witness :
  exists dropped,
    List.concat [[user_message "a"]; [user_message "b"]; [user_message "c"]]
    = (dropped
       ++ TrimmingSession._items
            (fold_left TrimmingSession.add_items
               [[user_message "a"]; [user_message "b"]; [user_message "c"]]
               (TrimmingSession.init 2 (Some 1))))%list.
Proof.
  apply (trimming_stores_a_trailing_part 2 1
           [[user_message "a"]; [user_message "b"]; [user_message "c"]]).
  lia.
Defined.

(** ** TrimmingSession under every operation of the contract *)

Lemma trim_turns_le (M K : Z) (items : list item) (force : bool) :
  1 <= K <= M ->
  _count_user_turns (fst (_trim_to_last_turns M K items force)) <= M.
Proof.
  intros HK.
  destruct (trim_result M K items force) as [[-> Hwhy] | [Hs _]]; [lia | |].
  - destruct Hwhy as [Hlt | [_ Hlt]]; lia.
  - rewrite (starts_last_turns_count _ _ _ Hs). lia.
Qed.

Lemma pop_item_items (s : TrimmingSession.t) :
  exists popped,
    TrimmingSession._items s
    = (TrimmingSession._items (snd (TrimmingSession.pop_item s))
       ++ popped)%list
    /\ TrimmingSession.max_turns (snd (TrimmingSession.pop_item s))
       = TrimmingSession.max_turns s
    /\ TrimmingSession.keep_last_n_turns (snd (TrimmingSession.pop_item s))
       = TrimmingSession.keep_last_n_turns s
    /\ TrimmingSession._internal_turn_counter
         (snd (TrimmingSession.pop_item s))
       = TrimmingSession._internal_turn_counter s
    /\ TrimmingSession._last_context_delta_usage
         (snd (TrimmingSession.pop_item s))
       = TrimmingSession._last_context_delta_usage s.
Proof.
  unfold TrimmingSession.pop_item.
  destruct (rev (TrimmingSession._items s)) as [|last front] eqn:Hrev.
  - exists []. simpl. rewrite app_nil_r. repeat split.
  - exists [last]. simpl. repeat split.
    rewrite <- (rev_involutive (TrimmingSession._items s)), Hrev.
    reflexivity.
Qed.

Lemma set_max_turns_params (s : TrimmingSession.t) (n : Z) :
  1 <= TrimmingSession.keep_last_n_turns s ->
  _count_user_turns (TrimmingSession._items s) <= TrimmingSession.max_turns s ->
  let s' := TrimmingSession.set_max_turns s n in
  TrimmingSession.max_turns s' = Z.max 1 n
  /\ TrimmingSession.keep_last_n_turns s'
     = Z.min (TrimmingSession.keep_last_n_turns s) (Z.max 1 n)
  /\ _count_user_turns (TrimmingSession._items s') <= Z.max 1 n
  /\ 0 <= TrimmingSession._internal_turn_counter s'.
Proof.
  intros HK Hb s'. subst s'. unfold TrimmingSession.set_max_turns.
  destruct (Z.eqb_spec (Z.max 1 n) (TrimmingSession.max_turns s)) as [Heq|Hne].
  - simpl. rewrite <- Heq. repeat split; lia.
  - pose proof (trim_turns_le (Z.max 1 n)
                  (Z.min (TrimmingSession.keep_last_n_turns s) (Z.max 1 n))
                  (TrimmingSession._items s) false ltac:(lia)) as Hle.
    destruct (_trim_to_last_turns _ _ _ _) as [trimmed total].
    simpl fst in Hle.
    destruct (llen trimmed <? _); simpl; repeat split; lia.
Qed.

(** The invariant every operation keeps. *)
Lemma trimming_op_invariant (s : TrimmingSession.t) (op : trimming_op) :
  1 <= TrimmingSession.keep_last_n_turns s <= TrimmingSession.max_turns s ->
  _count_user_turns (TrimmingSession._items s) <= TrimmingSession.max_turns s ->
  0 <= TrimmingSession._internal_turn_counter s ->
  let s' := run_trimming_op s op in
  1 <= TrimmingSession.keep_last_n_turns s' <= TrimmingSession.max_turns s'
  /\ _count_user_turns (TrimmingSession._items s')
     <= TrimmingSession.max_turns s'
  /\ 0 <= TrimmingSession._internal_turn_counter s'.
Proof.
  intros HK Hb Hc s'. subst s'. destruct op as [items| | |n|n]; simpl.
  - destruct (trimming_add_items_params s items) as [-> ->].
    split; [exact HK|].
    destruct items as [|x l]; [split; assumption|].
    destruct (trimming_add_items_bound s (x :: l)) as [H1 _];
      [discriminate | exact HK |].
    split; [exact H1|].
    pose proof (count_user_turns_nonneg (x :: l)).
    destruct (trimming_add_items_shape s (x :: l)) as
      [(_ & _ & -> & _) | (_ & _ & _ & _ & -> & _)]; [discriminate | lia | lia].
  - destruct (pop_item_items s) as (popped & Hit & -> & -> & -> & _).
    split; [exact HK|]. split; [|exact Hc].
    rewrite Hit, count_user_turns_app in Hb.
    pose proof (count_user_turns_nonneg popped). lia.
  - repeat split; lia.
  - destruct (set_max_turns_params s n) as (-> & -> & H3 & H4); [lia | lia |].
    repeat split; lia.
  - destruct (set_keep_last_n_turns_state s n) as (_ & -> & -> & Hit & _).
    split; [lia|].
    split.
    + rewrite Hit. destruct (_ =? _); [exact Hb|].
      apply trim_turns_le. lia.
    + unfold TrimmingSession.set_keep_last_n_turns,
        TrimmingSession.set_internalTurnCounter.
      destruct (_ =? _); [simpl; lia|].
      destruct (_trim_to_last_turns _ _ _ _) as [trimmed total].
      destruct (llen trimmed <? _); simpl; lia.
Qed.

(** X5.  Whatever the constructor arguments and whatever operations follow
    ([add_items], [pop_item], [clear_session], [set_max_turns],
    [set_keep_last_n_turns], with any arguments), a [TrimmingSession] keeps
    [1 <= keep_last_n_turns <= max_turns], stores at most [max_turns] user
    messages, and its turn counter is not negative. *)
Theorem trimming_session_invariant (M : Z) (K : option Z)
    (ops : list trimming_op) :
  let s := fold_left run_trimming_op ops (TrimmingSession.init M K) in
  1 <= TrimmingSession.keep_last_n_turns s <= TrimmingSession.max_turns s
  /\ _count_user_turns (TrimmingSession._items s)
     <= TrimmingSession.max_turns s
  /\ 0 <= TrimmingSession._internal_turn_counter s.
Proof.
  induction ops as [|op ops IH] using rev_ind; intros s.
  - subst s. unfold TrimmingSession.init. simpl. destruct K; lia.
  - subst s. rewrite fold_left_app. simpl fold_left.
    destruct IH as (HK & Hb & Hc).
    apply trimming_op_invariant; assumption.
Qed.

Lemma delta_removes_only_zero : delta_removes_only zero_usage.
Proof. unfold delta_removes_only. simpl. lia. Qed.

Lemma trimming_op_delta (s : TrimmingSession.t) (op : trimming_op) :
  delta_removes_only (TrimmingSession._last_context_delta_usage s) ->
  delta_removes_only
    (TrimmingSession._last_context_delta_usage (run_trimming_op s op)).
Proof.
  intros Hd. destruct op as [items| | |n|n]; simpl.
  - destruct items as [|x l]; [exact Hd|].
    destruct (trimming_add_items_shape s (x :: l)) as
      [(_ & _ & _ & ->) | (dropped & _ & _ & _ & _ & ->)];
      [discriminate | exact Hd |].
    pose proof (estimate_usage_nonneg dropped).
    unfold delta_removes_only, neg_usage_delta in *.
    cbn [userInput agentOutput tools memory rag basePrompt]. lia.
  - destruct (pop_item_items s) as (_ & _ & _ & _ & _ & ->). exact Hd.
  - apply delta_removes_only_zero.
  - destruct (set_max_turns_state s n) as (-> & _). exact Hd.
  - destruct (set_keep_last_n_turns_state s n) as (-> & _). exact Hd.
Qed.

(** X6.  The pending usage delta of a [TrimmingSession] only ever reports
    removals: after any series of operations its [userInput], [agentOutput],
    [tools] and [rag] entries are at most 0, and [memory] and [basePrompt]
    are 0. *)
Theorem trimming_delta_never_positive (M : Z) (K : option Z)
    (ops : list trimming_op) :
  delta_removes_only
    (TrimmingSession._last_context_delta_usage
       (fold_left run_trimming_op ops (TrimmingSession.init M K))).
Proof.
  induction ops as [|op ops IH] using rev_ind.
  - apply delta_removes_only_zero.
  - rewrite fold_left_app. simpl fold_left.
    apply trimming_op_delta. exact IH.
Qed.

(** ** Windowing twice *)

(** X7.  The windowing function is stable under a second, unforced pass:
    whatever the parameters and however the first window was taken, taking
    the unforced window of the result returns it unchanged.  So reading a
    session right after a non-empty [add_items] returns what the call
    stored. *)
Theorem windowing_is_idempotent (M K : Z) (items : list item) (force : bool) :
  (fst (_trim_to_last_turns M K
          (fst (_trim_to_last_turns M K items force)) false)
   = fst (_trim_to_last_turns M K items force))
  /\ (forall (s : TrimmingSession.t) (new : list item),
        new <> [] ->
        TrimmingSession.get_items (TrimmingSession.add_items s new) None
        = TrimmingSession._items (TrimmingSession.add_items s new)).
Proof.
  assert (Hidem : forall M K items force,
             fst (_trim_to_last_turns M K
                    (fst (_trim_to_last_turns M K items force)) false)
             = fst (_trim_to_last_turns M K items force)).
  { clear. intros M K items force.
    destruct (Z.leb_spec K 0) as [Hle|Hgt].
    - rewrite !trim_keep_nonpos by assumption. reflexivity.
    - destruct (trim_result M K items force) as [[-> Hwhy] | [Hs _]]; [lia | |].
      + destruct Hwhy as [Hlt | [_ Hlt]].
        * rewrite trim_fewer_than_keep by assumption. reflexivity.
        * rewrite trim_below_threshold by assumption. reflexivity.
      + eapply trim_window_fixed; [lia | eassumption]. }
  split; [apply Hidem|].
  intros s new Hne.
  destruct (trimming_add_items_stored s new Hne) as [Hst _].
  destruct (trimming_add_items_params s new) as [HM HK].
  unfold TrimmingSession.get_items, TrimmingSession.trim.
  rewrite HM, HK, Hst. apply Hidem.
Qed.

Lemma windowing_is_idempotent_witness :
  TrimmingSession.get_items
    (TrimmingSession.add_items (TrimmingSession.init 1 None)
       [user_message "a"; user_message "b"]) None
  = TrimmingSession._items
      (TrimmingSession.add_items (TrimmingSession.init 1 None)
         [user_message "a"; user_message "b"]).
Proof.
  destruct (windowing_is_idempotent 1 1 [] false) as [_ H].
  apply H. discriminate.
Defined.

(** ** DefaultSession *)

Lemma default_add_items_state (s : DefaultSession.t) (items : list item) :
  DefaultSession._items (DefaultSession.add_items s items)
  = (DefaultSession._items s ++ items)%list
  /\ DefaultSession._internal_turn_counter (DefaultSession.add_items s items)
     = DefaultSession._internal_turn_counter s + _count_user_turns items
  /\ DefaultSession._last_context_delta_usage
       (DefaultSession.add_items s items)
     = DefaultSession._last_context_delta_usage s.
Proof.
  unfold DefaultSession.add_items. destruct items as [|x l]; simpl.
  - rewrite app_nil_r. repeat split; lia.
  - repeat split.
Qed.

(** X8.  A [DefaultSession] never drops anything: after any series of
    [add_items] calls it stores every item added, in order, its turn counter
    is the number of user messages among them, and its usage delta is still
    all-zero. *)
Theorem default_session_keeps_everything (calls : list (list item)) :
  let s := fold_left DefaultSession.add_items calls DefaultSession.init in
  DefaultSession.get_items s None = List.concat calls
  /\ DefaultSession._internal_turn_counter s
     = _count_user_turns (List.concat calls)
  /\ DefaultSession._last_context_delta_usage s = zero_usage.
Proof.
  induction calls as [|c calls IH] using rev_ind; intros s.
  - subst s. repeat split.
  - subst s. rewrite fold_left_app. simpl fold_left.
    destruct IH as (Hit & Hc & Hd).
    destruct (default_add_items_state
                (fold_left DefaultSession.add_items calls DefaultSession.init)
                c) as (Hit' & Hc' & Hd').
    unfold DefaultSession.get_items in *.
    rewrite Hit', Hc', Hd', Hit, Hc, Hd.
    rewrite concat_app, count_user_turns_app. simpl List.concat.
    rewrite app_nil_r. repeat split.
Qed.

(** X9.  [pop_item] on a [DefaultSession] removes and returns the last
    stored item and does not touch the turn counter, also when the popped
    item is a user message: a user message added and popped again leaves the
    stored items as they were and the counter one higher.  On an empty
    session it returns nothing and changes nothing. *)
Theorem default_pop_item_keeps_counter (s : DefaultSession.t)
    (front : list item) (x : item) :
  (DefaultSession._items s = (front ++ [x])%list ->
   DefaultSession.pop_item s
   = (Some x,
      DefaultSession.mk front (DefaultSession._internal_turn_counter s)
        (DefaultSession._last_context_delta_usage s)))
  /\ (DefaultSession._items s = [] -> DefaultSession.pop_item s = (None, s))
  /\ (_is_user_msg x = true ->
      DefaultSession.pop_item (DefaultSession.add_items s [x])
      = (Some x,
         DefaultSession.mk (DefaultSession._items s)
           (DefaultSession._internal_turn_counter s + 1)
           (DefaultSession._last_context_delta_usage s))).
Proof.
  assert (Hpop : forall (s : DefaultSession.t) front x,
             DefaultSession._items s = (front ++ [x])%list ->
             DefaultSession.pop_item s
             = (Some x,
                DefaultSession.mk front (DefaultSession._internal_turn_counter s)
                  (DefaultSession._last_context_delta_usage s))).
  { clear. intros s front x Hit. unfold DefaultSession.pop_item.
    rewrite Hit, rev_app_distr. simpl. rewrite rev_involutive. reflexivity. }
  split; [apply Hpop|]. split.
  - intros Hnil. unfold DefaultSession.pop_item. rewrite Hnil. reflexivity.
  - intros Hu.
    rewrite (Hpop (DefaultSession.add_items s [x]) (DefaultSession._items s) x)
      by reflexivity.
    simpl. rewrite Hu. repeat f_equal; lia.
Qed.

Lemma default_pop_item_keeps_counter_witness :
  DefaultSession.pop_item
    (DefaultSession.add_items DefaultSession.init [user_message "a"])
  = (Some (user_message "a"), DefaultSession.mk [] 1 zero_usage).
Proof.
  destruct (default_pop_item_keeps_counter DefaultSession.init []
              (user_message "a")) as (_ & _ & H).
  apply H. reflexivity.
Defined.

(** ** SummarizingSession: the boundary *)

Lemma user_indices_length (items : list item) :
  forall i, llen (user_indices_from i items) = _count_user_turns items.
Proof.
  unfold llen.
  induction items as [|it rest IH]; intros i; simpl; [reflexivity|].
  destruct (_is_user_msg it); simpl List.length; rewrite <- (IH (i + 1)); lia.
Qed.

(** The [j]-th user index is the position of a user message, and the items
    from there on hold the user messages not counted before it. *)
Lemma user_indices_nth (items : list item) :
  forall i j,
    (j < List.length (user_indices_from i items))%nat ->
    exists k u tl,
      nth j (user_indices_from i items) 0 = i + Z.of_nat k /\
      skipn k items = u :: tl /\
      _is_user_msg u = true /\
      _count_user_turns (u :: tl)
      = llen (user_indices_from i items) - Z.of_nat j.
Proof.
  induction items as [|it rest IH]; intros i j Hj; simpl in Hj; [lia|].
  simpl user_indices_from in *.
  destruct (_is_user_msg it) eqn:Hu.
  - destruct j as [|j].
    + exists 0%nat, it, rest. simpl nth. simpl skipn.
      repeat split; [lia | exact Hu |].
      simpl _count_user_turns. rewrite Hu.
      unfold llen. simpl List.length.
      pose proof (user_indices_length rest (i + 1)) as Hl. unfold llen in Hl.
      lia.
    + simpl in Hj.
      destruct (IH (i + 1) j ltac:(lia)) as (k & u & tl & Hn & Hk & Hus & Hc).
      exists (S k), u, tl. simpl nth. simpl skipn.
      repeat split; try assumption; [lia|].
      rewrite Hc. unfold llen. simpl List.length. lia.
  - destruct (IH (i + 1) j Hj) as (k & u & tl & Hn & Hk & Hus & Hc).
    exists (S k), u, tl. simpl skipn.
    repeat split; try assumption. lia.
Qed.

Lemma boundary_idx_cases (keep : Z) (combined : list item) :
  let b := SummarizingSession.boundary_idx keep combined in
  let n := _count_user_turns combined in
  (0 < keep < n ->
   starts_last_turns keep combined (slice_from combined b)
   /\ _count_user_turns (slice_to combined b) = n - keep)
  /\ (n <= keep ->
      slice_to combined b = [] /\ slice_from combined b = combined)
  /\ (keep <= 0 -> keep < n ->
      slice_to combined b = combined /\ slice_from combined b = []).
Proof.
  intros b n. subst b. unfold SummarizingSession.boundary_idx.
  rewrite user_indices_length. fold n.
  pose proof (llen_nonneg combined) as Hlen.
  split; [|split].
  - intros Hk.
    destruct (Z.leb_spec keep 0); [lia|].
    destruct (Z.leb_spec n keep); [lia|]. simpl orb. cbv iota.
    destruct (user_indices_nth combined 0 (Z.to_nat (n - keep)))
      as (k & u & tl & Hn & Hsk & Hu & Hc).
    { pose proof (user_indices_length combined 0) as Hl. unfold llen in Hl.
      fold n in Hl. lia. }
    rewrite Hn. rewrite user_indices_length in Hc. fold n in Hc.
    assert (Hklt : (k < List.length combined)%nat).
    { destruct (Nat.lt_ge_cases k (List.length combined)) as [?|Hge];
        [assumption|].
      rewrite skipn_all2 in Hsk by assumption. discriminate. }
    unfold llen in *.
    replace (Z.max 0 (Z.min (0 + Z.of_nat k) (Z.of_nat (List.length combined))))
      with (Z.of_nat k) by lia.
    assert (Hsplit : combined = (firstn k combined ++ u :: tl)%list)
      by (rewrite <- Hsk; symmetry; apply firstn_skipn).
    rewrite slice_from_skipn, slice_to_firstn by (unfold llen; lia).
    rewrite Nat2Z.id, Hsk. split.
    + exists (firstn k combined), u, tl.
      repeat split; try assumption. lia.
    + assert (Hn' : n = _count_user_turns (firstn k combined)
                        + _count_user_turns (u :: tl)).
      { subst n. rewrite Hsplit at 1. apply count_user_turns_app. }
      lia.
  - intros Hk.
    destruct (Z.leb_spec n keep); [|lia]. rewrite orb_true_r.
    replace (Z.max 0 (Z.min 0 (llen combined))) with 0 by lia.
    rewrite slice_from_0, slice_to_firstn by lia. split; reflexivity.
  - intros Hk Hn.
    destruct (Z.leb_spec keep 0); [|lia].
    destruct (Z.leb_spec n keep); [lia|]. simpl orb. cbv iota.
    replace (Z.max 0 (Z.min (llen combined) (llen combined)))
      with (llen combined) by lia.
    rewrite slice_from_skipn, slice_to_firstn by lia.
    unfold llen. rewrite Nat2Z.id, firstn_all, skipn_all.
    split; reflexivity.
Qed.

(** X10.  The boundary of [SummarizingSession.add_items] splits the pending
    items into the part to summarize and the part kept verbatim.  With
    [0 < keep_last_n_turns] below the number of user turns, the kept part is
    exactly the last [keep_last_n_turns] turns, starting at a user message,
    and the part to summarize holds the other user turns.  With at least as
    many turns to keep as there are, nothing is summarized; with nothing to
    keep, everything is. *)
Theorem summarizing_boundary_splits_turns (keep : Z) (combined : list item) :
  let b := SummarizingSession.boundary_idx keep combined in
  let n := _count_user_turns combined in
  (0 < keep < n ->
   starts_last_turns keep combined (slice_from combined b)
   /\ _count_user_turns (slice_to combined b) = n - keep)
  /\ (n <= keep ->
      slice_to combined b = [] /\ slice_from combined b = combined)
  /\ (keep <= 0 -> keep < n ->
      slice_to combined b = combined /\ slice_from combined b = []).
Proof. exact (boundary_idx_cases keep combined). Qed.

Lemma summarizing_boundary_splits_turns_witness :
  starts_last_turns 1
    [user_message "a"; assistant_message "b"; user_message "c";
     assistant_message "d"]
    (slice_from
       [user_message "a"; assistant_message "b"; user_message "c";
        assistant_message "d"]
       (SummarizingSession.boundary_idx 1
          [user_message "a"; assistant_message "b"; user_message "c";
           assistant_message "d"])).
Proof.
  destruct (summarizing_boundary_splits_turns 1
              [user_message "a"; assistant_message "b"; user_message "c";
               assistant_message "d"]) as (H & _).
  apply H. vm_compute. split; reflexivity.
Defined.

(** ** SummarizingSession: after a summarization *)

Lemma nonempty_true (text : string) :
  text <> EmptyString -> nonempty text = true.
Proof.
  intros H. unfold nonempty.
  destruct (String.eqb_spec text EmptyString); [contradiction | reflexivity].
Qed.

Lemma summarizing_add_items_triggered_delta (s : SummarizingSession.t)
    (items : list item) :
  reaches_limit s items ->
  pending_prefix s items <> [] ->
  let removed := _estimate_usage_for_items (pending_prefix s items) in
  SummarizingSession._last_context_delta_usage
    (SummarizingSession.add_items s items)
  = mkUsage (- userInput removed) (- agentOutput removed) (- tools removed)
            0 (- rag removed) 0.
Proof.
  intros [Hne Hlim] Hpre removed.
  unfold SummarizingSession.add_items.
  apply is_nil_false in Hne. rewrite Hne.
  apply Z.leb_le in Hlim. rewrite Hlim. cbv beta iota zeta. simpl negb.
  cbv iota.
  change (SummarizingSession._items s ++ items)%list
    with (pending_items s items).
  change (slice_to (pending_items s items)
            (SummarizingSession.boundary_idx
               (SummarizingSession.keep_last_n_turns s)
               (pending_items s items)))
    with (pending_prefix s items).
  apply is_nil_false in Hpre. rewrite Hpre.
  destruct (SummarizingSession.summarize_prefix s (pending_prefix s items))
    as [shadow text].
  cbv beta iota zeta. simpl negb. cbv iota. rewrite Hpre. reflexivity.
Qed.

(** X11.  A summarization overwrites the pending usage delta: after a call
    that reached the limit with a non-empty prefix, the delta is the negated
    estimated usage of the prefix, with [memory] and [basePrompt] at 0,
    whatever the summarizer returned and whatever delta was pending before
    the call. *)
Theorem summarization_delta_is_prefix_usage (s : SummarizingSession.t)
    (items : list item) :
  reaches_limit s items ->
  pending_prefix s items <> [] ->
  let removed := _estimate_usage_for_items (pending_prefix s items) in
  let delta :=
    SummarizingSession._last_context_delta_usage
      (SummarizingSession.add_items s items) in
  delta = mkUsage (- userInput removed) (- agentOutput removed)
                  (- tools removed) 0 (- rag removed) 0
  /\ delta_removes_only delta.
Proof.
  intros Hlim Hpre removed delta. subst delta.
  rewrite summarizing_add_items_triggered_delta by assumption.
  split; [reflexivity|].
  pose proof (estimate_usage_nonneg (pending_prefix s items)) as Hn.
  subst removed. unfold delta_removes_only.
  cbn [userInput agentOutput tools memory rag basePrompt]. lia.
Qed.

Lemma summarization_delta_is_prefix_usage_witness :
  let summarizer := fun _ : list item => Returns "shadow" "summary" in
  let s :=
    SummarizingSession.add_items (SummarizingSession.init 1 2 summarizer)
      [user_message "aaaa"; assistant_message "bbbbbbbb"] in
  SummarizingSession._last_context_delta_usage
    (SummarizingSession.add_items s [user_message "c"])
  = mkUsage (-1) (-2) 0 0 0 0.
Proof.
  intros summarizer s.
  destruct (summarization_delta_is_prefix_usage s [user_message "c"])
    as (H & _).
  - split; [discriminate | vm_compute; discriminate].
  - vm_compute. discriminate.
  - exact H.
Defined.

Lemma starts_last_turns_unique (k : Z) (items a b : list item) :
  starts_last_turns k items a -> starts_last_turns k items b -> a = b.
Proof.
  assert (Hone : forall e a b u rest,
             b = (e ++ a)%list -> b = u :: rest -> _is_user_msg u = true ->
             _count_user_turns a = _count_user_turns b -> e = []).
  { intros e a0 b0 u rest Hb Hhd Hu Hcnt.
    destruct e as [|x e]; [reflexivity|]. exfalso.
    rewrite Hb in Hcnt, Hhd. rewrite count_user_turns_app in Hcnt.
    simpl in Hhd. injection Hhd as -> _.
    simpl in Hcnt. rewrite Hu in Hcnt.
    pose proof (count_user_turns_nonneg e). lia. }
  intros (d1 & u1 & r1 & H1 & Ha & Hu1 & Hc1)
         (d2 & u2 & r2 & H2 & Hb & Hu2 & Hc2).
  rewrite H1 in H2. apply app_eq_app in H2.
  destruct H2 as (e & [[_ Hbe] | [_ Hae]]).
  - rewrite (Hone e a b u2 r2) in Hbe by (try assumption; lia).
    symmetry. exact Hbe.
  - rewrite (Hone e b a u1 r1) in Hae by (try assumption; lia).
    exact Hae.
Qed.

(** X12.  What [get_items()] shows after a summarization that inserted both
    synthetic messages, with [keep_last_n_turns] at least 1: the stored
    sequence holds [keep_last_n_turns + 1] user messages, so when the
    context limit is not above that number the window recomputed on reading
    cuts the two synthetic messages off again and only the kept suffix is
    returned; with a higher limit the summary is returned in front of the
    suffix. *)
Theorem summary_visible_only_below_limit (s : SummarizingSession.t)
    (items : list item) (shadow text : string) :
  reaches_limit s items ->
  pending_prefix s items <> [] ->
  SummarizingSession._summarizer s (pending_prefix s items)
  = Returns shadow text ->
  shadow <> EmptyString ->
  text <> EmptyString ->
  0 < SummarizingSession.keep_last_n_turns s ->
  let s' := SummarizingSession.add_items s items in
  (SummarizingSession.max_turns s
   <= SummarizingSession.keep_last_n_turns s + 1 ->
   SummarizingSession.get_items s' None = pending_suffix s items)
  /\ (SummarizingSession.keep_last_n_turns s + 1
      < SummarizingSession.max_turns s ->
      SummarizingSession.get_items s' None
      = user_message shadow :: assistant_message text
        :: pending_suffix s items).
Proof.
  intros Hlim Hpre Hsum Hsh Htx Hkeep s'.
  destruct (summarizing_add_items_triggered s items Hlim Hpre)
    as (Hit & _ & _ & _ & HM & HK).
  fold s' in Hit, HM, HK.
  unfold SummarizingSession.summarize_prefix in Hit.
  rewrite Hsum in Hit. simpl fst in Hit. simpl snd in Hit.
  rewrite (nonempty_true text Htx) in Hit.
  unfold SummarizingSession.synthetic_items_of in Hit.
  pose proof Hpre as Hpre'. apply is_nil_false in Hpre'.
  rewrite Hpre', (nonempty_true text Htx), (nonempty_true shadow Hsh) in Hit.
  simpl in Hit.
  destruct (boundary_idx_cases (SummarizingSession.keep_last_n_turns s)
              (pending_items s items)) as (Hmid & Hall & _).
  fold (pending_prefix s items) in Hmid, Hall.
  fold (pending_suffix s items) in Hmid, Hall.
  destruct (Z.le_gt_cases (_count_user_turns (pending_items s items))
              (SummarizingSession.keep_last_n_turns s)) as [Hle|Hgt].
  { destruct (Hall Hle) as [Hnil _]. contradiction. }
  destruct Hmid as [Hs _]; [lia|].
  pose proof (starts_last_turns_count _ _ _ Hs) as Hcnt.
  assert (Hstored :
            starts_last_turns (SummarizingSession.keep_last_n_turns s)
              (SummarizingSession._items s') (pending_suffix s items)).
  { destruct Hs as (d & u & rest & _ & Hw & Hu & Hc).
    exists [user_message shadow; assistant_message text], u, rest.
    rewrite Hit. repeat split; assumption. }
  assert (Husers : _count_user_turns (SummarizingSession._items s')
                   = SummarizingSession.keep_last_n_turns s + 1).
  { rewrite Hit.
    change (user_message shadow :: assistant_message text
            :: pending_suffix s items)
      with ([user_message shadow; assistant_message text]
            ++ pending_suffix s items)%list.
    rewrite count_user_turns_app, Hcnt.
    change (_count_user_turns [user_message shadow; assistant_message text])
      with 1. lia. }
  unfold SummarizingSession.get_items, TrimmingSession.get_items,
    TrimmingSession.trim.
  change (TrimmingSession._items (SummarizingSession.base s'))
    with (SummarizingSession._items s').
  change (TrimmingSession.max_turns (SummarizingSession.base s'))
    with (SummarizingSession.max_turns s').
  change (TrimmingSession.keep_last_n_turns (SummarizingSession.base s'))
    with (SummarizingSession.keep_last_n_turns s').
  rewrite HM, HK. split.
  - intros Hlow.
    destruct (trim_cut (SummarizingSession.max_turns s)
                (SummarizingSession.keep_last_n_turns s)
                (SummarizingSession._items s') false)
      as (suffix & Heq & Hs'); [right; lia | lia |].
    rewrite Heq. simpl fst.
    eapply starts_last_turns_unique; eassumption.
  - intros Hhigh. rewrite trim_below_threshold by lia.
    simpl fst. exact Hit.
Qed.

Lemma summary_visible_only_below_limit_witness :
  let summarizer := fun _ : list item => Returns "shadow" "summary" in
  let s :=
    fold_left SummarizingSession.add_items
      [[user_message "a"]; [user_message "b"]]
      (SummarizingSession.init 2 3 summarizer) in
  SummarizingSession.get_items
    (SummarizingSession.add_items s [user_message "c"]) None
  = [user_message "b"; user_message "c"].
Proof.
  intros summarizer s.
  destruct (summary_visible_only_below_limit s [user_message "c"]
              "shadow" "summary") as (H & _).
  - split; [discriminate | vm_compute; discriminate].
  - vm_compute. discriminate.
  - reflexivity.
  - discriminate.
  - discriminate.
  - vm_compute. reflexivity.
  - apply H. vm_compute. discriminate.
Defined.

(** ** Compaction of an item that is already compacted *)

(** X13.  Compacting an item that is already marked compacted records
    nothing: whatever the hook rewrites it to, the pending tools delta and
    the reported delta stay as they were (a counted item cannot have fewer
    than the 0 tokens of a compacted one). *)
Theorem recompaction_records_nothing (B : compacting_base)
    (s s' : TrackingCompactingSession.t) (d : dict) (after : item) :
  py_truthy (dict_get d "compacted") = true ->
  TrackingCompactingSession._record_compaction_delta B s (PDict d) after
  = Some s' ->
  TrackingCompactingSession._pending_tools_delta s'
  = TrackingCompactingSession._pending_tools_delta s
  /\ TrackingCompactingSession._last_context_delta_usage s'
     = TrackingCompactingSession._last_context_delta_usage s
  /\ TrackingCompactingSession._items s' = TrackingCompactingSession._items s.
Proof.
  intros Hmark Hrec.
  destruct (record_compaction_delta_spec B s s' (PDict d) after Hrec)
    as (b & a & Hb & Ha & Hp & Hd & Hi).
  rewrite (token_count_compacted B d Hmark) in Hb. injection Hb as <-.
  pose proof (token_count_nonneg B after a Ha).
  repeat split; try assumption. lia.
Qed.

Lemma recompaction_records_nothing_witness :
  let B :=
    mkBase (fun stored new => ((stored ++ new)%list, []))
      (fun items _ _ _ => items) (fun items _ _ _ => items) (fun _ => 7) in
  let marked := [("compacted", PBool true); ("output", PStr "text")] in
  let s := TrackingCompactingSession.mk [PDict marked] false zero_usage (-3) in
  let s' := TrackingCompactingSession.mk [PDict marked] true zero_usage (-3) in
  TrackingCompactingSession._record_compaction_delta B s (PDict marked)
    (PDict [("output", PStr "longer text")]) = Some s'
  /\ TrackingCompactingSession._pending_tools_delta s'
     = TrackingCompactingSession._pending_tools_delta s.
Proof.
  intros B marked s s'. split; [reflexivity|].
  destruct (recompaction_records_nothing B s s' marked
              (PDict [("output", PStr "longer text")])) as (H & _).
  - reflexivity.
  - reflexivity.
  - exact H.
Defined.

(** ** Turn counting against usage counting *)

(** X14.  An item the windowing counts as a user turn is never counted as
    agent output by the usage estimator: it is a dict whose role is the
    string ["user"], and its tokens go to [userInput], or to [tools] when
    its message type marks it as a tool item. *)
Theorem user_turn_is_not_agent_output (it : item) :
  _is_user_msg it = true ->
  exists d,
    it = PDict d
    /\ dict_lookup d "role" = Some (PStr "user")
    /\ fst (_extract_role_and_text it)
       = (if is_tool_typed d then "tool" else "user")
    /\ agentOutput (_estimate_usage_for_items [it]) = 0.
Proof.
  intros Hu. destruct it as [| | | | |d]; try discriminate.
  exists d. split; [reflexivity|].
  assert (Hrole : dict_lookup d "role" = Some (PStr "user")).
  { unfold _is_user_msg, dict_get, dict_get_default in Hu.
    destruct (dict_lookup d "role") as [[| | |r| |]|]; try discriminate.
    - destruct (py_eq_str _ "message"); discriminate.
    - simpl in Hu. apply String.eqb_eq in Hu. subst r. reflexivity.
    - destruct (py_eq_str _ "message"); discriminate. }
  split; [exact Hrole|].
  assert (Heff : fst (_extract_role_and_text (PDict d))
                 = if is_tool_typed d then "tool" else "user").
  { rewrite extract_role_of_dict. unfold effective_role, dict_get_default.
    rewrite Hrole. reflexivity. }
  split; [exact Heff|].
  rewrite estimate_usage_single. unfold bucket_of.
  destruct (_extract_role_and_text (PDict d)) as [role text].
  simpl fst in Heff. subst role.
  destruct (is_tool_typed d); reflexivity.
Qed.

Lemma user_turn_is_not_agent_output_witness :
  agentOutput (_estimate_usage_for_items [user_message "hello there"]) = 0.
Proof.
  destruct (user_turn_is_not_agent_output (user_message "hello there"))
    as (d & _ & _ & _ & H).
  - reflexivity.
  - exact H.
Defined.

(** ** LLMSummarizer and the sessions that use it *)

Lemma llm_summarize_shadow (L : LLMSummarizer.t) (messages : list item) :
  fst (LLMSummarizer.summarize L messages) = LLMSummarizer.user_shadow.
Proof.
  unfold LLMSummarizer.summarize.
  destruct (is_nil _); [reflexivity|].
  destruct (LLMSummarizer.client L _ _ _); reflexivity.
Qed.

Lemma summarize_prefix_llm (L : LLMSummarizer.t) (s : SummarizingSession.t)
    (prefix : list item) :
  SummarizingSession._summarizer s = LLMSummarizer.as_summarizer L ->
  SummarizingSession.summarize_prefix s prefix
  = LLMSummarizer.summarize L prefix.
Proof.
  intros Hs. unfold SummarizingSession.summarize_prefix.
  rewrite Hs. unfold LLMSummarizer.as_summarizer.
  destruct (LLMSummarizer.summarize L prefix). reflexivity.
Qed.

(** X15.  [LLMSummarizer.summarize] always returns the same non-empty shadow
    line.  So in a [SummarizingSession] that summarizes through it, a
    summary is never stored without its synthetic user message, and the
    turn counter after a summarization is the number of user messages of the
    kept suffix plus 1 exactly when that user message was inserted, clamped
    to the context limit. *)
Theorem llm_summarizer_inserts_user_with_summary (L : LLMSummarizer.t)
    (s : SummarizingSession.t) (items : list item) :
  SummarizingSession._summarizer s = LLMSummarizer.as_summarizer L ->
  reaches_limit s items ->
  pending_prefix s items <> [] ->
  let s' := SummarizingSession.add_items s items in
  fst (LLMSummarizer.summarize L (pending_prefix s items))
  = "Summarize the conversation we had so far."
  /\ (SummarizingSession.get_last_summary s' <> None ->
      exists text,
        SummarizingSession._items s'
        = user_message "Summarize the conversation we had so far."
          :: assistant_message text :: pending_suffix s items)
  /\ SummarizingSession._internal_turn_counter s'
     = Z.max 0
         (Z.min (_count_user_turns (pending_suffix s items)
                 + (if inserted_synthetic_user s items then 1 else 0))
                (SummarizingSession.max_turns s)).
Proof.
  intros HL Hlim Hpre s'.
  destruct (summarizing_add_items_triggered s items Hlim Hpre)
    as (Hit & Hcnt & Hlast & _).
  fold s' in Hit, Hcnt, Hlast.
  rewrite (summarize_prefix_llm L s _ HL) in Hit, Hcnt, Hlast.
  pose proof (llm_summarize_shadow L (pending_prefix s items)) as Hsh.
  split; [exact Hsh|]. split.
  - unfold SummarizingSession.get_last_summary. rewrite Hlast. intros Hsome.
    destruct (LLMSummarizer.summarize L (pending_prefix s items))
      as [shadow text] eqn:Hsum.
    simpl fst in *. simpl snd in *.
    destruct (nonempty text) eqn:Htx; [|contradiction].
    exists text. rewrite Hit.
    unfold SummarizingSession.synthetic_items_of.
    apply is_nil_false in Hpre. rewrite Hpre, Htx, Hsh. reflexivity.
  - rewrite Hcnt. unfold inserted_synthetic_user.
    rewrite (summarize_prefix_llm L s _ HL), Hsh. reflexivity.
Qed.

Lemma llm_summarizer_inserts_user_with_summary_witness :
  let L :=
    LLMSummarizer.mk (fun _ _ _ => Some (mkResponse (Some " S ") []))
      "gpt-4o" 400 600 "prompt" in
  let s :=
    SummarizingSession.add_items
      (SummarizingSession.init 1 2 (LLMSummarizer.as_summarizer L))
      [user_message "a"; assistant_message "b"] in
  SummarizingSession._internal_turn_counter
    (SummarizingSession.add_items s [user_message "c"])
  = 2.
Proof.
  intros L s.
  destruct (llm_summarizer_inserts_user_with_summary L s [user_message "c"])
    as (_ & _ & H).
  - reflexivity.
  - split; [discriminate | vm_compute; discriminate].
  - vm_compute. discriminate.
  - exact H.
Defined.

(** X16.  When the model call behind [LLMSummarizer.summarize] fails while
    there is something to summarize, the summarizer returns its fixed
    placeholder instead of raising, and the session summarizes as usual: the
    prefix is replaced by the shadow line and the placeholder summary. *)
Theorem llm_client_failure_still_summarizes (L : LLMSummarizer.t)
    (s : SummarizingSession.t) (items : list item) :
  SummarizingSession._summarizer s = LLMSummarizer.as_summarizer L ->
  reaches_limit s items ->
  pending_prefix s items <> [] ->
  LLMSummarizer.snippets_of L (pending_prefix s items) <> [] ->
  LLMSummarizer.client L (LLMSummarizer.model L)
    (LLMSummarizer.prompt_messages L
       (LLMSummarizer.snippets_of L (pending_prefix s items)))
    (LLMSummarizer.max_tokens L) = None ->
  let s' := SummarizingSession.add_items s items in
  LLMSummarizer.summarize L (pending_prefix s items)
  = ("Summarize the conversation we had so far.",
     "Summary of earlier conversation (unavailable).")
  /\ SummarizingSession._items s'
     = user_message "Summarize the conversation we had so far."
       :: assistant_message "Summary of earlier conversation (unavailable)."
       :: pending_suffix s items
  /\ SummarizingSession.get_last_summary s'
     = Some ("Summarize the conversation we had so far.",
             "Summary of earlier conversation (unavailable).").
Proof.
  intros HL Hlim Hpre Hsn Hfail s'.
  assert (Hsum : LLMSummarizer.summarize L (pending_prefix s items)
                 = ("Summarize the conversation we had so far.",
                    "Summary of earlier conversation (unavailable).")).
  { unfold LLMSummarizer.summarize.
    apply is_nil_false in Hsn. rewrite Hsn, Hfail. reflexivity. }
  destruct (summarizing_add_items_triggered s items Hlim Hpre)
    as (Hit & _ & Hlast & _).
  fold s' in Hit, Hlast.
  rewrite (summarize_prefix_llm L s _ HL), Hsum in Hit, Hlast.
  unfold SummarizingSession.synthetic_items_of in Hit.
  apply is_nil_false in Hpre. rewrite Hpre in Hit.
  split; [exact Hsum|]. split; [exact Hit | exact Hlast].
Qed.

Lemma llm_client_failure_still_summarizes_witness :
  let L := LLMSummarizer.mk (fun _ _ _ => None) "gpt-4o" 400 600 "prompt" in
  let s :=
    SummarizingSession.add_items
      (SummarizingSession.init 1 2 (LLMSummarizer.as_summarizer L))
      [user_message "a"; assistant_message "b"] in
  SummarizingSession._items
    (SummarizingSession.add_items s [user_message "c"])
  = [user_message "Summarize the conversation we had so far.";
     assistant_message "Summary of earlier conversation (unavailable).";
     user_message "c"].
Proof.
  intros L s.
  destruct (llm_client_failure_still_summarizes L s [user_message "c"])
    as (_ & H & _).
  - reflexivity.
  - split; [discriminate | vm_compute; discriminate].
  - vm_compute. discriminate.
  - vm_compute. discriminate.
  - reflexivity.
  - exact H.
Defined.

(** X17.  When no message of the prefix has text to show (every one is
    empty after stripping or carries a truthy [summary] in its metadata),
    [LLMSummarizer.summarize] returns an empty summary without consulting
    the model, and the session stores no synthetic message and records no
    summary: it stores the unforced window of the pending items. *)
Theorem llm_nothing_to_summarize (L : LLMSummarizer.t)
    (s : SummarizingSession.t) (items : list item) :
  SummarizingSession._summarizer s = LLMSummarizer.as_summarizer L ->
  reaches_limit s items ->
  pending_prefix s items <> [] ->
  LLMSummarizer.snippets_of L (pending_prefix s items) = [] ->
  let s' := SummarizingSession.add_items s items in
  LLMSummarizer.summarize L (pending_prefix s items)
  = ("Summarize the conversation we had so far.", EmptyString)
  /\ SummarizingSession._items s'
     = fst (_trim_to_last_turns (SummarizingSession.max_turns s)
              (SummarizingSession.keep_last_n_turns s)
              (pending_items s items) false)
  /\ SummarizingSession.get_last_summary s' = None.
Proof.
  intros HL Hlim Hpre Hsn s'.
  assert (Hsum : LLMSummarizer.summarize L (pending_prefix s items)
                 = ("Summarize the conversation we had so far.", EmptyString)).
  { unfold LLMSummarizer.summarize. rewrite Hsn. reflexivity. }
  destruct (summarizing_add_items_triggered s items Hlim Hpre)
    as (Hit & _ & Hlast & _).
  fold s' in Hit, Hlast.
  rewrite (summarize_prefix_llm L s _ HL), Hsum in Hit, Hlast.
  split; [exact Hsum|]. split; [exact Hit | exact Hlast].
Qed.

Lemma llm_nothing_to_summarize_witness :
  let L :=
    LLMSummarizer.mk (fun _ _ _ => Some (mkResponse (Some "S") []))
      "gpt-4o" 400 600 "prompt" in
  let s :=
    SummarizingSession.add_items
      (SummarizingSession.init 1 2 (LLMSummarizer.as_summarizer L))
      [user_message "  "; assistant_message EmptyString] in
  SummarizingSession.get_last_summary
    (SummarizingSession.add_items s [user_message "c"]) = None.
Proof.
  intros L s.
  destruct (llm_nothing_to_summarize L s [user_message "c"])
    as (_ & _ & H).
  - reflexivity.
  - split; [discriminate | vm_compute; discriminate].
  - vm_compute. discriminate.
  - reflexivity.
  - exact H.
Defined.

(** ** The session registry *)

Lemma assoc_find_set_same {B : Type} (d : list (string * B)) (k : string)
    (v : B) :
  assoc_find (assoc_set d k v) k = Some v.
Proof.
  induction d as [|[k' v'] d IH]; simpl.
  - rewrite String.eqb_refl. reflexivity.
  - destruct (String.eqb k' k) eqn:Hk; simpl.
    + rewrite String.eqb_refl. reflexivity.
    + rewrite Hk. exact IH.
Qed.

Lemma assoc_find_set_other {B : Type} (d : list (string * B)) (k k2 : string)
    (v : B) :
  k2 <> k -> assoc_find (assoc_set d k v) k2 = assoc_find d k2.
Proof.
  intros Hne. induction d as [|[k' v'] d IH]; simpl.
  - destruct (String.eqb_spec k k2); [congruence | reflexivity].
  - destruct (String.eqb_spec k' k) as [->|Hk]; simpl.
    + destruct (String.eqb_spec k k2); [congruence | reflexivity].
    + destruct (String.eqb k' k2); [reflexivity | exact IH].
Qed.

Lemma register_find (w : world) (agent_id : string) (x : session) :
  assoc_find (SESSIONS (register w agent_id x)) agent_id = Some x
  /\ forall other,
       other <> agent_id ->
       assoc_find (SESSIONS (register w agent_id x)) other
       = assoc_find (SESSIONS w) other.
Proof.
  split; [apply assoc_find_set_same|].
  intros other Hne. apply assoc_find_set_other. exact Hne.
Qed.

Lemma ensure_openai_client_sessions (rt : runtime) (w w1 : world)
    (c : openai_client) :
  ensure_openai_client rt w = Some (c, w1) -> SESSIONS w1 = SESSIONS w.
Proof.
  unfold ensure_openai_client.
  destruct (OPENAI_CLIENT w); [intros [= _ <-]; reflexivity|].
  destruct (AsyncOpenAI rt); [intros [= _ <-]; reflexivity | discriminate].
Qed.

(** X18.  [_ensure_session] returns the session that is registered under
    the identifier afterwards, and leaves the sessions of all other
    identifiers as they were. *)
Theorem ensure_session_registers_result (rt : runtime) (w w' : world)
    (agent_id : string) (config : dict) (x : session) :
  _ensure_session rt w agent_id config = Some (x, w') ->
  assoc_find (SESSIONS w') agent_id = Some x
  /\ forall other,
       other <> agent_id ->
       assoc_find (SESSIONS w') other = assoc_find (SESSIONS w) other.
Proof.
  unfold _ensure_session.
  destruct (py_truthy (dict_get config "memorySummarization")).
  { destruct (assoc_find (SESSIONS w) agent_id) as [[d|t|u|c]|];
      try (destruct (ensure_openai_client rt w) as [[cl w1]|] eqn:Hc;
           [|discriminate]; intros [= <- <-];
           destruct (register_find w1 agent_id
                       (SSummarizing
                          (SummarizingSession.init
                             (or_default
                                (_positive_int rt
                                   (dict_get config
                                      "summarizationKeepRecentTurns")) 3)
                             (Z.max
                                (or_default
                                   (_positive_int rt
                                      (dict_get config
                                         "summarizationTriggerTurns")) 5)
                                (or_default
                                   (_positive_int rt
                                      (dict_get config
                                         "summarizationKeepRecentTurns")) 3))
                             (LLMSummarizer.as_summarizer
                                (default_summarizer rt cl)))))
             as [H1 H2];
           split; [exact H1|];
           intros other Hne; rewrite (H2 other Hne);
           rewrite (ensure_openai_client_sessions rt w w1 cl Hc);
           reflexivity).
    intros [= <- <-]. apply register_find. }
  destruct (py_truthy (dict_get config "memoryCompacting")).
  { intros [= <- <-]. apply register_find. }
  destruct (py_truthy (dict_get config "memoryTrimming")).
  { intros [= <- <-]. apply register_find. }
  destruct (assoc_find (SESSIONS w) agent_id) as [[d|t|u|c]|] eqn:Hex;
    intros [= <- <-]; try apply register_find.
  split; [exact Hex | reflexivity].
Qed.

Lemma ensure_session_registers_result_witness :
  let rt :=
    mkRuntime (fun _ => None) None "prompt"
      (fun _ tr k ex cl =>
         mkCompacting tr k ex cl TrackingCompactingSession.init) in
  let x := STrimming (TrimmingSession.init 9 (Some 4)) in
  assoc_find (SESSIONS (mkWorld [("a", x)] None)) "a" = Some x.
Proof.
  intros rt x.
  destruct (ensure_session_registers_result rt (mkWorld [] None)
              (mkWorld [("a", x)] None) "a"
              [("memoryTrimming", PBool true)] x) as [H _].
  - reflexivity.
  - exact H.
Defined.

Lemma positive_or_default (rt : runtime) (value : pyval) (default : Z) :
  1 <= default -> 1 <= or_default (_positive_int rt value) default.
Proof.
  intros Hd. unfold or_default, _positive_int.
  destruct (py_int rt value) as [n|]; [|exact Hd].
  destruct (Z.leb_spec n 0); [exact Hd | lia].
Qed.

Ltac show_limits :=
  cbv [bounded_limits SummarizingSession.keep_last_n_turns
       SummarizingSession.max_turns SummarizingSession.base
       SummarizingSession.init SummarizingSession.configure_limits
       TrimmingSession.keep_last_n_turns TrimmingSession.max_turns
       TrimmingSession.init assign_limits];
  lia.

(** X19.  The session [_ensure_session] returns is chosen by the flags in
    the order summarization, compacting, trimming, default, and its turn
    limits are consistent whatever the configuration holds: for a trimming
    or summarizing session [1 <= keep_last_n_turns <= max_turns]. *)
Theorem ensure_session_kind_and_limits (rt : runtime) (w w' : world)
    (agent_id : string) (config : dict) (x : session) :
  _ensure_session rt w agent_id config = Some (x, w') ->
  bounded_limits x
  /\ (flag config "memorySummarization" = true ->
      exists u, x = SSummarizing u)
  /\ (flag config "memorySummarization" = false ->
      flag config "memoryCompacting" = true ->
      exists c, x = SCompacting c)
  /\ (flag config "memorySummarization" = false ->
      flag config "memoryCompacting" = false ->
      flag config "memoryTrimming" = true ->
      (exists t, x = STrimming t) \/ (exists u, x = SSummarizing u))
  /\ (flag config "memorySummarization" = false ->
      flag config "memoryCompacting" = false ->
      flag config "memoryTrimming" = false ->
      exists d, x = SDefault d).
Proof.
  unfold _ensure_session, flag.
  pose proof (positive_or_default rt
                (dict_get config "summarizationKeepRecentTurns") 3
                ltac:(lia)) as Hk.
  pose proof (positive_or_default rt
                (dict_get config "summarizationTriggerTurns") 5
                ltac:(lia)) as Hl.
  pose proof (positive_or_default rt (dict_get config "memoryMaxTurns") 9
                ltac:(lia)) as Hm.
  pose proof (positive_or_default rt
                (dict_get config "memoryKeepRecentTurns") 4 ltac:(lia)) as Hr.
  destruct (py_truthy (dict_get config "memorySummarization")).
  { destruct (assoc_find (SESSIONS w) agent_id) as [[d|t|u|c]|];
      try (destruct (ensure_openai_client rt w) as [[cl w1]|];
           [|discriminate]);
      intros [= <- <-];
      (split; [show_limits|]);
      (split; [intros _; eexists; reflexivity|]);
      repeat split; discriminate. }
  destruct (py_truthy (dict_get config "memoryCompacting")).
  { intros [= <- <-].
    destruct (assoc_find (SESSIONS w) agent_id) as [[d|t|u|c]|];
      (split; [exact I|]);
      (split; [discriminate|]);
      (split; [intros _ _; eexists; reflexivity|]);
      repeat split; discriminate. }
  destruct (py_truthy (dict_get config "memoryTrimming")).
  { intros [= <- <-].
    destruct (assoc_find (SESSIONS w) agent_id) as [[d|t|u|c]|];
      (split; [show_limits|]);
      (split; [discriminate|]);
      (split; [discriminate|]);
      (split; [intros _ _ _|discriminate]);
      first [left; eexists; reflexivity | right; eexists; reflexivity]. }
  destruct (assoc_find (SESSIONS w) agent_id) as [[d|t|u|c]|];
    intros [= <- <-];
    (split; [exact I|]);
    (split; [discriminate|]);
    (split; [discriminate|]);
    (split; [discriminate|]);
    intros _ _ _; eexists; reflexivity.
Qed.

Lemma ensure_session_kind_and_limits_witness :
  let rt :=
    mkRuntime (fun _ => None) None "prompt"
      (fun _ tr k ex cl =>
         mkCompacting tr k ex cl TrackingCompactingSession.init) in
  bounded_limits (STrimming (TrimmingSession.init 2 (Some 2))).
Proof.
  intros rt.
  destruct (ensure_session_kind_and_limits rt (mkWorld [] None)
              (mkWorld [("a", STrimming (TrimmingSession.init 2 (Some 2)))]
                 None)
              "a"
              [("memoryTrimming", PBool true); ("memoryMaxTurns", PInt 2);
               ("memoryKeepRecentTurns", PInt 7)]
              (STrimming (TrimmingSession.init 2 (Some 2)))) as [H _].
  - reflexivity.
  - exact H.
Defined.

(** X20.  [_ensure_session] keeps the conversation exactly when the
    registered session is of the class the configuration asks for: then the
    returned session stores the same items, untouched; otherwise, and when
    nothing was registered, a default, trimming or summarizing session is
    returned empty. *)
Theorem ensure_session_keeps_history_of_same_class (rt : runtime)
    (w w' : world) (agent_id : string) (config : dict) (x : session) :
  _ensure_session rt w agent_id config = Some (x, w') ->
  (forall old,
     assoc_find (SESSIONS w) agent_id = Some old ->
     accepts config old = true ->
     stored_items x = stored_items old)
  /\ ((assoc_find (SESSIONS w) agent_id = None
       \/ exists old,
            assoc_find (SESSIONS w) agent_id = Some old
            /\ accepts config old = false) ->
      is_compacting x = false ->
      stored_items x = []).
Proof.
  unfold _ensure_session, accepts, flag.
  destruct (py_truthy (dict_get config "memorySummarization")).
  { destruct (assoc_find (SESSIONS w) agent_id) as [[d|t|u|c]|];
      try (destruct (ensure_openai_client rt w) as [[cl w1]|];
           [|discriminate]);
      intros [= <- <-]; split;
      try (intros old [= <-]; try discriminate; intros _; reflexivity);
      try (intros old; discriminate);
      try (intros _ _; reflexivity).
    intros [Hnone | (old & [= <-] & Hacc)]; discriminate. }
  destruct (py_truthy (dict_get config "memoryCompacting")).
  { intros [= <- <-].
    destruct (assoc_find (SESSIONS w) agent_id) as [[d|t|u|c]|]; split;
      try (intros old [= <-]; try discriminate; intros _; reflexivity);
      try (intros old; discriminate);
      try (intros _; discriminate). }
  destruct (py_truthy (dict_get config "memoryTrimming")).
  { intros [= <- <-].
    destruct (assoc_find (SESSIONS w) agent_id) as [[d|t|u|c]|]; split;
      try (intros old [= <-]; try discriminate; intros _; reflexivity);
      try (intros old; discriminate);
      try (intros _ _; reflexivity);
      intros [Hnone | (old & [= <-] & Hacc)]; discriminate. }
  destruct (assoc_find (SESSIONS w) agent_id) as [[d|t|u|c]|];
    intros [= <- <-]; split;
    try (intros old [= <-]; try discriminate; intros _; reflexivity);
    try (intros old; discriminate);
    try (intros _ _; reflexivity).
  intros [Hnone | (old & [= <-] & Hacc)]; discriminate.
Qed.

Lemma ensure_session_keeps_history_of_same_class_witness :
  let rt :=
    mkRuntime (fun _ => None) None "prompt"
      (fun _ tr k ex cl =>
         mkCompacting tr k ex cl TrackingCompactingSession.init) in
  let old :=
    STrimming
      (TrimmingSession.add_items (TrimmingSession.init 9 (Some 4))
         [user_message "a"; user_message "b"; user_message "c"]) in
  exists x w',
    _ensure_session rt (mkWorld [("a", old)] None) "a"
      [("memoryTrimming", PBool true); ("memoryMaxTurns", PInt 2)]
    = Some (x, w')
    /\ stored_items x
       = [user_message "a"; user_message "b"; user_message "c"].
Proof.
  intros rt old.
  destruct (_ensure_session rt (mkWorld [("a", old)] None) "a"
              [("memoryTrimming", PBool true); ("memoryMaxTurns", PInt 2)])
    as [[x w']|] eqn:He; [|discriminate].
  exists x, w'. split; [reflexivity|].
  destruct (ensure_session_keeps_history_of_same_class rt
              (mkWorld [("a", old)] None) w' "a"
              [("memoryTrimming", PBool true); ("memoryMaxTurns", PInt 2)]
              x He) as [H _].
  apply (H old); reflexivity.
Defined.

(** X21.  A summarizing session survives a configuration that asks for
    trimming only: [_ensure_session] finds it to be a [TrimmingSession],
    overwrites its two limits and returns it, with its summarizer, its items
    and its last summary, so the conversation goes on being summarized. *)
Theorem summarizing_session_survives_trimming_config (rt : runtime)
    (w : world) (agent_id : string) (config : dict)
    (u : SummarizingSession.t) :
  assoc_find (SESSIONS w) agent_id = Some (SSummarizing u) ->
  flag config "memorySummarization" = false ->
  flag config "memoryCompacting" = false ->
  flag config "memoryTrimming" = true ->
  exists u' w',
    _ensure_session rt w agent_id config = Some (SSummarizing u', w')
    /\ SummarizingSession._summarizer u' = SummarizingSession._summarizer u
    /\ SummarizingSession._items u' = SummarizingSession._items u
    /\ SummarizingSession._last_summary u' = SummarizingSession._last_summary u
    /\ SummarizingSession.max_turns u'
       = or_default (_positive_int rt (dict_get config "memoryMaxTurns")) 9
    /\ SummarizingSession.keep_last_n_turns u'
       = Z.min
           (or_default
              (_positive_int rt (dict_get config "memoryKeepRecentTurns")) 4)
           (SummarizingSession.max_turns u').
Proof.
  unfold flag. intros Hex Hs Hc Ht.
  unfold _ensure_session. rewrite Hex, Hs, Hc, Ht.
  eexists. eexists. split; [reflexivity|]. repeat split.
Qed.

Lemma summarizing_session_survives_trimming_config_witness :
  let rt :=
    mkRuntime (fun _ => None) None "prompt"
      (fun _ tr k ex cl =>
         mkCompacting tr k ex cl TrackingCompactingSession.init) in
  let u := SummarizingSession.init 3 5 (fun _ => Raises) in
  exists u' w',
    _ensure_session rt (mkWorld [("a", SSummarizing u)] None) "a"
      [("memoryTrimming", PBool true)]
    = Some (SSummarizing u', w')
    /\ SummarizingSession.max_turns u' = 9.
Proof.
  intros rt u.
  destruct (summarizing_session_survives_trimming_config rt
              (mkWorld [("a", SSummarizing u)] None) "a"
              [("memoryTrimming", PBool true)] u)
    as (u' & w' & He & _ & _ & _ & HM & _); try reflexivity.
  exists u', w'. split; [exact He | exact HM].
Defined.

(** X22.  Reconfiguring a registered trimming session through
    [_ensure_session] assigns the limits without trimming: the stored items
    and the turn counter are the old ones, however many user turns they
    hold.  What [get_items()] then returns is a trailing part of them with
    at most [max_turns] user messages. *)
Theorem ensure_session_does_not_retrim (rt : runtime) (w : world)
    (agent_id : string) (config : dict) (t : TrimmingSession.t) :
  assoc_find (SESSIONS w) agent_id = Some (STrimming t) ->
  flag config "memorySummarization" = false ->
  flag config "memoryCompacting" = false ->
  flag config "memoryTrimming" = true ->
  exists t' w',
    _ensure_session rt w agent_id config = Some (STrimming t', w')
    /\ TrimmingSession._items t' = TrimmingSession._items t
    /\ TrimmingSession._internal_turn_counter t'
       = TrimmingSession._internal_turn_counter t
    /\ _count_user_turns (TrimmingSession.get_items t' None)
       <= TrimmingSession.max_turns t'
    /\ exists dropped,
         TrimmingSession._items t
         = (dropped ++ TrimmingSession.get_items t' None)%list.
Proof.
  unfold flag. intros Hex Hs Hc Ht.
  unfold _ensure_session. rewrite Hex, Hs, Hc, Ht.
  eexists. eexists. split; [reflexivity|].
  split; [reflexivity|]. split; [reflexivity|].
  pose proof (positive_or_default rt (dict_get config "memoryMaxTurns") 9
                ltac:(lia)) as Hm.
  pose proof (positive_or_default rt
                (dict_get config "memoryKeepRecentTurns") 4 ltac:(lia)) as Hr.
  unfold TrimmingSession.get_items, TrimmingSession.trim, assign_limits.
  cbn [TrimmingSession.max_turns TrimmingSession.keep_last_n_turns
       TrimmingSession._items].
  split; [apply trim_turns_le; lia | apply trim_is_suffix].
Qed.

Lemma ensure_session_does_not_retrim_witness :
  let rt :=
    mkRuntime (fun _ => None) None "prompt"
      (fun _ tr k ex cl =>
         mkCompacting tr k ex cl TrackingCompactingSession.init) in
  let t :=
    TrimmingSession.add_items (TrimmingSession.init 9 (Some 4))
      [user_message "a"; user_message "b"; user_message "c"] in
  exists t' w',
    _ensure_session rt (mkWorld [("a", STrimming t)] None) "a"
      [("memoryTrimming", PBool true); ("memoryMaxTurns", PInt 2)]
    = Some (STrimming t', w')
    /\ TrimmingSession._items t'
       = [user_message "a"; user_message "b"; user_message "c"].
Proof.
  intros rt t.
  destruct (ensure_session_does_not_retrim rt
              (mkWorld [("a", STrimming t)] None) "a"
              [("memoryTrimming", PBool true); ("memoryMaxTurns", PInt 2)] t)
    as (t' & w' & He & Hit & _); try reflexivity.
  exists t', w'. split; [exact He | exact Hit].
Defined.

Lemma fold_register_find (v : session) (ids : list string) :
  forall w,
    let w' := fold_left (fun w agent_id => register w agent_id v) ids w in
    (forall agent_id,
       In agent_id ids -> assoc_find (SESSIONS w') agent_id = Some v)
    /\ (forall agent_id,
          ~ In agent_id ids ->
          assoc_find (SESSIONS w') agent_id
          = assoc_find (SESSIONS w) agent_id).
Proof.
  induction ids as [|a ids IH]; intros w; simpl.
  - split; [intros ? []| reflexivity].
  - destruct (IH (register w a v)) as [Hin Hout]. split.
    + intros agent_id [<-|Hi]; [|apply Hin; exact Hi].
      destruct (in_dec string_dec a ids) as [Hi|Hni]; [apply Hin; exact Hi|].
      rewrite (Hout a Hni). apply assoc_find_set_same.
    + intros agent_id Hni. rewrite Hout by tauto.
      apply assoc_find_set_other. intros ->. apply Hni. left. reflexivity.
Qed.

(** X23.  [configure_trimming_sessions], when it returns, has replaced the
    session of every listed identifier by a new empty one, a
    [TrimmingSession] with [1 <= keep_last_n_turns <= max_turns] when
    enabling and a [DefaultSession] otherwise, whatever was registered
    before; the sessions of all other identifiers are as they were. *)
Theorem configure_trimming_sessions_resets_listed (rt : runtime)
    (w w' : world) (agent_ids : list pyval) (enable : bool)
    (max_turns keep_last : pyval) :
  configure_trimming_sessions rt w agent_ids enable max_turns keep_last
  = Some w' ->
  (forall agent_id,
     In agent_id (normalized_ids agent_ids) ->
     exists x,
       assoc_find (SESSIONS w') agent_id = Some x
       /\ stored_items x = []
       /\ bounded_limits x
       /\ (if enable then exists t, x = STrimming t
           else x = SDefault DefaultSession.init))
  /\ (forall agent_id,
        ~ In agent_id (normalized_ids agent_ids) ->
        assoc_find (SESSIONS w') agent_id = assoc_find (SESSIONS w) agent_id).
Proof.
  unfold configure_trimming_sessions.
  destruct (normalized_ids agent_ids) as [|a ids] eqn:Hids.
  { intros [= <-]. split; [intros ? []| reflexivity]. }
  destruct (at_least_one_or rt max_turns 9) as [dm|] eqn:Hm; [|discriminate].
  destruct (at_least_one_or rt keep_last 4) as [dk|] eqn:Hk; [|discriminate].
  intros [= <-].
  assert (Hdm : 1 <= dm).
  { unfold at_least_one_or in Hm.
    destruct max_turns; try (injection Hm as <-; lia);
      destruct (py_int rt _); try discriminate; injection Hm as <-; lia. }
  assert (Hdk : 1 <= dk).
  { unfold at_least_one_or in Hk.
    destruct keep_last; try (injection Hk as <-; lia);
      destruct (py_int rt _); try discriminate; injection Hk as <-; lia. }
  match goal with
  | |- context [fold_left (fun w agent_id => register w agent_id ?v) _ _] =>
      destruct (fold_register_find v (a :: ids) w) as [Hin Hout]
  end.
  split; [|exact Hout].
  intros agent_id Hi. eexists. split; [apply Hin; exact Hi|].
  destruct enable.
  - split; [reflexivity|]. split; [show_limits|]. eexists. reflexivity.
  - split; [reflexivity|]. split; [exact I | reflexivity].
Qed.

Lemma configure_trimming_sessions_resets_listed_witness :
  let rt :=
    mkRuntime (fun _ => None) None "prompt"
      (fun _ tr k ex cl =>
         mkCompacting tr k ex cl TrackingCompactingSession.init) in
  let old :=
    STrimming
      (TrimmingSession.add_items (TrimmingSession.init 9 (Some 4))
         [user_message "a"]) in
  exists x,
    assoc_find
      (SESSIONS
         (mkWorld [("a", STrimming (TrimmingSession.init 1 (Some 1)))] None))
      "a" = Some x
    /\ stored_items x = [].
Proof.
  intros rt old.
  destruct (configure_trimming_sessions_resets_listed rt
              (mkWorld [("a", old)] None)
              (mkWorld [("a", STrimming (TrimmingSession.init 1 (Some 1)))]
                 None)
              [PStr "a"; PStr EmptyString] true (PInt 0) (PInt 5))
    as [H _].
  - reflexivity.
  - destruct (H "a") as (x & Hf & Hs & _); [left; reflexivity|].
    exists x. split; assumption.
Defined.

(** ** More on usage estimation *)

Lemma bucket_rag_le_tools (it : item) :
  rag (bucket_of it) <= tools (bucket_of it).
Proof.
  unfold bucket_of. destruct (_extract_role_and_text it) as [role text].
  pose proof (estimate_tokens_nonneg text).
  destruct (String.eqb role "user"); [simpl; lia|].
  destruct (str_in role ["tool"; "tool_result"]); [|simpl; lia].
  destruct (_is_rag_tool_item it); simpl; lia.
Qed.

(** X24.  In every usage estimate the [rag] entry is at most the [tools]
    entry: retrieval tokens are only ever counted on top of tool tokens. *)
Theorem rag_is_part_of_tools (items : list item) :
  0 <= rag (_estimate_usage_for_items items)
  <= tools (_estimate_usage_for_items items).
Proof.
  induction items as [|it items IH].
  - simpl. lia.
  - change (it :: items) with ([it] ++ items)%list.
    rewrite estimate_usage_app, estimate_usage_single.
    pose proof (bucket_rag_le_tools it).
    pose proof (bucket_nonneg it).
    unfold usage_add. cbn [rag tools]. lia.
Qed.

(** X25.  Items that are not dicts (a bare string, a number, a list,
    [None]) are invisible to the accounting: they are no user turns and
    contribute no tokens to any usage entry, whatever they contain. *)
Theorem non_dict_items_count_nothing (items : list item) :
  forallb (fun it => negb (is_dict it)) items = true ->
  _estimate_usage_for_items items = zero_usage
  /\ _count_user_turns items = 0.
Proof.
  induction items as [|it items IH]; intros Hall; [split; reflexivity|].
  simpl in Hall. apply andb_true_iff in Hall. destruct Hall as [Hit Hrest].
  destruct (IH Hrest) as [Hu Hc].
  change (it :: items) with ([it] ++ items)%list.
  rewrite estimate_usage_app, count_user_turns_app, Hu, Hc.
  destruct it as [| | | | |d]; try discriminate; split; reflexivity.
Qed.

Lemma non_dict_items_count_nothing_witness :
  _estimate_usage_for_items
    [PStr "a long message that is not wrapped in a dict"; PInt 12345;
     PList [PStr "text"]; PNone]
  = zero_usage.
Proof.
  apply (non_dict_items_count_nothing
           [PStr "a long message that is not wrapped in a dict"; PInt 12345;
            PList [PStr "text"]; PNone]).
  reflexivity.
Defined.

(** ** TrackingCompactingSession over a series of calls *)

Lemma compacting_add_items_rest (B : compacting_base)
    (s s' : TrackingCompactingSession.t) (items : list item) :
  TrackingCompactingSession._pending_tools_delta s = 0 ->
  TrackingCompactingSession.add_items B s items = Some s' ->
  TrackingCompactingSession._pending_tools_delta s' = 0
  /\ tools (TrackingCompactingSession._last_context_delta_usage s')
     <= tools (TrackingCompactingSession._last_context_delta_usage s)
  /\ userInput (TrackingCompactingSession._last_context_delta_usage s')
     = userInput (TrackingCompactingSession._last_context_delta_usage s)
  /\ agentOutput (TrackingCompactingSession._last_context_delta_usage s')
     = agentOutput (TrackingCompactingSession._last_context_delta_usage s)
  /\ memory (TrackingCompactingSession._last_context_delta_usage s')
     = memory (TrackingCompactingSession._last_context_delta_usage s)
  /\ rag (TrackingCompactingSession._last_context_delta_usage s')
     = rag (TrackingCompactingSession._last_context_delta_usage s)
  /\ basePrompt (TrackingCompactingSession._last_context_delta_usage s')
     = basePrompt (TrackingCompactingSession._last_context_delta_usage s).
Proof.
  intros Hp H. unfold TrackingCompactingSession.add_items in H.
  destruct (is_nil items); [injection H as <-; repeat split; lia|].
  destruct (super_add_items B _ items) as [stored calls].
  destruct (TrackingCompactingSession.run_calls B _ calls) as [s1|] eqn:Hr;
    [|discriminate].
  injection H as <-.
  destruct (run_calls_keeps_delta B calls _ _ Hr) as [Hd Hle].
  simpl in Hd, Hle.
  destruct (apply_pending_spec s1) as (Ht & Hu & Ha & Hm & Hg & Hb & H0).
  rewrite Ht, Hu, Ha, Hm, Hg, Hb, Hd. repeat split; try assumption. lia.
Qed.

(** X26.  Over any series of [add_items] calls on a new
    [TrackingCompactingSession], whatever the base class compacts: between
    calls the pending tools delta is 0, the reported [tools] entry is never
    positive, and every other entry of the reported delta stays 0. *)
Theorem compacting_delta_only_lowers_tools (B : compacting_base)
    (calls : list (list item)) (s : TrackingCompactingSession.t) :
  compacting_calls B TrackingCompactingSession.init calls = Some s ->
  TrackingCompactingSession._pending_tools_delta s = 0
  /\ tools (TrackingCompactingSession._last_context_delta_usage s) <= 0
  /\ userInput (TrackingCompactingSession._last_context_delta_usage s) = 0
  /\ agentOutput (TrackingCompactingSession._last_context_delta_usage s) = 0
  /\ memory (TrackingCompactingSession._last_context_delta_usage s) = 0
  /\ rag (TrackingCompactingSession._last_context_delta_usage s) = 0
  /\ basePrompt (TrackingCompactingSession._last_context_delta_usage s) = 0.
Proof.
  assert (Hgen : forall calls s0 s,
             TrackingCompactingSession._pending_tools_delta s0 = 0 ->
             compacting_calls B s0 calls = Some s ->
             TrackingCompactingSession._pending_tools_delta s = 0
             /\ tools (TrackingCompactingSession._last_context_delta_usage s)
                <= tools (TrackingCompactingSession._last_context_delta_usage s0)
             /\ userInput (TrackingCompactingSession._last_context_delta_usage s)
                = userInput (TrackingCompactingSession._last_context_delta_usage s0)
             /\ agentOutput (TrackingCompactingSession._last_context_delta_usage s)
                = agentOutput (TrackingCompactingSession._last_context_delta_usage s0)
             /\ memory (TrackingCompactingSession._last_context_delta_usage s)
                = memory (TrackingCompactingSession._last_context_delta_usage s0)
             /\ rag (TrackingCompactingSession._last_context_delta_usage s)
                = rag (TrackingCompactingSession._last_context_delta_usage s0)
             /\ basePrompt (TrackingCompactingSession._last_context_delta_usage s)
                = basePrompt (TrackingCompactingSession._last_context_delta_usage s0)).
  { clear. induction calls as [|c calls IH]; intros s0 s Hp H; simpl in H.
    - injection H as <-. repeat split; try assumption; lia.
    - destruct (TrackingCompactingSession.add_items B s0 c) as [s1|] eqn:Ha;
        [|discriminate].
      destruct (compacting_add_items_rest B s0 s1 c Hp Ha)
        as (Hp1 & Ht & Hu & Hag & Hm & Hg & Hb).
      destruct (IH s1 s Hp1 H) as (Hp2 & Ht2 & Hu2 & Hag2 & Hm2 & Hg2 & Hb2).
      repeat split; try assumption; try lia; congruence. }
  intros H.
  destruct (Hgen calls TrackingCompactingSession.init s eq_refl H)
    as (Hp & Ht & Hu & Hag & Hm & Hg & Hb).
  simpl in Ht, Hu, Hag, Hm, Hg, Hb. repeat split; assumption.
Qed.

Lemma compacting_delta_only_lowers_tools_witness :
  let B :=
    mkBase
      (fun stored new =>
         ((stored ++ new)%list, [mkCall ToolResult 0 None None]))
      (fun items _ _ _ => map (fun _ => PDict [("compacted", PBool true)]) items)
      (fun items _ _ _ => items)
      (fun _ => 5) in
  let output :=
    PDict [("type", PStr "function_call_output"); ("output", PStr "text")] in
  let s :=
    TrackingCompactingSession.mk
      [PDict [("compacted", PBool true)]; PDict [("compacted", PBool true)]]
      true (mkUsage 0 0 (-5) 0 0 0) 0 in
  compacting_calls B TrackingCompactingSession.init [[output]; [output]]
  = Some s
  /\ TrackingCompactingSession._pending_tools_delta s = 0
  /\ tools (TrackingCompactingSession._last_context_delta_usage s) <= 0.
Proof.
  intros B output s. split; [reflexivity|].
  destruct (compacting_delta_only_lowers_tools B [[output]; [output]] s)
    as (Hp & Ht & _); [reflexivity|].
  split; assumption.
Defined.

(** ** Stripping and the exclusion list *)

Lemma string_rev_involutive (s : string) : string_rev (string_rev s) = s.
Proof.
  unfold string_rev.
  rewrite list_ascii_of_string_of_list_ascii, rev_involutive.
  apply string_of_list_ascii_of_string.
Qed.

Lemma lstrip_idempotent (s : string) : lstrip (lstrip s) = lstrip s.
Proof.
  induction s as [|c rest IH]; [reflexivity|]. simpl.
  destruct (is_space c) eqn:Hc; [exact IH|]. simpl. rewrite Hc. reflexivity.
Qed.

Lemma rstrip_idempotent (s : string) : rstrip (rstrip s) = rstrip s.
Proof.
  unfold rstrip. rewrite string_rev_involutive, lstrip_idempotent.
  reflexivity.
Qed.

Lemma lstrip_head (s : string) :
  lstrip s = EmptyString
  \/ exists c t, lstrip s = String c t /\ is_space c = false.
Proof.
  induction s as [|c rest IH]; [left; reflexivity|]. simpl.
  destruct (is_space c) eqn:Hc; [exact IH|].
  right. exists c, rest. split; [reflexivity | exact Hc].
Qed.

Lemma lstrip_before_last (m : list ascii) (c : ascii) :
  is_space c = false ->
  exists m',
    lstrip (string_of_list_ascii (m ++ [c]))
    = string_of_list_ascii (m' ++ [c]).
Proof.
  intros Hc. induction m as [|x m IH]; simpl.
  - rewrite Hc. exists []. reflexivity.
  - destruct (is_space x); [exact IH|]. exists (x :: m). reflexivity.
Qed.

Lemma rstrip_keeps_head (c : ascii) (t : string) :
  is_space c = false -> exists t', rstrip (String c t) = String c t'.
Proof.
  intros Hc. unfold rstrip, string_rev at 2. simpl list_ascii_of_string.
  simpl rev.
  destruct (lstrip_before_last (rev (list_ascii_of_string t)) c Hc)
    as (m' & ->).
  unfold string_rev. rewrite list_ascii_of_string_of_list_ascii.
  rewrite rev_app_distr. simpl. eexists. reflexivity.
Qed.

Lemma strip_idempotent (s : string) : strip (strip s) = strip s.
Proof.
  unfold strip.
  destruct (lstrip_head s) as [-> | (c & t & -> & Hc)]; [reflexivity|].
  destruct (rstrip_keeps_head c t Hc) as (t' & Ht).
  rewrite Ht at 1. simpl lstrip. rewrite Hc, <- Ht.
  apply rstrip_idempotent.
Qed.

Lemma filter_keeps_all {A : Type} (f : A -> bool) (l : list A) :
  Forall (fun x => f x = true) l -> filter f l = l.
Proof.
  induction 1 as [|x l Hx _ IH]; simpl; [reflexivity|].
  rewrite Hx, IH. reflexivity.
Qed.

Lemma exclude_tools_clean (value : pyval) :
  Forall (fun name => nonempty name = true /\ strip name = name)
    (_normalize_exclude_tools value).
Proof.
  unfold _normalize_exclude_tools. apply Forall_forall. intros name Hin.
  apply filter_In in Hin. destruct Hin as [Hin Hne].
  apply in_map_iff in Hin. destruct Hin as (candidate & <- & _).
  split; [exact Hne | apply strip_idempotent].
Qed.

(** X27.  [_normalize_exclude_tools] returns clean names: none is empty,
    none has leading or trailing white space (stripping it again changes
    nothing), and normalizing the returned list again gives the same list. *)
Theorem normalize_exclude_tools_is_idempotent (value : pyval) :
  let names := _normalize_exclude_tools value in
  Forall (fun name => name <> EmptyString /\ strip name = name) names
  /\ _normalize_exclude_tools (PList (map PStr names)) = names.
Proof.
  intros names. pose proof (exclude_tools_clean value) as Hclean.
  fold names in Hclean. split.
  - eapply Forall_impl; [|exact Hclean]. intros name [Hne Hs].
    split; [|exact Hs]. intros ->. discriminate.
  - unfold _normalize_exclude_tools at 1. rewrite map_map. simpl py_str.
    assert (Hmap : map (fun x => strip x) names = names).
    { clear -Hclean. induction Hclean as [|x l [_ Hx] _ IH];
        simpl; [reflexivity|]. rewrite Hx, IH. reflexivity. }
    rewrite Hmap. apply filter_keeps_all.
    eapply Forall_impl; [|exact Hclean]. intros name [Hne _]. exact Hne.
Qed.

(** ** The summary section of the persisted file *)














(** ** SummarizingSession: calls that do not summarize *)

(** X29.  The two ways a non-empty [SummarizingSession.add_items] goes
    without consulting the summarizer.  Below the context limit it stores
    the unforced window of the pending items and keeps the last summary and
    the pending delta as they are.  At the limit, when the pending items
    hold no more user turns than are to be kept, it stores the same window
    but the recorded last summary is cleared.  Either way nothing is dropped
    while the pending items hold fewer user turns than the limit. *)
Theorem summarizing_add_items_without_summary (s : SummarizingSession.t)
    (items : list item) :
  items <> [] ->
  let window :=
    fst (_trim_to_last_turns (SummarizingSession.max_turns s)
           (SummarizingSession.keep_last_n_turns s)
           (pending_items s items) false) in
  let s' := SummarizingSession.add_items s items in
  (SummarizingSession._internal_turn_counter s + _count_user_turns items
   < SummarizingSession.max_turns s ->
   SummarizingSession._items s' = window
   /\ SummarizingSession.get_last_summary s'
      = SummarizingSession.get_last_summary s
   /\ SummarizingSession._last_context_delta_usage s'
      = SummarizingSession._last_context_delta_usage s)
  /\ (reaches_limit s items ->
      _count_user_turns (pending_items s items)
      <= SummarizingSession.keep_last_n_turns s ->
      SummarizingSession._items s' = window
      /\ SummarizingSession.get_last_summary s' = None)
  /\ (_count_user_turns (pending_items s items)
      < SummarizingSession.max_turns s ->
      window = pending_items s items).
Proof.
  intros Hne window s'. split; [|split].
  - intros Hlow. subst s'. unfold SummarizingSession.add_items.
    apply is_nil_false in Hne. rewrite Hne.
    destruct (Z.leb_spec (SummarizingSession.max_turns s)
                (SummarizingSession._internal_turn_counter s
                 + _count_user_turns items)); [lia|].
    simpl negb. cbv iota. repeat split.
  - intros [_ Hlim] Hkeep. subst s'. unfold SummarizingSession.add_items.
    apply is_nil_false in Hne. rewrite Hne.
    apply Z.leb_le in Hlim. rewrite Hlim. cbv beta iota zeta. simpl negb.
    cbv iota.
    change (SummarizingSession._items s ++ items)%list
      with (pending_items s items).
    destruct (boundary_idx_cases (SummarizingSession.keep_last_n_turns s)
                (pending_items s items)) as (_ & Hall & _).
    destruct (Hall Hkeep) as [Hpre _].
    rewrite Hpre. cbv beta iota zeta. simpl is_nil. cbv beta iota zeta.
    simpl negb. cbv iota.
    unfold SummarizingSession.synthetic_items_of. simpl.
    split; reflexivity.
  - intros Hlow. subst window.
    rewrite trim_below_threshold by assumption. reflexivity.
Qed.

Lemma summarizing_add_items_without_summary_witness :
  let s := SummarizingSession.init 2 3 (fun _ => Returns "shadow" "summary") in
  SummarizingSession._items
    (SummarizingSession.add_items s [user_message "a"; assistant_message "b"])
  = [user_message "a"; assistant_message "b"].
Proof.
  intros s.
  destruct (summarizing_add_items_without_summary s
              [user_message "a"; assistant_message "b"]) as (H & _ & _).
  - discriminate.
  - destruct H as (Hit & _); [vm_compute; reflexivity|]. exact Hit.
Defined.
